(** * PTY-backed subprocess management: a model of [termux.c]

    A shallow embedding of the native half of the terminal session
    (terminal-emulator/src/main/jni/termux.c): the JNI entry points
    [createSubprocess], [setPtyWindowSize], [setPtyUTF8Mode] and [waitFor],
    and the static helper [create_subprocess].

    Integers of the C program are [Z] with the wrap-around written out,
    the per-process kernel state (descriptor table, terminal settings,
    environment, working directory) is a record threaded through the calls,
    and every system or library call leaves an [event] in a trace, so that
    "is attempted", "before" and "performs no write" are statements about
    that trace. *)

From Stdlib Require Import ZArith Lia List Bool Ascii String.
From stdpp Require Import base option list gmap strings.
Import ListNotations.
Open Scope Z_scope.

(** ** Machine integers *)

(** [jint] and C [int]: 32-bit two's complement. *)
Definition wrap32 (z : Z) : Z := (z + 2 ^ 31) mod 2 ^ 32 - 2 ^ 31.

(** The cast [(unsigned short) x]. *)
Definition to_ushort (z : Z) : Z := z mod 2 ^ 16.

(** [a * b] on [int] operands. *)
Definition int_mul (a b : Z) : Z := wrap32 (a * b).

Definition INT_MAX : Z := 2 ^ 31 - 1.
Definition INT_MIN : Z := - 2 ^ 31.

(** ** Wait statuses *)

(** Modelled from the spec: the status macros of <sys/wait.h> are system
    headers, not files of the repository.  Section 6 of the spec refers to
    them as "the process wait-status encoding (exited-with-code vs
    killed-by-signal)"; the definitions are those of the Linux/bionic target:
    [WTERMSIG(s) = s & 0x7f]. *)
Definition WTERMSIG (s : Z) : Z := Z.land s 127.

(** Modelled from the spec: <sys/wait.h>, [WEXITSTATUS(s) = (s & 0xff00) >> 8]. *)
Definition WEXITSTATUS (s : Z) : Z := Z.shiftr (Z.land s 65280) 8.

(** Modelled from the spec: <sys/wait.h>, [WIFEXITED(s) = (WTERMSIG(s) == 0)]. *)
Definition WIFEXITED (s : Z) : bool := WTERMSIG s =? 0.

(** Modelled from the spec: <sys/wait.h>,
    [WIFSIGNALED(s) = (WTERMSIG((s) + 1) >= 2)]; the addition is on [int]. *)
Definition WIFSIGNALED (s : Z) : bool := 2 <=? WTERMSIG (wrap32 (s + 1)).

(** Modelled from the spec: what the kernel reports for a child, the
    "exited-with-code vs killed-by-signal" encoding of section 6 together
    with the stopped/continued statuses section 4.3 mentions.  The kernel is
    not part of the repository; [encode_status] is its Linux layout. *)
Inductive wait_event :=
  | WExited (code : Z)
  | WKilled (sig : Z) (core : bool)
  | WStopped (sig : Z)
  | WContinued.

(** Modelled from the spec: the Linux layout of a wait status (exit code in
    bits 8-15, terminating signal in bits 0-6, core flag in bit 7). *)
Definition encode_status (ev : wait_event) : Z :=
  match ev with
  | WExited code => Z.shiftl (Z.land code 255) 8
  | WKilled sig core => Z.lor sig (if core then 128 else 0)
  | WStopped sig => Z.lor (Z.shiftl sig 8) 127
  | WContinued => 65535
  end.

(** The [int status] local of [waitFor] after [waitpid(pid, &status, 0)]:
    the call stores a status on success and leaves the uninitialised local
    as it was on failure (its return value is not looked at). *)
Definition status_after_waitpid (waitpid : Z -> option Z) (uninit : Z) (pid : Z) : Z :=
  match waitpid pid with
  | Some s => s
  | None => uninit
  end.

(** The outcome the caller reads off the returned integer. *)
Inductive ExitOutcome :=
  | Exited (code : Z)
  | Signaled (signal_number : Z).

(** Modelled from the spec: how the caller (the Java side, not under src/)
    reads the integer [waitFor] returns as the [ExitOutcome] of section 3:
    a negative value is a signal number negated, anything else an exit code. *)
Definition outcome_of_jint (r : Z) : ExitOutcome :=
  if r <? 0 then Signaled (- r) else Exited r.


(** ** Terminal settings and window size *)

(** Modelled from the spec: the input-flag bits of <termios.h> are system
    headers, not files of the repository.  Section 4.1 step 3 names them
    ("force UTF-8 character handling on, and disable software flow
    control"); the values are those of Linux: [IUTF8 = 0040000],
    [IXON = 0002000], [IXOFF = 0010000]. *)
Definition IUTF8 : Z := 16384.
Definition IXON : Z := 1024.
Definition IXOFF : Z := 4096.

(** [struct winsize]: four [unsigned short] fields. *)
Record winsize := Winsize {
  ws_row : Z;
  ws_col : Z;
  ws_xpixel : Z;
  ws_ypixel : Z
}.

(** The part of a terminal's kernel state the program touches: the input
    flags of its [struct termios] and its window size. *)
Record tty := Tty {
  c_iflag : Z;
  tty_winsize : winsize
}.

(** ** The process and its surroundings *)

(** What an open descriptor refers to. *)
Inductive file :=
  | PtyMaster (index : nat)
  | Node (path : string)
  | Directory (path : string).

Record fdesc := Fdesc {
  fd_file : file;
  fd_cloexec : bool
}.

(** Blocks handed out by [malloc] and [strdup]. *)
Inductive block :=
  | BArray (cells : nat)
  | BString (s : string).

(** The calls the program makes, in the order it makes them. *)
Inductive event :=
  | EvOpen (path : string) (cloexec : bool) (ret : Z)
  | EvGrantpt (fd ret : Z)
  | EvUnlockpt (fd ret : Z)
  | EvPtsname (fd : Z) (name : option string)
  | EvTcgetattr (fd : Z)
  | EvTcsetattr (fd iflag : Z)
  | EvSetWinsize (fd : Z) (sz : winsize)
  | EvFork (ret : Z)
  | EvUnblockSignals
  | EvClose (fd : Z)
  | EvSetsid
  | EvDup2 (oldfd newfd : Z)
  | EvOpendir (path : string) (dirfd : option Z)
  | EvReaddir (name : string)
  | EvClosedir (fd : Z)
  | EvClearenv
  | EvPutenv (s : string)
  | EvChdir (path : option string) (ret : Z)
  | EvPerror (msg : string)
  | EvFflushStderr
  | EvExecvp (file : option string) (argv : option (list string))
  | EvExit (code : Z)
  | Ev_exit (code : Z).

(** State of the process running the code (after [fork], of whichever of the
    two processes the code continues in) and of the JNI environment. *)
Record world := World {
  fdtab : gmap Z fdesc;        (* open descriptors *)
  ttys : gmap nat tty;         (* pseudo-terminals, by index *)
  environ : list string;       (* the environment, in order *)
  cwd : string;                (* working directory *)
  heap : gmap nat block;       (* live allocations *)
  next_block : nat;            (* next fresh block *)
  alloc_plan : list bool;      (* fate of the coming allocations *)
  utf_plan : list bool;        (* fate of the coming GetStringUTFChars *)
  utf_pins : nat;              (* UTF buffers obtained and not released *)
  exception : option string;   (* pending Java exception *)
  trace : list event
}.

Definition set_fdtab (f : gmap Z fdesc) (w : world) : world :=
  World f (ttys w) (environ w) (cwd w) (heap w) (next_block w)
        (alloc_plan w) (utf_plan w) (utf_pins w) (exception w) (trace w).

Definition set_ttys (t : gmap nat tty) (w : world) : world :=
  World (fdtab w) t (environ w) (cwd w) (heap w) (next_block w)
        (alloc_plan w) (utf_plan w) (utf_pins w) (exception w) (trace w).

Definition set_environ (e : list string) (w : world) : world :=
  World (fdtab w) (ttys w) e (cwd w) (heap w) (next_block w)
        (alloc_plan w) (utf_plan w) (utf_pins w) (exception w) (trace w).

Definition set_cwd (d : string) (w : world) : world :=
  World (fdtab w) (ttys w) (environ w) d (heap w) (next_block w)
        (alloc_plan w) (utf_plan w) (utf_pins w) (exception w) (trace w).

Definition set_heap (h : gmap nat block) (n : nat) (plan : list bool) (w : world) : world :=
  World (fdtab w) (ttys w) (environ w) (cwd w) h n
        plan (utf_plan w) (utf_pins w) (exception w) (trace w).

Definition set_utf (plan : list bool) (pins : nat) (w : world) : world :=
  World (fdtab w) (ttys w) (environ w) (cwd w) (heap w) (next_block w)
        (alloc_plan w) plan pins (exception w) (trace w).

Definition set_exception (e : option string) (w : world) : world :=
  World (fdtab w) (ttys w) (environ w) (cwd w) (heap w) (next_block w)
        (alloc_plan w) (utf_plan w) (utf_pins w) e (trace w).

Definition emit (e : event) (w : world) : world :=
  World (fdtab w) (ttys w) (environ w) (cwd w) (heap w) (next_block w)
        (alloc_plan w) (utf_plan w) (utf_pins w) (exception w) (trace w ++ [e]).

(** What the operating system answers to the calls of [create_subprocess]
    whose result the program cannot determine itself. *)
Record os := Os {
  os_open_ptmx : Z;                      (* open("/dev/ptmx"): descriptor or -1 *)
  os_pty_index : nat;                    (* the pseudo-terminal allocated by it *)
  os_pty_init : tty;                     (* and its initial settings *)
  os_grantpt : Z;                        (* 0 on success *)
  os_unlockpt : Z;                       (* 0 on success *)
  os_ptsname_r : option string;          (* slave path; None: nonzero return *)
  os_uninit : Z;                         (* content of an uninitialised local *)
  os_fork : Z;                           (* < 0 failure, > 0 parent, 0 child *)
  os_open_pts : Z;                       (* open(devname): descriptor or -1 *)
  os_opendir : option (Z * list string); (* dirfd and the names readdir yields *)
  os_chdir : Z;                          (* 0 on success *)
  os_asprintf_chdir : bool;              (* asprintf of the chdir message succeeds *)
  os_execvp : bool;                      (* true: the image is replaced *)
  os_asprintf_exec : bool                (* asprintf of the exec message succeeds *)
}.

(** How a run of the code ends: it returns to its caller, or, in the child,
    the process exits or is replaced by the command. *)
Inductive outcome :=
  | Returned (ret : Z) (process_id : option Z)
  | ChildExit (code : Z)
  | ChildExec (file : option string) (argv : option (list string)).

(** The exit status a parent sees for [exit(code)]: the low eight bits. *)
Definition exit_status (code : Z) : Z := Z.land code 255.

(** ** System calls on the world *)

Definition pty_of_fd (fd : Z) (w : world) : option nat :=
  match fdtab w !! fd with
  | Some (Fdesc (PtyMaster n) _) => Some n
  | _ => None
  end.

Definition tty_of_fd (fd : Z) (w : world) : option tty :=
  n ← pty_of_fd fd w; ttys w !! n.

(** [open(path, O_RDWR [| O_CLOEXEC])] with the descriptor the system chose. *)
Definition sys_open (path : string) (f : file) (cloexec : bool) (ret : Z) (w : world) : world :=
  let w := emit (EvOpen path cloexec ret) w in
  if ret <? 0 then w else set_fdtab (<[ret := Fdesc f cloexec]> (fdtab w)) w.

Definition sys_close (fd : Z) (w : world) : world :=
  set_fdtab (delete fd (fdtab w)) (emit (EvClose fd) w).

(** [dup2(oldfd, newfd)]: [newfd] refers to the file of [oldfd], without
    close-on-exec. *)
Definition sys_dup2 (oldfd newfd : Z) (w : world) : world :=
  let w := emit (EvDup2 oldfd newfd) w in
  match fdtab w !! oldfd with
  | Some d => if oldfd =? newfd then w
              else set_fdtab (<[newfd := Fdesc (fd_file d) false]> (fdtab w)) w
  | None => w
  end.

(** [tcgetattr(fd, &tios)] followed by a read of [tios.c_iflag]: the flags
    of the terminal, or what the local held before when the call fails. *)
Definition tcgetattr (fd : Z) (uninit : Z) (w : world) : Z * world :=
  (match tty_of_fd fd w with
   | Some t => c_iflag t
   | None => uninit
   end, emit (EvTcgetattr fd) w).

(** [tcsetattr(fd, TCSANOW, &tios)] with the given [c_iflag]. *)
Definition tcsetattr (fd : Z) (iflag : Z) (w : world) : world :=
  let w := emit (EvTcsetattr fd iflag) w in
  match pty_of_fd fd w with
  | Some n =>
      match ttys w !! n with
      | Some t => set_ttys (<[n := Tty iflag (tty_winsize t)]> (ttys w)) w
      | None => w
      end
  | None => w
  end.

(** [ioctl(fd, TIOCSWINSZ, &sz)]. *)
Definition ioctl_TIOCSWINSZ (fd : Z) (sz : winsize) (w : world) : world :=
  let w := emit (EvSetWinsize fd sz) w in
  match pty_of_fd fd w with
  | Some n =>
      match ttys w !! n with
      | Some t => set_ttys (<[n := Tty (c_iflag t) sz]> (ttys w)) w
      | None => w
      end
  | None => w
  end.

(** ** Strings of the C library *)

Definition dquote : string := String "034"%char EmptyString.

Definition is_space (c : ascii) : bool :=
  let n := nat_of_ascii c in
  (Nat.eqb n 32 || (Nat.leb 9 n && Nat.leb n 13))%bool.

Definition digit_of (c : ascii) : option Z :=
  let n := Z.of_nat (nat_of_ascii c) in
  if ((48 <=? n) && (n <=? 57))%bool then Some (n - 48) else None.

Fixpoint skip_spaces (s : string) : string :=
  match s with
  | String c s' => if is_space c then skip_spaces s' else s
  | EmptyString => s
  end.

Fixpoint atoi_digits (acc : Z) (s : string) : Z :=
  match s with
  | String c s' =>
      match digit_of c with
      | Some d => atoi_digits (acc * 10 + d) s'
      | None => acc
      end
  | EmptyString => acc
  end.

(** [atoi]: optional white space, an optional sign, then decimal digits up
    to the first character that is not one; 0 when there is no digit.  The
    names it is applied to are descriptor numbers, well within [int]. *)
Definition atoi (s : string) : Z :=
  match skip_spaces s with
  | String "-"%char s' => - atoi_digits 0 s'
  | String "+"%char s' => atoi_digits 0 s'
  | s' => atoi_digits 0 s'
  end.

(** The part of an environment string before its first [=], when it has one. *)
Fixpoint env_name (s : string) : option string :=
  match s with
  | EmptyString => None
  | String c s' =>
      if Ascii.eqb c "="%char then Some EmptyString
      else option_map (String c) (env_name s')
  end.

Definition same_name (name : string) (entry : string) : bool :=
  match env_name entry with
  | Some n => String.eqb n name
  | None => false
  end.

(** [putenv(s)] as the C library of the target (bionic) has it: a string
    without [=], or with nothing before it, is refused; a string whose name
    is already set takes the place of the first such entry and the later
    ones are dropped; otherwise the string is added at the end. *)
Fixpoint env_replace (name s : string) (env : list string) : list string :=
  match env with
  | [] => []
  | e :: env' =>
      if same_name name e
      then s :: filter (fun e' => same_name name e' = false) env'
      else e :: env_replace name s env'
  end.

Definition putenv (s : string) (env : list string) : list string :=
  match env_name s with
  | None | Some EmptyString => env
  | Some name =>
      if existsb (same_name name) env then env_replace name s env
      else env ++ [s]
  end.

(** The entries of a NULL-terminated array of pointers, up to the first NULL. *)
Fixpoint until_null {A : Type} (cells : list (option A)) : list A :=
  match cells with
  | Some x :: rest => x :: until_null rest
  | _ => []
  end.

(** [printf]'s rendering of a [%s] argument (a null pointer prints "(null)"). *)
Definition fmt_s (s : option string) : string :=
  match s with
  | Some s => s
  | None => "(null)"%string
  end.

(** ** The program *)

(** [throw_runtime_exception], lines 28-33. *)
Definition throw_runtime_exception (message : string) (w : world) : Z * world :=
  (-1, set_exception (Some message) w).

(** Lines 56-64 of [create_subprocess]: [grantpt(ptm) || unlockpt(ptm) ||
    ptsname_r(ptm, devname, sizeof(devname))], evaluated left to right and
    stopping at the first call that does not return 0.  The result is the
    slave's path when all three succeed. *)
Definition grant_unlock_ptsname (o : os) (ptm : Z) (w : world) : option string * world :=
  let w := emit (EvGrantpt ptm (os_grantpt o)) w in
  if negb (os_grantpt o =? 0) then (None, w) else
  let w := emit (EvUnlockpt ptm (os_unlockpt o)) w in
  if negb (os_unlockpt o =? 0) then (None, w) else
  let w := emit (EvPtsname ptm (os_ptsname_r o)) w in
  (os_ptsname_r o, w).

(** Lines 114-117: the [readdir] loop over the names of /proc/self/fd. *)
Fixpoint close_listed (self_dir_fd : Z) (names : list string) (w : world) : world :=
  match names with
  | [] => w
  | d_name :: rest =>
      let w := emit (EvReaddir d_name) w in
      let fd := atoi d_name in
      let w := if ((2 <? fd) && negb (fd =? self_dir_fd))%bool then sys_close fd w else w in
      close_listed self_dir_fd rest w
  end.

(** Lines 109-119: close the descriptors inherited from the parent. *)
Definition close_inherited (o : os) (w : world) : world :=
  match os_opendir o with
  | Some (self_dir_fd, names) =>
      let w := emit (EvOpendir "/proc/self/fd" (Some self_dir_fd)) w in
      let w := set_fdtab (<[self_dir_fd := Fdesc (Directory "/proc/self/fd") true]> (fdtab w)) w in
      let w := close_listed self_dir_fd names w in
      set_fdtab (delete self_dir_fd (fdtab w)) (emit (EvClosedir self_dir_fd) w)
  | None => emit (EvOpendir "/proc/self/fd" None) w
  end.

(** Line 123: [for (; *envp; ++envp) putenv( *envp)]. *)
Fixpoint putenv_all (vars : list string) (w : world) : world :=
  match vars with
  | [] => w
  | s :: rest =>
      putenv_all rest (set_environ (putenv s (environ w)) (emit (EvPutenv s) w))
  end.

(** Lines 121-123: set up the environment. *)
Definition setup_environment (envp : option (list (option string))) (w : world) : world :=
  let w := set_environ [] (emit EvClearenv w) in
  match envp with
  | Some cells => putenv_all (until_null cells) w
  | None => w
  end.

(** Lines 125-132: change the working directory. *)
Definition change_directory (o : os) (dir : option string) (w : world) : world :=
  let w := emit (EvChdir dir (os_chdir o)) w in
  if negb (os_chdir o =? 0) then
    let error_message :=
      if os_asprintf_chdir o
      then ("chdir(" ++ dquote ++ fmt_s dir ++ dquote ++ ")")%string
      else "chdir()"%string in
    emit EvFflushStderr (emit (EvPerror error_message) w)
  else
    match dir with
    | Some d => set_cwd d w
    | None => w
    end.

(** Lines 134-141: run the command; on success the image is replaced and
    the descriptors marked close-on-exec are gone. *)
Definition execute (o : os) (cmd : option string) (argv : option (list (option string)))
    (w : world) : outcome * world :=
  let args := option_map until_null argv in
  let w := emit (EvExecvp cmd args) w in
  if os_execvp o then
    (ChildExec cmd args,
     set_fdtab (filter (fun kv => fd_cloexec (snd kv) = false) (fdtab w)) w)
  else
    let error_message :=
      if os_asprintf_exec o
      then ("exec(" ++ dquote ++ fmt_s cmd ++ dquote ++ ")")%string
      else "exec()"%string in
    let w := emit (EvPerror error_message) w in
    (ChildExit 1, emit (Ev_exit 1) w).

(** Lines 91-142: the child's side of the [fork]. *)
Definition child_process (o : os) (ptm : Z) (devname : string)
    (cmd dir : option string) (argv envp : option (list (option string)))
    (w : world) : outcome * world :=
  let w := emit EvUnblockSignals w in
  let w := sys_close ptm w in
  let w := emit EvSetsid w in
  let pts := os_open_pts o in
  let w := sys_open devname (Node devname) false pts w in
  if pts <? 0 then (ChildExit (-1), emit (EvExit (-1)) w) else
  let w := sys_dup2 pts 0 w in
  let w := sys_dup2 pts 1 w in
  let w := sys_dup2 pts 2 w in
  let w := close_inherited o w in
  let w := setup_environment envp w in
  let w := change_directory o dir w in
  execute o cmd argv w.

(** [create_subprocess], lines 35-143.  [o] holds the system's answers;
    the value of [os_fork o] tells in which of the two processes the code
    after the [fork] is followed. *)
Definition create_subprocess (o : os) (cmd dir : option string)
    (argv envp : option (list (option string)))
    (rows columns cell_width cell_height : Z) (w : world) : outcome * world :=
  let ptm := os_open_ptmx o in
  let w := sys_open "/dev/ptmx" (PtyMaster (os_pty_index o)) true ptm w in
  let w := if ptm <? 0 then w
           else set_ttys (<[os_pty_index o := os_pty_init o]> (ttys w)) w in
  if ptm <? 0 then
    let '(r, w) := throw_runtime_exception "Cannot open /dev/ptmx" w in
    (Returned r None, w)
  else
  match grant_unlock_ptsname o ptm w with
  | (None, w) =>
      let '(r, w) := throw_runtime_exception
                       "Cannot grantpt()/unlockpt()/ptsname_r() on /dev/ptmx" w in
      (Returned r None, w)
  | (Some devname, w) =>
      let '(tios_c_iflag, w) := tcgetattr ptm (os_uninit o) w in
      let tios_c_iflag := Z.lor tios_c_iflag IUTF8 in
      let tios_c_iflag := Z.land tios_c_iflag (Z.lnot (Z.lor IXON IXOFF)) in
      let w := tcsetattr ptm tios_c_iflag w in
      let sz := {| ws_row := to_ushort rows;
                   ws_col := to_ushort columns;
                   ws_xpixel := to_ushort (int_mul columns cell_width);
                   ws_ypixel := to_ushort (int_mul rows cell_height) |} in
      let w := ioctl_TIOCSWINSZ ptm sz w in
      let pid := os_fork o in
      let w := emit (EvFork pid) w in
      if pid <? 0 then
        let '(r, w) := throw_runtime_exception "Fork failed" w in
        (Returned r None, w)
      else if 0 <? pid then
        (Returned ptm (Some pid), w)
      else
        child_process o ptm devname cmd dir argv envp w
  end.

(** ** Marshalling the argument and environment arrays *)

(** [malloc] and [strdup]: the next entry of the plan says whether the
    request is served; an exhausted plan serves every request. *)
Definition alloc (b : block) (w : world) : option nat * world :=
  let serve := set_heap (<[next_block w := b]> (heap w)) (S (next_block w)) in
  match alloc_plan w with
  | [] => (Some (next_block w), serve [] w)
  | true :: plan => (Some (next_block w), serve plan w)
  | false :: plan => (None, set_heap (heap w) (next_block w) plan w)
  end.

Definition free (p : nat) (w : world) : world :=
  set_heap (delete p (heap w)) (next_block w) (alloc_plan w) w.

(** [GetStringUTFChars]: the characters of the Java string, or NULL. *)
Definition GetStringUTFChars (s : string) (w : world) : option string * world :=
  match utf_plan w with
  | [] => (Some s, set_utf [] (S (utf_pins w)) w)
  | true :: plan => (Some s, set_utf plan (S (utf_pins w)) w)
  | false :: plan => (None, set_utf plan (utf_pins w) w)
  end.

(** [ReleaseStringUTFChars]; releasing a NULL buffer releases nothing. *)
Definition ReleaseStringUTFChars (chars : option string) (w : world) : world :=
  match chars with
  | Some _ => set_utf (utf_plan w) (Nat.pred (utf_pins w)) w
  | None => w
  end.

(** The loops of lines 164-170 and 184-190: convert the Java strings one by
    one and store a copy of each in the next cell.  [None] when a conversion
    fails; otherwise the cells written, a NULL cell where [strdup] failed. *)
Fixpoint copy_strings (elems : list string) (w : world) : option (list (option nat)) * world :=
  match elems with
  | [] => (Some [], w)
  | java_string :: rest =>
      match GetStringUTFChars java_string w with
      | (None, w) => (None, w)
      | (Some utf8, w) =>
          let '(copy, w) := alloc (BString utf8) w in
          let w := ReleaseStringUTFChars (Some utf8) w in
          match copy_strings rest w with
          | (Some cells, w) => (Some (copy :: cells), w)
          | (None, w) => (None, w)
          end
      end
  end.

(** [for (char** tmp = v; *tmp; ++tmp) free( *tmp); free(v);] *)
Definition free_vector (v : nat) (cells : list (option nat)) (w : world) : world :=
  free v (fold_left (fun w p => free p w) (until_null cells) w).

(** The strings a vector of copies points to, as the callee reads them. *)
Definition vector_strings (cells : list (option nat)) (w : world) : list (option string) :=
  map (fun cell =>
         match cell with
         | Some p => match heap w !! p with
                     | Some (BString s) => Some s
                     | _ => None
                     end
         | None => None
         end) cells.

(** [GetArrayLength] of an array reference that may be null, line 159. *)
Definition array_elements (arr : option (list string)) : list string :=
  match arr with
  | Some elems => elems
  | None => []
  end.

(** A marshalled vector: NULL, or a block and its cells, the last cell being
    the terminating NULL. *)
Definition vector : Type := option (nat * list (option nat)).

(** How the marshalling of a vector ends: the function has returned [ret]
    with an exception thrown, or the vector is built. *)
Inductive marshal_result :=
  | Failed (ret : Z)
  | Built (v : vector).

Definition free_if_built (v : vector) (w : world) : world :=
  match v with
  | Some (p, cells) => free_vector p cells w
  | None => w
  end.

(** Lines 158-172: convert [args] to [argv]. *)
Definition marshal_argv (args : option (list string)) (w : world) : marshal_result * world :=
  match array_elements args with
  | [] => (Built None, w)
  | elems =>
      match alloc (BArray (S (length elems))) w with
      | (None, w) =>
          let '(r, w) := throw_runtime_exception "Couldn't allocate argv array" w in
          (Failed r, w)
      | (Some argv, w) =>
          match copy_strings elems w with
          | (None, w) =>
              let '(r, w) := throw_runtime_exception "GetStringUTFChars() failed for argv" w in
              (Failed r, w)
          | (Some cells, w) => (Built (Some (argv, cells ++ [None])), w)
          end
      end
  end.

(** Lines 174-192: convert [envVars] to [envp]; [argv] is the vector built
    before. *)
Definition marshal_envp (argv : vector) (envVars : option (list string)) (w : world)
    : marshal_result * world :=
  match array_elements envVars with
  | [] => (Built None, w)
  | elems =>
      match alloc (BArray (S (length elems))) w with
      | (None, w) =>
          let w := free_if_built argv w in
          let '(r, w) := throw_runtime_exception "malloc() for envp array failed" w in
          (Failed r, w)
      | (Some envp, w) =>
          match copy_strings elems w with
          | (None, w) =>
              let '(r, w) := throw_runtime_exception "GetStringUTFChars() failed for env" w in
              (Failed r, w)
          | (Some cells, w) => (Built (Some (envp, cells ++ [None])), w)
          end
      end
  end.

(** The array a vector is passed as to [create_subprocess]. *)
Definition vector_array (v : vector) (w : world) : option (list (option string)) :=
  option_map (fun '(_, cells) => vector_strings cells w) v.

(** ** The entry points

    The functions [Java_com_termux_terminal_JNI_*] the Java class
    [com.termux.terminal.JNI] is bound to. *)

Module JNI.

(** [Java_com_termux_terminal_JNI_createSubprocess], lines 145-223.
    [critical_ok] tells whether [GetPrimitiveArrayCritical] yields the
    process-id array. *)
Definition createSubprocess (o : os) (critical_ok : bool)
    (cmd dir : string) (args envVars : option (list string))
    (rows columns cell_width cell_height : Z) (w : world) : outcome * world :=
  match marshal_argv args w with
  | (Failed r, w) => (Returned r None, w)
  | (Built argv, w) =>
  match marshal_envp argv envVars w with
  | (Failed r, w) => (Returned r None, w)
  | (Built envp, w) =>
      let '(cmd_cwd, w) := GetStringUTFChars dir w in
      let '(cmd_utf8, w) := GetStringUTFChars cmd w in
      match create_subprocess o cmd_utf8 cmd_cwd (vector_array argv w) (vector_array envp w)
                              rows columns cell_width cell_height w with
      | (Returned ptm written, w) =>
          let procId := match written with Some pid => pid | None => 0 end in
          let w := ReleaseStringUTFChars cmd_utf8 w in
          let w := ReleaseStringUTFChars cmd_cwd w in
          let w := free_if_built argv w in
          let w := free_if_built envp w in
          if critical_ok then (Returned ptm (Some procId), w)
          else
            let '(r, w) := throw_runtime_exception
              "JNI call GetPrimitiveArrayCritical(processIdArray, &isCopy) failed" w in
            (Returned r None, w)
      | stopped => stopped
      end
  end
  end.

(** [Java_com_termux_terminal_JNI_setPtyWindowSize], lines 225-234. *)
Definition setPtyWindowSize (fd rows cols cell_width cell_height : Z) (w : world) : world :=
  let sz := {| ws_row := to_ushort rows;
               ws_col := to_ushort cols;
               ws_xpixel := to_ushort (int_mul cols cell_width);
               ws_ypixel := to_ushort (int_mul rows cell_height) |} in
  ioctl_TIOCSWINSZ fd sz w.

(** [Java_com_termux_terminal_JNI_setPtyUTF8Mode], lines 236-244.
    [uninit] is what the local [tios] holds before [tcgetattr]. *)
Definition setPtyUTF8Mode (uninit : Z) (fd : Z) (w : world) : world :=
  let '(tios_c_iflag, w) := tcgetattr fd uninit w in
  if Z.land tios_c_iflag IUTF8 =? 0 then
    let tios_c_iflag := Z.lor tios_c_iflag IUTF8 in
    tcsetattr fd tios_c_iflag w
  else w.

(** [Java_com_termux_terminal_JNI_waitFor], lines 246-258. *)
Definition waitFor (waitpid : Z -> option Z) (uninit : Z) (pid : Z) : Z :=
  let status := status_after_waitpid waitpid uninit pid in
  if WIFEXITED status then WEXITSTATUS status
  else if WIFSIGNALED status then - WTERMSIG status
  else 0.

(** [Java_com_termux_terminal_JNI_close], lines 260-263. *)
Definition close (fileDescriptor : Z) (w : world) : world :=
  sys_close fileDescriptor w.

End JNI.

(** ** Reading of wait statuses used to state the results *)

(** A status is well formed when its signal number is one a process can be
    killed or stopped by. *)
Definition wait_event_ok (ev : wait_event) : Prop :=
  match ev with
  | WExited _ => True
  | WKilled sig _ => 1 <= sig <= 126
  | WStopped sig => 1 <= sig <= 126
  | WContinued => True
  end.

(** The outcome section 4.3 of the spec assigns to what happened to the child. *)
Definition outcome_of_event (ev : wait_event) : ExitOutcome :=
  match ev with
  | WExited code => Exited (exit_status code)
  | WKilled sig _ => Signaled sig
  | WStopped _ | WContinued => Exited 0
  end.


(** ** The calls each stage of the child makes *)

(** The descriptors a trace closes with [close], in order. *)
Definition closes (l : list event) : list Z :=
  omap (fun e => match e with EvClose fd => Some fd | _ => None end) l.

(** The descriptors among the listed names that the loop of lines 114-117
    hands to [close]. *)
Definition closed_by_listing (self_dir_fd : Z) (names : list string) : list Z :=
  filter (fun fd => 2 < fd /\ fd <> self_dir_fd) (map atoi names).

Definition listing_events (self_dir_fd : Z) (names : list string) : list event :=
  flat_map (fun d_name =>
              EvReaddir d_name ::
              (if decide (2 < atoi d_name /\ atoi d_name <> self_dir_fd)
               then [EvClose (atoi d_name)] else [])) names.

Definition inherited_events (o : os) : list event :=
  match os_opendir o with
  | Some (self_dir_fd, names) =>
      EvOpendir "/proc/self/fd" (Some self_dir_fd) ::
      listing_events self_dir_fd names ++ [EvClosedir self_dir_fd]
  | None => [EvOpendir "/proc/self/fd" None]
  end.

(** The strings of [envp] that line 123 walks over. *)
Definition envp_strings (envp : option (list (option string))) : list string :=
  match envp with
  | Some cells => until_null cells
  | None => []
  end.

(** The environment that results from adding the strings one after the
    other to an environment. *)
Definition populate (vars : list string) (env : list string) : list string :=
  fold_left (fun env s => putenv s env) vars env.

Definition environment_events (envp : option (list (option string))) : list event :=
  EvClearenv :: map EvPutenv (envp_strings envp).

Definition chdir_message (o : os) (dir : option string) : string :=
  if os_asprintf_chdir o
  then ("chdir(" ++ dquote ++ fmt_s dir ++ dquote ++ ")")%string
  else "chdir()"%string.

Definition chdir_events (o : os) (dir : option string) : list event :=
  EvChdir dir (os_chdir o) ::
  (if os_chdir o =? 0 then [] else [EvPerror (chdir_message o dir); EvFflushStderr]).

Definition exec_message (o : os) (cmd : option string) : string :=
  if os_asprintf_exec o
  then ("exec(" ++ dquote ++ fmt_s cmd ++ dquote ++ ")")%string
  else "exec()"%string.

Definition exec_events (o : os) (cmd : option string)
    (argv : option (list (option string))) : list event :=
  EvExecvp cmd (option_map until_null argv) ::
  (if os_execvp o then [] else [EvPerror (exec_message o cmd); Ev_exit 1]).

(** How the child ends once the slave is open: replaced by the command, or
    terminated with status 1 when the command cannot be run. *)
Definition exec_outcome (o : os) (cmd : option string)
    (argv : option (list (option string))) : outcome :=
  if os_execvp o then ChildExec cmd (option_map until_null argv) else ChildExit 1.

(** Lines 93-101: signals, the master, the session and the slave. *)
Definition session_events (o : os) (ptm : Z) (devname : string) : list event :=
  [EvUnblockSignals; EvClose ptm; EvSetsid; EvOpen devname false (os_open_pts o)].

(** Lines 105-107: the slave becomes standard input, output and error. *)
Definition stdio_events (o : os) : list event :=
  [EvDup2 (os_open_pts o) 0; EvDup2 (os_open_pts o) 1; EvDup2 (os_open_pts o) 2].

(** The calls of the child, lines 93-141. *)
Definition child_events (o : os) (ptm : Z) (devname : string)
    (cmd dir : option string) (argv envp : option (list (option string))) : list event :=
  session_events o ptm devname ++
  (if os_open_pts o <? 0 then [EvExit (-1)]
   else stdio_events o ++ inherited_events o ++ environment_events envp ++
        chdir_events o dir ++ exec_events o cmd argv).

(** The calls up to and including the [fork], lines 47-83, when the device
    set-up succeeds with slave path [devname]. *)
Definition setup_events (o : os) (rows columns cell_width cell_height : Z) : list event :=
  [EvOpen "/dev/ptmx" true (os_open_ptmx o);
   EvGrantpt (os_open_ptmx o) (os_grantpt o);
   EvUnlockpt (os_open_ptmx o) (os_unlockpt o);
   EvPtsname (os_open_ptmx o) (os_ptsname_r o);
   EvTcgetattr (os_open_ptmx o);
   EvTcsetattr (os_open_ptmx o)
     (Z.land (Z.lor (c_iflag (os_pty_init o)) IUTF8) (Z.lnot (Z.lor IXON IXOFF)));
   EvSetWinsize (os_open_ptmx o)
     (Winsize (to_ushort rows) (to_ushort columns)
              (to_ushort (int_mul columns cell_width))
              (to_ushort (int_mul rows cell_height)));
   EvFork (os_fork o)].

(** The device set-up of lines 47-64 succeeds. *)
Definition device_ready (o : os) (devname : string) : Prop :=
  0 <= os_open_ptmx o /\ os_grantpt o = 0 /\ os_unlockpt o = 0 /\
  os_ptsname_r o = Some devname.

(** ** Sample inputs *)

Definition sample_world : world :=
  World {[ 0 := Fdesc (Node "/dev/null") false;
           1 := Fdesc (Node "/dev/null") false;
           2 := Fdesc (Node "/dev/null") false;
           5 := Fdesc (Node "socket") false;
           7 := Fdesc (PtyMaster 1) true ]}
        {[ 1%nat := Tty 1024 (Winsize 24 80 800 480) ]}
        ["PATH=/system/bin"; "HOME=/data"]%string "/"
        ∅ 0 [] [] 0 None [].

(** A system in which every call succeeds; [fork_ret] is what [fork]
    returns and [chdir_ret] what [chdir] returns. *)
Definition sample_os (fork_ret chdir_ret : Z) : os :=
  Os 8 2 (Tty 1024 (Winsize 0 0 0 0)) 0 0 (Some "/dev/pts/2"%string) 0 fork_ret 9
     (Some (10, ["."; ".."; "0"; "1"; "2"; "5"; "7"; "9"; "10"]%string))
     chdir_ret true true true.

(** The world in which the [fork] takes place when the device set-up
    succeeded. *)
Definition world_at_fork (o : os) (rows columns cell_width cell_height : Z) (w : world) : world :=
  let ptm := os_open_ptmx o in
  let w := sys_open "/dev/ptmx" (PtyMaster (os_pty_index o)) true ptm w in
  let w := set_ttys (<[os_pty_index o := os_pty_init o]> (ttys w)) w in
  let w := snd (grant_unlock_ptsname o ptm w) in
  let w := tcsetattr ptm (Z.land (Z.lor (c_iflag (os_pty_init o)) IUTF8)
                                 (Z.lnot (Z.lor IXON IXOFF)))
                     (emit (EvTcgetattr ptm) w) in
  let w := ioctl_TIOCSWINSZ ptm (Winsize (to_ushort rows) (to_ushort columns)
                                   (to_ushort (int_mul columns cell_width))
                                   (to_ushort (int_mul rows cell_height))) w in
  emit (EvFork (os_fork o)) w.

(** The calls of lines 56-61: each is made only when the one before it
    returned 0. *)
Definition grant_events (o : os) (ptm : Z) : list event :=
  EvGrantpt ptm (os_grantpt o) ::
  (if os_grantpt o =? 0 then
     EvUnlockpt ptm (os_unlockpt o) ::
     (if os_unlockpt o =? 0 then [EvPtsname ptm (os_ptsname_r o)] else [])
   else []).

(** The same system, except for what [chdir] returns. *)
Definition with_chdir (ret : Z) (o : os) : os :=
  Os (os_open_ptmx o) (os_pty_index o) (os_pty_init o) (os_grantpt o) (os_unlockpt o)
     (os_ptsname_r o) (os_uninit o) (os_fork o) (os_open_pts o) (os_opendir o)
     ret (os_asprintf_chdir o) (os_execvp o) (os_asprintf_exec o).

(** Environment strings that all have a name, no two the same. *)
Definition distinct_names (vars : list string) : Prop :=
  Forall (fun s => exists name, env_name s = Some name /\ name <> EmptyString) vars /\
  NoDup (map env_name vars).

(** The heap after copies of the strings have been stored in the blocks
    from [p] on. *)
Fixpoint store_strings (p : nat) (elems : list string) (h : gmap nat block) : gmap nat block :=
  match elems with
  | [] => h
  | s :: rest => store_strings (S p) rest (<[p := BString s]> h)
  end.

(** The next requests of a plan are all served. *)
Definition serves (n : nat) (plan : list bool) : Prop :=
  Forall (fun b => b = true) (take n plan).

(** No block at or above the next fresh one is allocated. *)
Definition heap_fresh (w : world) : Prop :=
  forall p, (next_block w <= p)%nat -> heap w !! p = None.

(** ** Parts of the world *)

(** What belongs to the JNI side: the allocator and the string buffers. *)
Definition jni_state (w : world) : gmap nat block * nat * list bool * list bool * nat :=
  (heap w, next_block w, alloc_plan w, utf_plan w, utf_pins w).

(** What belongs to the process: descriptors, terminals, environment,
    working directory. *)
Definition kernel_state (w : world) : gmap Z fdesc * gmap nat tty * list string * string :=
  (fdtab w, ttys w, environ w, cwd w).

(** The input flags [create_subprocess] gives the new terminal, lines 69-72. *)
Definition initial_iflag (o : os) : Z :=
  Z.land (Z.lor (c_iflag (os_pty_init o)) IUTF8) (Z.lnot (Z.lor IXON IXOFF)).

(** The descriptor table of the child once the slave is open on descriptors
    0, 1 and 2 (lines 98-107), from the table [m] it had at the [fork]. *)
Definition stdio_table (o : os) (ptm : Z) (devname : string) (m : gmap Z fdesc) : gmap Z fdesc :=
  let slave := Fdesc (Node devname) false in
  <[2 := slave]> (<[1 := slave]> (<[0 := slave]> (<[os_open_pts o := slave]> (delete ptm m)))).

(** The blocks a marshalled vector owns: its array and the copies its cells
    point to, up to the first NULL. *)
Definition vector_blocks (v : vector) : list nat :=
  match v with
  | Some (p, cells) => p :: until_null cells
  | None => []
  end.

(** The argument vector [execvp] is given for a Java array: NULL when the
    array is null or empty (lines 160-161), its strings otherwise. *)
Definition argument_vector (arr : option (list string)) : option (list string) :=
  match array_elements arr with
  | [] => None
  | elems => Some elems
  end.

(** The allocations the marshalling of a Java array asks for: none when the
    array is null or empty, otherwise the vector and a copy of each string
    (lines 161-168 and 177-188). *)
Definition vector_requests (arr : option (list string)) : nat :=
  match array_elements arr with
  | [] => 0
  | elems => S (length elems)
  end.

(** ** Projections of the updated world *)

Lemma fdtab_set_fdtab f w : fdtab (set_fdtab f w) = f.
Proof. reflexivity. Qed.
Lemma ttys_set_fdtab f w : ttys (set_fdtab f w) = ttys w.
Proof. reflexivity. Qed.
Lemma environ_set_fdtab f w : environ (set_fdtab f w) = environ w.
Proof. reflexivity. Qed.
Lemma cwd_set_fdtab f w : cwd (set_fdtab f w) = cwd w.
Proof. reflexivity. Qed.
Lemma heap_set_fdtab f w : heap (set_fdtab f w) = heap w.
Proof. reflexivity. Qed.
Lemma next_block_set_fdtab f w : next_block (set_fdtab f w) = next_block w.
Proof. reflexivity. Qed.
Lemma alloc_plan_set_fdtab f w : alloc_plan (set_fdtab f w) = alloc_plan w.
Proof. reflexivity. Qed.
Lemma utf_plan_set_fdtab f w : utf_plan (set_fdtab f w) = utf_plan w.
Proof. reflexivity. Qed.
Lemma utf_pins_set_fdtab f w : utf_pins (set_fdtab f w) = utf_pins w.
Proof. reflexivity. Qed.
Lemma exception_set_fdtab f w : exception (set_fdtab f w) = exception w.
Proof. reflexivity. Qed.
Lemma trace_set_fdtab f w : trace (set_fdtab f w) = trace w.
Proof. reflexivity. Qed.
Lemma fdtab_set_ttys t w : fdtab (set_ttys t w) = fdtab w.
Proof. reflexivity. Qed.
Lemma ttys_set_ttys t w : ttys (set_ttys t w) = t.
Proof. reflexivity. Qed.
Lemma environ_set_ttys t w : environ (set_ttys t w) = environ w.
Proof. reflexivity. Qed.
Lemma cwd_set_ttys t w : cwd (set_ttys t w) = cwd w.
Proof. reflexivity. Qed.
Lemma heap_set_ttys t w : heap (set_ttys t w) = heap w.
Proof. reflexivity. Qed.
Lemma next_block_set_ttys t w : next_block (set_ttys t w) = next_block w.
Proof. reflexivity. Qed.
Lemma alloc_plan_set_ttys t w : alloc_plan (set_ttys t w) = alloc_plan w.
Proof. reflexivity. Qed.
Lemma utf_plan_set_ttys t w : utf_plan (set_ttys t w) = utf_plan w.
Proof. reflexivity. Qed.
Lemma utf_pins_set_ttys t w : utf_pins (set_ttys t w) = utf_pins w.
Proof. reflexivity. Qed.
Lemma exception_set_ttys t w : exception (set_ttys t w) = exception w.
Proof. reflexivity. Qed.
Lemma trace_set_ttys t w : trace (set_ttys t w) = trace w.
Proof. reflexivity. Qed.
Lemma fdtab_set_environ e w : fdtab (set_environ e w) = fdtab w.
Proof. reflexivity. Qed.
Lemma ttys_set_environ e w : ttys (set_environ e w) = ttys w.
Proof. reflexivity. Qed.
Lemma environ_set_environ e w : environ (set_environ e w) = e.
Proof. reflexivity. Qed.
Lemma cwd_set_environ e w : cwd (set_environ e w) = cwd w.
Proof. reflexivity. Qed.
Lemma heap_set_environ e w : heap (set_environ e w) = heap w.
Proof. reflexivity. Qed.
Lemma next_block_set_environ e w : next_block (set_environ e w) = next_block w.
Proof. reflexivity. Qed.
Lemma alloc_plan_set_environ e w : alloc_plan (set_environ e w) = alloc_plan w.
Proof. reflexivity. Qed.
Lemma utf_plan_set_environ e w : utf_plan (set_environ e w) = utf_plan w.
Proof. reflexivity. Qed.
Lemma utf_pins_set_environ e w : utf_pins (set_environ e w) = utf_pins w.
Proof. reflexivity. Qed.
Lemma exception_set_environ e w : exception (set_environ e w) = exception w.
Proof. reflexivity. Qed.
Lemma trace_set_environ e w : trace (set_environ e w) = trace w.
Proof. reflexivity. Qed.
Lemma fdtab_set_cwd d w : fdtab (set_cwd d w) = fdtab w.
Proof. reflexivity. Qed.
Lemma ttys_set_cwd d w : ttys (set_cwd d w) = ttys w.
Proof. reflexivity. Qed.
Lemma environ_set_cwd d w : environ (set_cwd d w) = environ w.
Proof. reflexivity. Qed.
Lemma cwd_set_cwd d w : cwd (set_cwd d w) = d.
Proof. reflexivity. Qed.
Lemma heap_set_cwd d w : heap (set_cwd d w) = heap w.
Proof. reflexivity. Qed.
Lemma next_block_set_cwd d w : next_block (set_cwd d w) = next_block w.
Proof. reflexivity. Qed.
Lemma alloc_plan_set_cwd d w : alloc_plan (set_cwd d w) = alloc_plan w.
Proof. reflexivity. Qed.
Lemma utf_plan_set_cwd d w : utf_plan (set_cwd d w) = utf_plan w.
Proof. reflexivity. Qed.
Lemma utf_pins_set_cwd d w : utf_pins (set_cwd d w) = utf_pins w.
Proof. reflexivity. Qed.
Lemma exception_set_cwd d w : exception (set_cwd d w) = exception w.
Proof. reflexivity. Qed.
Lemma trace_set_cwd d w : trace (set_cwd d w) = trace w.
Proof. reflexivity. Qed.
Lemma fdtab_set_heap h n p w : fdtab (set_heap h n p w) = fdtab w.
Proof. reflexivity. Qed.
Lemma ttys_set_heap h n p w : ttys (set_heap h n p w) = ttys w.
Proof. reflexivity. Qed.
Lemma environ_set_heap h n p w : environ (set_heap h n p w) = environ w.
Proof. reflexivity. Qed.
Lemma cwd_set_heap h n p w : cwd (set_heap h n p w) = cwd w.
Proof. reflexivity. Qed.
Lemma heap_set_heap h n p w : heap (set_heap h n p w) = h.
Proof. reflexivity. Qed.
Lemma next_block_set_heap h n p w : next_block (set_heap h n p w) = n.
Proof. reflexivity. Qed.
Lemma alloc_plan_set_heap h n p w : alloc_plan (set_heap h n p w) = p.
Proof. reflexivity. Qed.
Lemma utf_plan_set_heap h n p w : utf_plan (set_heap h n p w) = utf_plan w.
Proof. reflexivity. Qed.
Lemma utf_pins_set_heap h n p w : utf_pins (set_heap h n p w) = utf_pins w.
Proof. reflexivity. Qed.
Lemma exception_set_heap h n p w : exception (set_heap h n p w) = exception w.
Proof. reflexivity. Qed.
Lemma trace_set_heap h n p w : trace (set_heap h n p w) = trace w.
Proof. reflexivity. Qed.
Lemma fdtab_set_utf p n w : fdtab (set_utf p n w) = fdtab w.
Proof. reflexivity. Qed.
Lemma ttys_set_utf p n w : ttys (set_utf p n w) = ttys w.
Proof. reflexivity. Qed.
Lemma environ_set_utf p n w : environ (set_utf p n w) = environ w.
Proof. reflexivity. Qed.
Lemma cwd_set_utf p n w : cwd (set_utf p n w) = cwd w.
Proof. reflexivity. Qed.
Lemma heap_set_utf p n w : heap (set_utf p n w) = heap w.
Proof. reflexivity. Qed.
Lemma next_block_set_utf p n w : next_block (set_utf p n w) = next_block w.
Proof. reflexivity. Qed.
Lemma alloc_plan_set_utf p n w : alloc_plan (set_utf p n w) = alloc_plan w.
Proof. reflexivity. Qed.
Lemma utf_plan_set_utf p n w : utf_plan (set_utf p n w) = p.
Proof. reflexivity. Qed.
Lemma utf_pins_set_utf p n w : utf_pins (set_utf p n w) = n.
Proof. reflexivity. Qed.
Lemma exception_set_utf p n w : exception (set_utf p n w) = exception w.
Proof. reflexivity. Qed.
Lemma trace_set_utf p n w : trace (set_utf p n w) = trace w.
Proof. reflexivity. Qed.
Lemma fdtab_set_exception x w : fdtab (set_exception x w) = fdtab w.
Proof. reflexivity. Qed.
Lemma ttys_set_exception x w : ttys (set_exception x w) = ttys w.
Proof. reflexivity. Qed.
Lemma environ_set_exception x w : environ (set_exception x w) = environ w.
Proof. reflexivity. Qed.
Lemma cwd_set_exception x w : cwd (set_exception x w) = cwd w.
Proof. reflexivity. Qed.
Lemma heap_set_exception x w : heap (set_exception x w) = heap w.
Proof. reflexivity. Qed.
Lemma next_block_set_exception x w : next_block (set_exception x w) = next_block w.
Proof. reflexivity. Qed.
Lemma alloc_plan_set_exception x w : alloc_plan (set_exception x w) = alloc_plan w.
Proof. reflexivity. Qed.
Lemma utf_plan_set_exception x w : utf_plan (set_exception x w) = utf_plan w.
Proof. reflexivity. Qed.
Lemma utf_pins_set_exception x w : utf_pins (set_exception x w) = utf_pins w.
Proof. reflexivity. Qed.
Lemma exception_set_exception x w : exception (set_exception x w) = x.
Proof. reflexivity. Qed.
Lemma trace_set_exception x w : trace (set_exception x w) = trace w.
Proof. reflexivity. Qed.
Lemma fdtab_emit e w : fdtab (emit e w) = fdtab w.
Proof. reflexivity. Qed.
Lemma ttys_emit e w : ttys (emit e w) = ttys w.
Proof. reflexivity. Qed.
Lemma environ_emit e w : environ (emit e w) = environ w.
Proof. reflexivity. Qed.
Lemma cwd_emit e w : cwd (emit e w) = cwd w.
Proof. reflexivity. Qed.
Lemma heap_emit e w : heap (emit e w) = heap w.
Proof. reflexivity. Qed.
Lemma next_block_emit e w : next_block (emit e w) = next_block w.
Proof. reflexivity. Qed.
Lemma alloc_plan_emit e w : alloc_plan (emit e w) = alloc_plan w.
Proof. reflexivity. Qed.
Lemma utf_plan_emit e w : utf_plan (emit e w) = utf_plan w.
Proof. reflexivity. Qed.
Lemma utf_pins_emit e w : utf_pins (emit e w) = utf_pins w.
Proof. reflexivity. Qed.
Lemma exception_emit e w : exception (emit e w) = exception w.
Proof. reflexivity. Qed.
Lemma trace_emit e w : trace (emit e w) = trace w ++ [e].
Proof. reflexivity. Qed.

Create Rewrite HintDb world.
#[global] Hint Rewrite
  fdtab_set_fdtab ttys_set_fdtab environ_set_fdtab cwd_set_fdtab heap_set_fdtab
  next_block_set_fdtab alloc_plan_set_fdtab utf_plan_set_fdtab utf_pins_set_fdtab exception_set_fdtab
  trace_set_fdtab fdtab_set_ttys ttys_set_ttys environ_set_ttys cwd_set_ttys
  heap_set_ttys next_block_set_ttys alloc_plan_set_ttys utf_plan_set_ttys utf_pins_set_ttys
  exception_set_ttys trace_set_ttys fdtab_set_environ ttys_set_environ environ_set_environ
  cwd_set_environ heap_set_environ next_block_set_environ alloc_plan_set_environ utf_plan_set_environ
  utf_pins_set_environ exception_set_environ trace_set_environ fdtab_set_cwd ttys_set_cwd
  environ_set_cwd cwd_set_cwd heap_set_cwd next_block_set_cwd alloc_plan_set_cwd
  utf_plan_set_cwd utf_pins_set_cwd exception_set_cwd trace_set_cwd fdtab_set_heap
  ttys_set_heap environ_set_heap cwd_set_heap heap_set_heap next_block_set_heap
  alloc_plan_set_heap utf_plan_set_heap utf_pins_set_heap exception_set_heap trace_set_heap
  fdtab_set_utf ttys_set_utf environ_set_utf cwd_set_utf heap_set_utf
  next_block_set_utf alloc_plan_set_utf utf_plan_set_utf utf_pins_set_utf exception_set_utf
  trace_set_utf fdtab_set_exception ttys_set_exception environ_set_exception cwd_set_exception
  heap_set_exception next_block_set_exception alloc_plan_set_exception utf_plan_set_exception utf_pins_set_exception
  exception_set_exception trace_set_exception fdtab_emit ttys_emit environ_emit
  cwd_emit heap_emit next_block_emit alloc_plan_emit utf_plan_emit
  utf_pins_emit exception_emit trace_emit
  : world.

(** Two worlds with the same components are the same world. *)
Lemma world_eq (a b : world) :
  fdtab a = fdtab b -> ttys a = ttys b -> environ a = environ b -> cwd a = cwd b ->
  heap a = heap b -> next_block a = next_block b -> alloc_plan a = alloc_plan b ->
  utf_plan a = utf_plan b -> utf_pins a = utf_pins b -> exception a = exception b ->
  trace a = trace b -> a = b.
Proof. destruct a, b; cbn; intros; subst; reflexivity. Qed.
(** ** Facts about the status macros *)

Lemma WTERMSIG_mod s : WTERMSIG s = s mod 128.
Proof. unfold WTERMSIG. change 127 with (Z.ones 7). now rewrite Z.land_ones by lia. Qed.

Lemma WTERMSIG_range s : 0 <= WTERMSIG s <= 127.
Proof. rewrite WTERMSIG_mod. pose proof (Z.mod_pos_bound s 128). lia. Qed.

Lemma WEXITSTATUS_mod s : WEXITSTATUS s = (s / 256) mod 256.
Proof.
  unfold WEXITSTATUS. rewrite Z.shiftr_land.
  change (Z.shiftr 65280 8) with (Z.ones 8).
  rewrite Z.land_ones by lia. now rewrite Z.shiftr_div_pow2 by lia.
Qed.

Lemma WEXITSTATUS_range s : 0 <= WEXITSTATUS s <= 255.
Proof. rewrite WEXITSTATUS_mod. pose proof (Z.mod_pos_bound (s / 256) 256). lia. Qed.

Lemma wrap32_mod128 z : wrap32 z mod 128 = z mod 128.
Proof.
  unfold wrap32.
  replace ((z + 2 ^ 31) mod 2 ^ 32 - 2 ^ 31)
    with (z + (- (2 ^ 25) * ((z + 2 ^ 31) / 2 ^ 32)) * 128).
  - apply Z_mod_plus_full.
  - rewrite (Z.mod_eq (z + 2 ^ 31) (2 ^ 32)) by lia. lia.
Qed.

Lemma wrap32_id z : INT_MIN <= z <= INT_MAX -> wrap32 z = z.
Proof.
  unfold wrap32, INT_MIN, INT_MAX. intros H.
  rewrite Z.mod_small; lia.
Qed.

Lemma WIFSIGNALED_spec s : WIFSIGNALED s = true <-> 1 <= WTERMSIG s <= 126.
Proof.
  unfold WIFSIGNALED. rewrite Z.leb_le, !WTERMSIG_mod, wrap32_mod128.
  pose proof (Z.mod_pos_bound s 128).
  pose proof (Z.mod_pos_bound (s + 1) 128).
  rewrite (Z.mod_eq s 128), (Z.mod_eq (s + 1) 128) in * by lia.
  lia.
Qed.

Lemma WIFEXITED_spec s : WIFEXITED s = true <-> WTERMSIG s = 0.
Proof. unfold WIFEXITED. apply Z.eqb_eq. Qed.

Lemma WIFSIGNALED_not_WIFEXITED s : WIFSIGNALED s = true -> WIFEXITED s = false.
Proof.
  intros H%WIFSIGNALED_spec. unfold WIFEXITED. apply Z.eqb_neq. lia.
Qed.

(** ** [JNI.waitFor] *)

Lemma outcome_of_jint_exit c : 0 <= c -> outcome_of_jint c = Exited c.
Proof. intros H. unfold outcome_of_jint. destruct (Z.ltb_spec c 0); [lia | reflexivity]. Qed.

Lemma outcome_of_jint_signal n : 0 < n -> outcome_of_jint (- n) = Signaled n.
Proof.
  intros H. unfold outcome_of_jint. destruct (Z.ltb_spec (- n) 0); [| lia].
  f_equal. lia.
Qed.

(** C1: whatever status [waitpid] leaves for the process, [JNI.waitFor] yields
    [Exited code] when the status reports a normal exit with [code],
    [Signaled n] when it reports termination by signal [n], and the default
    [Exited 0] for every other status. *)
Theorem waitFor_outcome (waitpid : Z -> option Z) (uninit pid : Z) :
  let status := status_after_waitpid waitpid uninit pid in
  let r := JNI.waitFor waitpid uninit pid in
  (WIFEXITED status = true ->
     r = WEXITSTATUS status /\ outcome_of_jint r = Exited (WEXITSTATUS status)) /\
  (WIFSIGNALED status = true ->
     r = - WTERMSIG status /\ outcome_of_jint r = Signaled (WTERMSIG status)) /\
  (WIFEXITED status = false -> WIFSIGNALED status = false ->
     r = 0 /\ outcome_of_jint r = Exited 0).
Proof.
  intros status r. subst r. unfold JNI.waitFor. fold status.
  repeat split.
  - rewrite H. reflexivity.
  - rewrite H. apply outcome_of_jint_exit. apply WEXITSTATUS_range.
  - rewrite (WIFSIGNALED_not_WIFEXITED _ H), H. reflexivity.
  - rewrite (WIFSIGNALED_not_WIFEXITED _ H), H.
    apply outcome_of_jint_signal. apply WIFSIGNALED_spec in H. lia.
  - rewrite H, H0. reflexivity.
  - rewrite H, H0. reflexivity.
Qed.

Lemma waitFor_outcome_witness :
  JNI.waitFor (fun _ => Some 768) 0 42 = 3 /\
  JNI.waitFor (fun _ => Some 9) 0 42 = -9 /\
  JNI.waitFor (fun _ => Some 4991) 0 42 = 0.
Proof.
  pose proof (waitFor_outcome (fun _ => Some 768) 0 42) as (E & _ & _).
  pose proof (waitFor_outcome (fun _ => Some 9) 0 42) as (_ & S & _).
  pose proof (waitFor_outcome (fun _ => Some 4991) 0 42) as (_ & _ & D).
  split; [apply (E eq_refl) | split; [apply (S eq_refl) | apply (D eq_refl eq_refl)]].
Defined.

Lemma exit_status_range code : 0 <= exit_status code <= 255.
Proof.
  unfold exit_status. change 255 with (Z.ones 8) at 1 2. rewrite Z.land_ones by lia.
  pose proof (Z.mod_pos_bound code (2 ^ 8)). lia.
Qed.

Lemma WTERMSIG_encode ev :
  wait_event_ok ev ->
  WTERMSIG (encode_status ev) =
    match ev with
    | WExited _ => 0
    | WKilled sig _ => sig
    | WStopped _ | WContinued => 127
    end.
Proof.
  destruct ev as [code | sig core | sig |]; simpl; intros H.
  - rewrite WTERMSIG_mod, Z.shiftl_mul_pow2 by lia.
    replace (Z.land code 255 * 2 ^ 8) with ((2 * Z.land code 255) * 128) by lia.
    apply Z_mod_mult.
  - unfold WTERMSIG. rewrite Z.land_lor_distr_l.
    replace (Z.land (if core then 128 else 0) 127) with 0 by (now destruct core).
    rewrite Z.lor_0_r. fold (WTERMSIG sig). rewrite WTERMSIG_mod.
    apply Z.mod_small. lia.
  - unfold WTERMSIG. rewrite Z.land_lor_distr_l.
    fold (WTERMSIG (Z.shiftl sig 8)).
    rewrite WTERMSIG_mod, Z.shiftl_mul_pow2 by lia.
    replace (sig * 2 ^ 8) with ((2 * sig) * 128) by lia.
    rewrite Z_mod_mult. reflexivity.
  - reflexivity.
Qed.

Lemma WEXITSTATUS_encode_exit code :
  WEXITSTATUS (encode_status (WExited code)) = exit_status code.
Proof.
  simpl. rewrite WEXITSTATUS_mod, Z.shiftl_mul_pow2 by lia.
  change (2 ^ 8) with 256. rewrite Z_div_mult by lia.
  fold (exit_status code). pose proof (exit_status_range code).
  apply Z.mod_small. lia.
Qed.

(** The macros read the kernel's encoding back: what [JNI.waitFor] returns for
    the status of a child that exited, was killed, was stopped or was
    continued. *)
Lemma waitFor_of_kernel_event (waitpid : Z -> option Z) (uninit pid : Z) (ev : wait_event) :
  wait_event_ok ev ->
  waitpid pid = Some (encode_status ev) ->
  outcome_of_jint (JNI.waitFor waitpid uninit pid) = outcome_of_event ev.
Proof.
  intros Hok Hw.
  pose proof (WTERMSIG_encode ev Hok) as Hsig.
  unfold JNI.waitFor, status_after_waitpid. rewrite Hw.
  assert (WIFEXITED (encode_status ev) = (WTERMSIG (encode_status ev) =? 0)) as He
    by reflexivity.
  pose proof (WIFSIGNALED_spec (encode_status ev)) as Hs.
  rewrite He. rewrite Hsig in Hs |- *.
  destruct ev as [code | sig core | sig |]; cbn [wait_event_ok outcome_of_event] in *.
  - change (0 =? 0) with true. cbv iota.
    rewrite WEXITSTATUS_encode_exit. apply outcome_of_jint_exit, exit_status_range.
  - destruct (Z.eqb_spec sig 0) as [? | _]; [lia |].
    destruct (WIFSIGNALED (encode_status (WKilled sig core))).
    + apply outcome_of_jint_signal. lia.
    + apply Hs in Hok. discriminate.
  - change (127 =? 0) with false. cbv iota.
    destruct (WIFSIGNALED (encode_status (WStopped sig))); [| reflexivity].
    assert (1 <= 127 <= 126) by (now apply Hs). lia.
  - change (127 =? 0) with false. cbv iota.
    destruct (WIFSIGNALED (encode_status WContinued)); [| reflexivity].
    assert (1 <= 127 <= 126) by (now apply Hs). lia.
Qed.

(** C10: the integer [JNI.waitFor] returns is negative exactly when the status
    reports termination by a signal, and is then the negated signal number;
    for a normal exit and for the default it is the nonnegative exit code,
    so a signalled outcome never coincides with an exited one. *)
Theorem waitFor_sign_encoding (waitpid : Z -> option Z) (uninit pid : Z) :
  let status := status_after_waitpid waitpid uninit pid in
  let r := JNI.waitFor waitpid uninit pid in
  (r < 0 <-> WIFSIGNALED status = true) /\
  (WIFSIGNALED status = true -> r = - WTERMSIG status /\ 1 <= WTERMSIG status) /\
  (WIFSIGNALED status = false ->
     0 <= r /\ r = (if WIFEXITED status then WEXITSTATUS status else 0)) /\
  (forall (waitpid' : Z -> option Z) (uninit' pid' : Z),
     WIFSIGNALED status = true ->
     WIFSIGNALED (status_after_waitpid waitpid' uninit' pid') = false ->
     r <> JNI.waitFor waitpid' uninit' pid').
Proof.
  assert (forall s, WIFSIGNALED s = true ->
            (if WIFEXITED s then WEXITSTATUS s
             else if WIFSIGNALED s then - WTERMSIG s else 0) = - WTERMSIG s
            /\ 1 <= WTERMSIG s) as Hsig.
  { intros s H. rewrite (WIFSIGNALED_not_WIFEXITED _ H), H.
    apply WIFSIGNALED_spec in H. lia. }
  assert (forall s, WIFSIGNALED s = false ->
            0 <= (if WIFEXITED s then WEXITSTATUS s
                  else if WIFSIGNALED s then - WTERMSIG s else 0)
            /\ (if WIFEXITED s then WEXITSTATUS s
                else if WIFSIGNALED s then - WTERMSIG s else 0)
               = (if WIFEXITED s then WEXITSTATUS s else 0)) as Hexit.
  { intros s H. rewrite H. pose proof (WEXITSTATUS_range s).
    destruct (WIFEXITED s); lia. }
  intros status r. subst r. unfold JNI.waitFor. fold status.
  pose proof (Hsig status) as Hs. pose proof (Hexit status) as He.
  remember (if WIFEXITED status then WEXITSTATUS status
            else if WIFSIGNALED status then - WTERMSIG status else 0) as v eqn:Hv.
  split; [| split; [| split]].
  - destruct (WIFSIGNALED status).
    + destruct (Hs eq_refl). split; [reflexivity | lia].
    + destruct (He eq_refl). split; [lia | discriminate].
  - exact Hs.
  - intros H. destruct (He H) as [? E]. split; [assumption |].
    rewrite Hv. rewrite H. destruct (WIFEXITED status); reflexivity.
  - intros waitpid' uninit' pid' H H'.
    destruct (Hs H). destruct (Hexit _ H'). lia.
Qed.

Lemma waitFor_sign_encoding_witness :
  JNI.waitFor (fun _ => Some 137) 0 42 = -9 /\ 0 <= JNI.waitFor (fun _ => Some 256) 0 42.
Proof.
  pose proof (waitFor_sign_encoding (fun _ => Some 137) 0 42) as (_ & S & _).
  pose proof (waitFor_sign_encoding (fun _ => Some 256) 0 42) as (_ & _ & E & _).
  split; [apply (S eq_refl) | apply (E eq_refl)].
Defined.

(** ** Window size *)

Lemma wrap32_mod_ushort z : wrap32 z mod 2 ^ 16 = z mod 2 ^ 16.
Proof.
  unfold wrap32.
  replace ((z + 2 ^ 31) mod 2 ^ 32 - 2 ^ 31)
    with (z + (- ((z + 2 ^ 31) / 2 ^ 32) * 2 ^ 16) * 2 ^ 16).
  - apply Z_mod_plus_full.
  - rewrite (Z.mod_eq (z + 2 ^ 31) (2 ^ 32)) by lia. lia.
Qed.

Lemma to_ushort_int_mul a b : to_ushort (int_mul a b) = (a * b) mod 2 ^ 16.
Proof. apply wrap32_mod_ushort. Qed.

Lemma to_ushort_small z : 0 <= z <= 65535 -> to_ushort z = z.
Proof. intros H. apply Z.mod_small. lia. Qed.

Lemma trace_ioctl_TIOCSWINSZ fd sz w :
  trace (ioctl_TIOCSWINSZ fd sz w) = trace w ++ [EvSetWinsize fd sz].
Proof.
  unfold ioctl_TIOCSWINSZ.
  destruct (pty_of_fd fd (emit (EvSetWinsize fd sz) w)) as [n |]; [| reflexivity].
  destruct (ttys (emit (EvSetWinsize fd sz) w) !! n); reflexivity.
Qed.

Lemma fdtab_ioctl_TIOCSWINSZ fd sz w : fdtab (ioctl_TIOCSWINSZ fd sz w) = fdtab w.
Proof.
  unfold ioctl_TIOCSWINSZ.
  destruct (pty_of_fd fd (emit (EvSetWinsize fd sz) w)) as [n |]; [| reflexivity].
  destruct (ttys (emit (EvSetWinsize fd sz) w) !! n); reflexivity.
Qed.

Lemma tty_of_fd_inv fd w t :
  tty_of_fd fd w = Some t ->
  exists n, pty_of_fd fd w = Some n /\ ttys w !! n = Some t.
Proof.
  unfold tty_of_fd. destruct (pty_of_fd fd w) as [n |]; simpl; [| discriminate].
  intros H. exists n. split; [reflexivity | exact H].
Qed.

Lemma tty_of_fd_ioctl_TIOCSWINSZ fd sz w t :
  tty_of_fd fd w = Some t ->
  tty_of_fd fd (ioctl_TIOCSWINSZ fd sz w) = Some (Tty (c_iflag t) sz).
Proof.
  intros (n & Hn & Ht)%tty_of_fd_inv.
  unfold ioctl_TIOCSWINSZ.
  change (pty_of_fd fd (emit (EvSetWinsize fd sz) w)) with (pty_of_fd fd w).
  change (ttys (emit (EvSetWinsize fd sz) w)) with (ttys w).
  rewrite Hn, Ht. unfold tty_of_fd.
  change (pty_of_fd fd (set_ttys ?m ?v)) with (pty_of_fd fd w).
  rewrite Hn. simpl. apply lookup_insert_eq.
Qed.

Lemma trace_tcsetattr fd iflag w :
  trace (tcsetattr fd iflag w) = trace w ++ [EvTcsetattr fd iflag].
Proof.
  unfold tcsetattr.
  destruct (pty_of_fd fd (emit (EvTcsetattr fd iflag) w)) as [n |]; [| reflexivity].
  destruct (ttys (emit (EvTcsetattr fd iflag) w) !! n); reflexivity.
Qed.

Lemma fdtab_tcsetattr fd iflag w : fdtab (tcsetattr fd iflag w) = fdtab w.
Proof.
  unfold tcsetattr.
  destruct (pty_of_fd fd (emit (EvTcsetattr fd iflag) w)) as [n |]; [| reflexivity].
  destruct (ttys (emit (EvTcsetattr fd iflag) w) !! n); reflexivity.
Qed.

Lemma tty_of_fd_tcsetattr fd iflag w t :
  tty_of_fd fd w = Some t ->
  tty_of_fd fd (tcsetattr fd iflag w) = Some (Tty iflag (tty_winsize t)).
Proof.
  intros (n & Hn & Ht)%tty_of_fd_inv.
  unfold tcsetattr.
  change (pty_of_fd fd (emit (EvTcsetattr fd iflag) w)) with (pty_of_fd fd w).
  change (ttys (emit (EvTcsetattr fd iflag) w)) with (ttys w).
  rewrite Hn, Ht. unfold tty_of_fd.
  change (pty_of_fd fd (set_ttys ?m ?v)) with (pty_of_fd fd w).
  rewrite Hn. simpl. apply lookup_insert_eq.
Qed.

(** ** UTF-8 mode *)

Lemma IUTF8_set_after_lor x : (Z.land (Z.lor x IUTF8) IUTF8 =? 0) = false.
Proof.
  apply Z.eqb_neq. intros H.
  assert (Z.testbit (Z.land (Z.lor x IUTF8) IUTF8) 14 = true) as Hb.
  { rewrite Z.land_spec, Z.lor_spec. change (Z.testbit IUTF8 14) with true.
    now rewrite orb_true_r. }
  rewrite H in Hb. rewrite Z.bits_0 in Hb. discriminate.
Qed.

(** C7: on a descriptor that refers to a terminal, [JNI.setPtyUTF8Mode] reads
    the flags and writes them back, with the UTF-8 flag added, only when the
    flag is clear; after it the flag is set, and a second call reads the
    flags and writes nothing. *)
Theorem setPtyUTF8Mode_idempotent (uninit uninit' fd : Z) (w : world) (t : tty) :
  tty_of_fd fd w = Some t ->
  let w1 := JNI.setPtyUTF8Mode uninit fd w in
  let w2 := JNI.setPtyUTF8Mode uninit' fd w1 in
  trace w1 = trace w ++ EvTcgetattr fd ::
               (if Z.land (c_iflag t) IUTF8 =? 0
                then [EvTcsetattr fd (Z.lor (c_iflag t) IUTF8)] else []) /\
  (exists t1, tty_of_fd fd w1 = Some t1 /\ (Z.land (c_iflag t1) IUTF8 =? 0) = false) /\
  w2 = emit (EvTcgetattr fd) w1.
Proof.
  intros Ht w1 w2.
  assert (forall u v s, tty_of_fd fd v = Some s -> (Z.land (c_iflag s) IUTF8 =? 0) = false ->
            JNI.setPtyUTF8Mode u fd v = emit (EvTcgetattr fd) v) as Hnop.
  { intros u v s Hs Hset. unfold JNI.setPtyUTF8Mode, tcgetattr. rewrite Hs, Hset. reflexivity. }
  assert (trace w1 = trace w ++ EvTcgetattr fd ::
               (if Z.land (c_iflag t) IUTF8 =? 0
                then [EvTcsetattr fd (Z.lor (c_iflag t) IUTF8)] else []) /\
          exists t1, tty_of_fd fd w1 = Some t1 /\ (Z.land (c_iflag t1) IUTF8 =? 0) = false)
    as [Htrace (t1 & Ht1 & Hset)].
  { subst w1. unfold JNI.setPtyUTF8Mode, tcgetattr. rewrite Ht.
    destruct (Z.land (c_iflag t) IUTF8 =? 0) eqn:Hflag.
    - split.
      + rewrite trace_tcsetattr. simpl. now rewrite <- app_assoc.
      + eexists. split.
        * apply tty_of_fd_tcsetattr. exact Ht.
        * simpl. apply IUTF8_set_after_lor.
    - split; [reflexivity |]. exists t. split; [exact Ht | exact Hflag]. }
  split; [exact Htrace |]. split; [exists t1; split; assumption |].
  subst w2. eapply Hnop; eassumption.
Qed.

Lemma setPtyUTF8Mode_idempotent_witness :
  JNI.setPtyUTF8Mode 0 7 (JNI.setPtyUTF8Mode 0 7 sample_world)
  = emit (EvTcgetattr 7) (JNI.setPtyUTF8Mode 0 7 sample_world).
Proof.
  refine (proj2 (proj2
    (setPtyUTF8Mode_idempotent 0 0 7 sample_world (Tty 1024 (Winsize 24 80 800 480)) _))).
  vm_compute. reflexivity.
Defined.

(** ** The stages of the child *)

Lemma trace_sys_close fd w : trace (sys_close fd w) = trace w ++ [EvClose fd].
Proof. reflexivity. Qed.

Lemma trace_sys_open path f c ret w :
  trace (sys_open path f c ret w) = trace w ++ [EvOpen path c ret].
Proof. unfold sys_open. destruct (ret <? 0); reflexivity. Qed.

Lemma trace_sys_dup2 a b w : trace (sys_dup2 a b w) = trace w ++ [EvDup2 a b].
Proof.
  unfold sys_dup2. destruct (fdtab (emit (EvDup2 a b) w) !! a); [| reflexivity].
  destruct (a =? b); reflexivity.
Qed.

Lemma keep_test fd d :
  ((2 <? fd) && negb (fd =? d))%bool = bool_decide (2 < fd /\ fd <> d).
Proof.
  destruct (Z.ltb_spec 2 fd), (Z.eqb_spec fd d); simpl; symmetry;
    first [ apply bool_decide_eq_true; lia | apply bool_decide_eq_false; lia ].
Qed.

Lemma trace_close_listed d names w :
  trace (close_listed d names w) = trace w ++ listing_events d names.
Proof.
  revert w. induction names as [| n names IH]; intros w;
    cbn [close_listed listing_events flat_map].
  - now rewrite app_nil_r.
  - rewrite IH, keep_test.
    destruct (decide (2 < atoi n /\ atoi n <> d)) as [H | H].
    + rewrite (bool_decide_eq_true_2 _ H).
      cbn [trace sys_close set_fdtab emit app]. now rewrite <- !app_assoc.
    + rewrite (bool_decide_eq_false_2 _ H).
      cbn [trace sys_close set_fdtab emit app]. now rewrite <- !app_assoc.
Qed.

Lemma closes_listing_events d names :
  closes (listing_events d names) = closed_by_listing d names.
Proof.
  unfold closes, closed_by_listing.
  induction names as [| n names IH]; [reflexivity |].
  cbn [listing_events flat_map map]. rewrite filter_cons.
  destruct (decide (2 < atoi n /\ atoi n <> d)); simpl.
  - f_equal. exact IH.
  - exact IH.
Qed.

Lemma fdtab_close_listed d names w fd :
  fdtab (close_listed d names w) !! fd =
    if decide (fd ∈ closed_by_listing d names) then None else fdtab w !! fd.
Proof.
  revert w. unfold closed_by_listing.
  induction names as [| n names IH]; intros w; cbn [close_listed map].
  - rewrite filter_nil. destruct (decide (fd ∈ [])) as [H | H]; [| reflexivity].
    now apply elem_of_nil in H.
  - rewrite IH, keep_test, filter_cons.
    destruct (decide (2 < atoi n /\ atoi n <> d)) as [Hk | Hk];
      [rewrite (bool_decide_eq_true_2 _ Hk) | rewrite (bool_decide_eq_false_2 _ Hk)];
      cbn [fdtab sys_close set_fdtab emit].
    + destruct (decide (fd ∈ filter _ (map atoi names))) as [Hin | Hin].
      * rewrite decide_True; [reflexivity | now apply elem_of_cons; right].
      * destruct (decide (fd = atoi n)) as [-> | Hne].
        -- rewrite decide_True by (apply elem_of_cons; now left).
           apply lookup_delete_eq.
        -- rewrite decide_False.
           ++ now apply lookup_delete_ne.
           ++ intros [? | ?]%elem_of_cons; tauto.
    + reflexivity.
Qed.

Lemma trace_close_inherited o w :
  trace (close_inherited o w) = trace w ++ inherited_events o.
Proof.
  unfold close_inherited, inherited_events.
  destruct (os_opendir o) as [[d names] |]; [| reflexivity].
  cbn [trace set_fdtab emit]. rewrite trace_close_listed. cbn [trace set_fdtab emit].
  now rewrite <- !app_assoc.
Qed.

Lemma environ_putenv_all vars w :
  environ (putenv_all vars w) = populate vars (environ w).
Proof.
  revert w. induction vars as [| s vars IH]; intros w; [reflexivity |].
  cbn [putenv_all]. rewrite IH. reflexivity.
Qed.

Lemma trace_putenv_all vars w :
  trace (putenv_all vars w) = trace w ++ map EvPutenv vars.
Proof.
  revert w. induction vars as [| s vars IH]; intros w; cbn [putenv_all map].
  - now rewrite app_nil_r.
  - rewrite IH. cbn [trace set_environ emit]. now rewrite <- app_assoc.
Qed.

Lemma fdtab_putenv_all vars w : fdtab (putenv_all vars w) = fdtab w.
Proof.
  revert w. induction vars as [| s vars IH]; intros w; [reflexivity |].
  cbn [putenv_all]. now rewrite IH.
Qed.

Lemma environ_setup_environment envp w :
  environ (setup_environment envp w) = populate (envp_strings envp) [].
Proof.
  unfold setup_environment, envp_strings. destruct envp as [cells |]; [| reflexivity].
  now rewrite environ_putenv_all.
Qed.

Lemma trace_setup_environment envp w :
  trace (setup_environment envp w) = trace w ++ environment_events envp.
Proof.
  unfold setup_environment, environment_events, envp_strings.
  destruct envp as [cells |]; [| reflexivity].
  rewrite trace_putenv_all. cbn [trace set_environ emit]. now rewrite <- app_assoc.
Qed.

Lemma fdtab_setup_environment envp w : fdtab (setup_environment envp w) = fdtab w.
Proof.
  unfold setup_environment. destruct envp as [cells |]; [| reflexivity].
  now rewrite fdtab_putenv_all.
Qed.

Lemma trace_change_directory o dir w :
  trace (change_directory o dir w) = trace w ++ chdir_events o dir.
Proof.
  unfold change_directory, chdir_events, chdir_message.
  destruct (os_chdir o =? 0); simpl.
  - destruct dir; reflexivity.
  - now rewrite <- !app_assoc.
Qed.

Lemma environ_change_directory o dir w :
  environ (change_directory o dir w) = environ w.
Proof.
  unfold change_directory. destruct (os_chdir o =? 0); simpl; [| reflexivity].
  destruct dir; reflexivity.
Qed.

Lemma fdtab_change_directory o dir w :
  fdtab (change_directory o dir w) = fdtab w.
Proof.
  unfold change_directory. destruct (os_chdir o =? 0); simpl; [| reflexivity].
  destruct dir; reflexivity.
Qed.

Lemma execute_outcome o cmd argv w : fst (execute o cmd argv w) = exec_outcome o cmd argv.
Proof. unfold execute, exec_outcome. destruct (os_execvp o); reflexivity. Qed.

Lemma trace_execute o cmd argv w :
  trace (snd (execute o cmd argv w)) = trace w ++ exec_events o cmd argv.
Proof.
  unfold execute, exec_events, exec_message. destruct (os_execvp o); simpl.
  - reflexivity.
  - now rewrite <- !app_assoc.
Qed.

Lemma environ_execute o cmd argv w : environ (snd (execute o cmd argv w)) = environ w.
Proof. unfold execute. destruct (os_execvp o); reflexivity. Qed.

(** What the child does, and how it ends. *)
Lemma child_process_outcome o ptm devname cmd dir argv envp w :
  fst (child_process o ptm devname cmd dir argv envp w) =
    if os_open_pts o <? 0 then ChildExit (-1) else exec_outcome o cmd argv.
Proof.
  unfold child_process. destruct (os_open_pts o <? 0); [reflexivity |].
  apply execute_outcome.
Qed.

Lemma trace_child_process o ptm devname cmd dir argv envp w :
  trace (snd (child_process o ptm devname cmd dir argv envp w)) =
    trace w ++ child_events o ptm devname cmd dir argv envp.
Proof.
  unfold child_process, child_events, session_events, stdio_events.
  destruct (os_open_pts o <? 0) eqn:Hpts.
  - cbn [snd trace emit]. rewrite trace_sys_open. cbn [trace emit sys_close set_fdtab].
    now rewrite <- !app_assoc.
  - rewrite trace_execute, trace_change_directory, trace_setup_environment,
      trace_close_inherited, !trace_sys_dup2, trace_sys_open.
    cbn [trace emit sys_close set_fdtab]. now rewrite <- !app_assoc.
Qed.

Lemma environ_child_process o ptm devname cmd dir argv envp w :
  0 <= os_open_pts o ->
  environ (snd (child_process o ptm devname cmd dir argv envp w)) =
    populate (envp_strings envp) [].
Proof.
  intros H. unfold child_process.
  destruct (Z.ltb_spec (os_open_pts o) 0); [lia |].
  now rewrite environ_execute, environ_change_directory, environ_setup_environment.
Qed.


(** ** [create_subprocess] up to the [fork] *)

Lemma grant_unlock_ptsname_ready o devname ptm w :
  device_ready o devname ->
  grant_unlock_ptsname o ptm w =
    (Some devname,
     emit (EvPtsname ptm (os_ptsname_r o))
       (emit (EvUnlockpt ptm (os_unlockpt o)) (emit (EvGrantpt ptm (os_grantpt o)) w))).
Proof.
  intros (_ & Hg & Hu & Hn). unfold grant_unlock_ptsname.
  rewrite Hg, Hu, Hn. reflexivity.
Qed.

Lemma create_subprocess_ready o cmd dir argv envp rows columns cell_width cell_height w devname :
  device_ready o devname ->
  create_subprocess o cmd dir argv envp rows columns cell_width cell_height w =
    let wf := world_at_fork o rows columns cell_width cell_height w in
    if os_fork o <? 0 then (Returned (-1) None, set_exception (Some "Fork failed"%string) wf)
    else if 0 <? os_fork o then (Returned (os_open_ptmx o) (Some (os_fork o)), wf)
    else child_process o (os_open_ptmx o) devname cmd dir argv envp wf.
Proof.
  intros Hr. pose proof Hr as (Hptm & _).
  unfold create_subprocess, world_at_fork.
  rewrite (grant_unlock_ptsname_ready _ _ _ _ Hr).
  assert ((os_open_ptmx o <? 0) = false) as -> by (apply Z.ltb_ge; lia).
  rewrite (grant_unlock_ptsname_ready _ _ _ _ Hr).
  cbv zeta. unfold tcgetattr at 1.
  match goal with
  | |- context [tty_of_fd ?fd ?v] =>
      assert (tty_of_fd fd v = Some (os_pty_init o)) as ->
  end.
  { unfold tty_of_fd, pty_of_fd, sys_open.
    assert ((os_open_ptmx o <? 0) = false) as -> by (apply Z.ltb_ge; lia).
    cbn [fdtab ttys emit set_fdtab set_ttys].
    rewrite lookup_insert_eq. simpl. apply lookup_insert_eq. }
  cbn [snd]. reflexivity.
Qed.

(** Follow [create_subprocess] into the child: the device set-up succeeded
    ([Hready]) and [fork] returned 0 ([Hfork]). *)
Ltac enter_child Hready Hfork :=
  rewrite (create_subprocess_ready _ _ _ _ _ _ _ _ _ _ _ Hready); cbv zeta;
  rewrite Hfork; change (0 <? 0) with false; cbv iota.

Lemma trace_world_at_fork o rows columns cell_width cell_height w devname :
  device_ready o devname ->
  trace (world_at_fork o rows columns cell_width cell_height w) =
    trace w ++ setup_events o rows columns cell_width cell_height.
Proof.
  intros Hr. unfold world_at_fork, setup_events.
  rewrite (grant_unlock_ptsname_ready _ _ _ _ Hr).
  cbn [trace emit snd]. rewrite trace_ioctl_TIOCSWINSZ, trace_tcsetattr.
  cbn [trace emit set_ttys]. rewrite trace_sys_open.
  now rewrite <- !app_assoc.
Qed.

Lemma fdtab_world_at_fork o rows columns cell_width cell_height w devname :
  device_ready o devname ->
  fdtab (world_at_fork o rows columns cell_width cell_height w) =
    <[os_open_ptmx o := Fdesc (PtyMaster (os_pty_index o)) true]> (fdtab w).
Proof.
  intros Hr. pose proof Hr as (Hptm & _). unfold world_at_fork.
  rewrite (grant_unlock_ptsname_ready _ _ _ _ Hr).
  cbv zeta. cbn [snd].
  rewrite fdtab_emit, fdtab_ioctl_TIOCSWINSZ, fdtab_tcsetattr, !fdtab_emit, fdtab_set_ttys.
  unfold sys_open.
  assert ((os_open_ptmx o <? 0) = false) as -> by (apply Z.ltb_ge; lia).
  rewrite fdtab_set_fdtab, fdtab_emit.
  reflexivity.
Qed.

Lemma tty_of_fd_emit fd e w : tty_of_fd fd (emit e w) = tty_of_fd fd w.
Proof. reflexivity. Qed.

Lemma tty_world_at_fork o rows columns cell_width cell_height w devname :
  device_ready o devname ->
  tty_of_fd (os_open_ptmx o) (world_at_fork o rows columns cell_width cell_height w) =
    Some (Tty (Z.land (Z.lor (c_iflag (os_pty_init o)) IUTF8) (Z.lnot (Z.lor IXON IXOFF)))
              (Winsize (to_ushort rows) (to_ushort columns)
                       (to_ushort (int_mul columns cell_width))
                       (to_ushort (int_mul rows cell_height)))).
Proof.
  intros Hr. pose proof Hr as (Hptm & _). unfold world_at_fork.
  rewrite (grant_unlock_ptsname_ready _ _ _ _ Hr). cbv zeta. cbn [snd].
  rewrite tty_of_fd_emit.
  rewrite (tty_of_fd_ioctl_TIOCSWINSZ _ _ _
             (Tty (Z.land (Z.lor (c_iflag (os_pty_init o)) IUTF8) (Z.lnot (Z.lor IXON IXOFF)))
                  (tty_winsize (os_pty_init o)))); [reflexivity |].
  rewrite (tty_of_fd_tcsetattr _ _ _ (os_pty_init o)); [reflexivity |].
  rewrite !tty_of_fd_emit.
  unfold tty_of_fd, pty_of_fd, sys_open.
  assert ((os_open_ptmx o <? 0) = false) as -> by (apply Z.ltb_ge; lia).
  rewrite fdtab_set_ttys, fdtab_set_fdtab, lookup_insert_eq.
  rewrite ttys_set_ttys. cbn [mbind option_bind]. apply lookup_insert_eq.
Qed.

(** ** Failure of the device set-up *)

Lemma grant_unlock_ptsname_world o ptm w :
  fdtab (snd (grant_unlock_ptsname o ptm w)) = fdtab w /\
  trace (snd (grant_unlock_ptsname o ptm w)) = trace w ++ grant_events o ptm.
Proof.
  unfold grant_unlock_ptsname, grant_events.
  destruct (os_grantpt o =? 0); cbn [negb snd]; [| split; reflexivity].
  destruct (os_unlockpt o =? 0); cbn [negb snd]; split;
    rewrite ?fdtab_emit, ?trace_emit, <- ?app_assoc; reflexivity.
Qed.

Lemma grant_unlock_ptsname_fails o ptm w :
  os_grantpt o <> 0 \/ os_unlockpt o <> 0 \/ os_ptsname_r o = None ->
  fst (grant_unlock_ptsname o ptm w) = None.
Proof.
  intros H. unfold grant_unlock_ptsname.
  destruct (Z.eqb_spec (os_grantpt o) 0) as [Hg | Hg]; cbn [negb]; [| reflexivity].
  destruct (Z.eqb_spec (os_unlockpt o) 0) as [Hu | Hu]; cbn [negb fst]; [| reflexivity].
  destruct H as [? | [? | ?]]; [lia | lia | assumption].
Qed.

Lemma no_close_in_grant_events o ptm fd : EvClose fd ∉ grant_events o ptm.
Proof.
  unfold grant_events. intros H.
  destruct (os_grantpt o =? 0), (os_unlockpt o =? 0);
    repeat (apply elem_of_cons in H as [H | H]; [discriminate |]);
    now apply elem_of_nil in H.
Qed.

(** C9: when granting, unlocking or naming the slave fails, [create_subprocess]
    throws and returns -1 without a [close] of the master it opened: the
    descriptor is still in the table of the calling process. *)
Theorem master_left_open_when_unlock_fails
    (o : os) (cmd dir : option string) (argv envp : option (list (option string)))
    (rows columns cell_width cell_height : Z) (w : world) :
  0 <= os_open_ptmx o ->
  os_grantpt o <> 0 \/ os_unlockpt o <> 0 \/ os_ptsname_r o = None ->
  let r := create_subprocess o cmd dir argv envp rows columns cell_width cell_height w in
  fst r = Returned (-1) None /\
  exception (snd r) =
    Some "Cannot grantpt()/unlockpt()/ptsname_r() on /dev/ptmx"%string /\
  fdtab (snd r) !! os_open_ptmx o = Some (Fdesc (PtyMaster (os_pty_index o)) true) /\
  exists l, trace (snd r) = trace w ++ EvOpen "/dev/ptmx" true (os_open_ptmx o) :: l /\
            forall fd, EvClose fd ∉ l.
Proof.
  intros Hptm Hfail r. subst r. unfold create_subprocess.
  assert ((os_open_ptmx o <? 0) = false) as -> by (apply Z.ltb_ge; lia).
  match goal with
  | |- context [grant_unlock_ptsname o ?p ?v] =>
      pose proof (grant_unlock_ptsname_fails o p v Hfail) as Hnone;
      pose proof (grant_unlock_ptsname_world o p v) as [Hfd Htr];
      destruct (grant_unlock_ptsname o p v) as [res w1]
  end.
  cbn [fst snd] in *. subst res. cbn [throw_runtime_exception fst snd].
  rewrite exception_set_exception, fdtab_set_exception, trace_set_exception, Hfd, Htr.
  rewrite fdtab_set_ttys, trace_set_ttys, trace_sys_open. unfold sys_open.
  assert ((os_open_ptmx o <? 0) = false) as -> by (apply Z.ltb_ge; lia).
  rewrite fdtab_set_fdtab, lookup_insert_eq.
  repeat split. exists (grant_events o (os_open_ptmx o)). split.
  - now rewrite <- app_assoc.
  - apply no_close_in_grant_events.
Qed.

Lemma master_left_open_when_unlock_fails_witness :
  let o := Os 8 2 (Tty 1024 (Winsize 0 0 0 0)) 0 (-1) None 0 0 0 None 0 true true true in
  fdtab (snd (create_subprocess o (Some "sh"%string) (Some "/"%string) None None
                                24 80 10 20 sample_world)) !! 8
  = Some (Fdesc (PtyMaster 2) true).
Proof.
  intros o.
  refine (proj1 (proj2 (proj2
    (master_left_open_when_unlock_fails o (Some "sh"%string) (Some "/"%string) None None
       24 80 10 20 sample_world _ _)))).
  - cbn. lia.
  - right. left. cbn. lia.
Defined.

(** ** The window-size record *)

(** C4: for rows, columns and cell sizes between 1 and 65535 whose products
    do not overflow [int], [JNI.setPtyWindowSize] hands the terminal the record
    (rows, columns, columns * cell_width mod 2^16, rows * cell_height mod
    2^16), the terminal reads it back, and [create_subprocess] hands the
    master the same record for the initial geometry. *)
Theorem window_size_record (fd rows columns cell_width cell_height : Z) (w : world) :
  1 <= rows <= 65535 -> 1 <= columns <= 65535 ->
  1 <= cell_width <= 65535 -> 1 <= cell_height <= 65535 ->
  columns * cell_width <= INT_MAX -> rows * cell_height <= INT_MAX ->
  let sz := Winsize rows columns
              ((columns * cell_width) mod 2 ^ 16) ((rows * cell_height) mod 2 ^ 16) in
  let w' := JNI.setPtyWindowSize fd rows columns cell_width cell_height w in
  (int_mul columns cell_width = columns * cell_width /\
   int_mul rows cell_height = rows * cell_height) /\
  trace w' = trace w ++ [EvSetWinsize fd sz] /\
  (forall t, tty_of_fd fd w = Some t -> tty_of_fd fd w' = Some (Tty (c_iflag t) sz)) /\
  (forall (o : os) (cmd dir : option string) (argv envp : option (list (option string)))
          (devname : string),
     device_ready o devname ->
     let w2 := snd (create_subprocess o cmd dir argv envp
                                      rows columns cell_width cell_height w) in
     EvSetWinsize (os_open_ptmx o) sz ∈ trace w2 /\
     (0 < os_fork o ->
      exists t, tty_of_fd (os_open_ptmx o) w2 = Some t /\ tty_winsize t = sz)).
Proof.
  intros Hr Hc Hw Hh Hx Hy sz w'.
  assert (Winsize (to_ushort rows) (to_ushort columns)
                  (to_ushort (int_mul columns cell_width))
                  (to_ushort (int_mul rows cell_height)) = sz) as Hsz.
  { subst sz. now rewrite !to_ushort_int_mul, !to_ushort_small by lia. }
  split; [| split; [| split]].
  - unfold int_mul, INT_MAX, INT_MIN in *. split; apply wrap32_id; unfold INT_MIN, INT_MAX; nia.
  - subst w'. unfold JNI.setPtyWindowSize. rewrite Hsz. apply trace_ioctl_TIOCSWINSZ.
  - intros t Ht. subst w'. unfold JNI.setPtyWindowSize. rewrite Hsz.
    now apply tty_of_fd_ioctl_TIOCSWINSZ.
  - intros o cmd dir argv envp devname Hready w2. subst w2.
    rewrite (create_subprocess_ready _ _ _ _ _ _ _ _ _ _ _ Hready). cbv zeta.
    assert (EvSetWinsize (os_open_ptmx o) sz
              ∈ trace (world_at_fork o rows columns cell_width cell_height w)) as Hin.
    { rewrite (trace_world_at_fork _ _ _ _ _ _ _ Hready). unfold setup_events.
      rewrite Hsz. apply elem_of_app. right.
      do 6 (apply elem_of_cons; right). apply elem_of_cons. now left. }
    split.
    + destruct (os_fork o <? 0); [| destruct (0 <? os_fork o)]; cbn [snd].
      * now rewrite trace_set_exception.
      * exact Hin.
      * rewrite trace_child_process. apply elem_of_app. now left.
    + intros Hpid.
      assert ((os_fork o <? 0) = false) as -> by (apply Z.ltb_ge; lia).
      assert ((0 <? os_fork o) = true) as -> by (apply Z.ltb_lt; lia).
      cbn [snd]. rewrite (tty_world_at_fork _ _ _ _ _ _ _ Hready), Hsz.
      eexists. split; reflexivity.
Qed.

Lemma window_size_record_witness :
  trace (JNI.setPtyWindowSize 7 24 80 10 20 sample_world) =
    [EvSetWinsize 7 (Winsize 24 80 800 480)] /\
  trace (JNI.setPtyWindowSize 7 50 9000 20 20 sample_world) =
    [EvSetWinsize 7 (Winsize 50 9000 48928 1000)].
Proof.
  split.
  - refine (proj1 (proj2 (window_size_record 7 24 80 10 20 sample_world _ _ _ _ _ _)));
      unfold INT_MAX; lia.
  - refine (proj1 (proj2 (window_size_record 7 50 9000 20 20 sample_world _ _ _ _ _ _)));
      unfold INT_MAX; lia.
Defined.

(** ** The environment of the child *)

Lemma existsb_same_name_false name env :
  Some name ∉ map env_name env -> existsb (same_name name) env = false.
Proof.
  induction env as [| e env IH]; [reflexivity |].
  cbn [map existsb]. intros H.
  apply not_elem_of_cons in H as [Hne Hnot].
  rewrite (IH Hnot), orb_false_r. unfold same_name.
  destruct (env_name e) as [m |]; [| reflexivity].
  apply String.eqb_neq. congruence.
Qed.

Lemma putenv_fresh s name env :
  env_name s = Some name -> name <> EmptyString ->
  Some name ∉ map env_name env -> putenv s env = env ++ [s].
Proof.
  intros Hs Hne Hnot. unfold putenv. rewrite Hs.
  destruct name; [congruence |]. now rewrite existsb_same_name_false.
Qed.

Lemma populate_fresh vars env :
  Forall (fun s => exists name, env_name s = Some name /\ name <> EmptyString) vars ->
  NoDup (map env_name vars) ->
  (forall s, s ∈ vars -> env_name s ∉ map env_name env) ->
  populate vars env = env ++ vars.
Proof.
  revert env. induction vars as [| s vars IH]; intros env Hall Hnd Hfresh.
  - cbn. now rewrite app_nil_r.
  - apply Forall_cons in Hall as [(name & Hname & Hne) Hall].
    cbn [map] in Hnd. apply NoDup_cons in Hnd as [Hs Hnd].
    unfold populate. cbn [fold_left]. fold (populate vars (putenv s env)).
    rewrite (putenv_fresh s name env Hname Hne).
    + rewrite IH; [now rewrite <- app_assoc | assumption | assumption |].
      intros t Ht. rewrite map_app. cbn [map]. intros Hin.
      apply elem_of_app in Hin as [Hin | Hin].
      * apply (Hfresh t); [apply elem_of_cons; now right | exact Hin].
      * apply list_elem_of_singleton in Hin. apply Hs. rewrite <- Hin.
        apply list_elem_of_In, in_map. now apply list_elem_of_In.
    + rewrite <- Hname. apply Hfresh. apply elem_of_cons. now left.
Qed.

Lemma populate_distinct vars : distinct_names vars -> populate vars [] = vars.
Proof.
  intros [Hall Hnd]. rewrite populate_fresh; try assumption; [reflexivity |].
  intros s _ H. cbn in H. now apply elem_of_nil in H.
Qed.

(** What follows is about the child: the device set-up of lines 47-64
    succeeded, and the code is followed where [fork] returned 0. *)
Section ChildPath.

Variables (o : os) (cmd dir : option string) (argv envp : option (list (option string))).
Variables (rows columns cell_width cell_height : Z) (w : world) (devname : string).
Hypothesis Hready : device_ready o devname.
Hypothesis Hfork : os_fork o = 0.

Local Abbreviation r :=
  (create_subprocess o cmd dir argv envp rows columns cell_width cell_height w).
Local Abbreviation wf := (world_at_fork o rows columns cell_width cell_height w).

(** C3: in the child the environment is emptied and then filled from [envp]
    alone, string after string: whatever the parent's environment was, the
    command finds the one the strings of [envp] build from nothing; for
    ["FOO=bar"] that is this single entry, and for strings with distinct
    names it is [envp] itself. *)
Theorem child_environment_from_envp :
  0 <= os_open_pts o ->
  environ (snd r) = populate (envp_strings envp) [] /\
  (exists pre post,
     trace (snd r) =
       trace w ++ pre ++ EvClearenv :: map EvPutenv (envp_strings envp) ++ post) /\
  (envp = Some [Some "FOO=bar"%string; None] -> environ (snd r) = ["FOO=bar"%string]) /\
  (distinct_names (envp_strings envp) -> environ (snd r) = envp_strings envp).
Proof.
  intros Hpts.
  assert (environ (snd r) = populate (envp_strings envp) []) as Henv.
  { enter_child Hready Hfork. now apply environ_child_process. }
  split; [exact Henv |]. split; [| split].
  - enter_child Hready Hfork.
    rewrite trace_child_process, (trace_world_at_fork _ _ _ _ _ _ _ Hready).
    unfold child_events.
    destruct (Z.ltb_spec (os_open_pts o) 0) as [? | _]; [lia |].
    unfold environment_events.
    exists (setup_events o rows columns cell_width cell_height ++
            session_events o (os_open_ptmx o) devname ++ stdio_events o ++
            inherited_events o),
           (chdir_events o dir ++ exec_events o cmd argv).
    rewrite <- !app_assoc. reflexivity.
  - intros ->. rewrite Henv. reflexivity.
  - intros Hd. rewrite Henv. now apply populate_distinct.
Qed.

(** C5: when [chdir] fails in the child, the failure is reported with
    [perror] and the command is run all the same: the child ends the way it
    ends when [chdir] succeeds, replaced by the command or, when the command
    cannot be run, with the status 1 of the failed [execvp]. *)
Theorem chdir_failure_is_soft :
  0 <= os_open_pts o -> os_chdir o <> 0 ->
  (exists pre post,
     trace (snd r) =
       pre ++ [EvChdir dir (os_chdir o); EvPerror (chdir_message o dir); EvFflushStderr;
               EvExecvp cmd (option_map until_null argv)] ++ post) /\
  fst r = (if os_execvp o then ChildExec cmd (option_map until_null argv) else ChildExit 1) /\
  fst r = fst (create_subprocess (with_chdir 0 o) cmd dir argv envp
                                 rows columns cell_width cell_height w).
Proof.
  intros Hpts Hchdir.
  assert (device_ready (with_chdir 0 o) devname) as Hready' by exact Hready.
  rewrite (create_subprocess_ready _ _ _ _ _ _ _ _ _ _ _ Hready').
  enter_child Hready Hfork.
  change (os_fork (with_chdir 0 o)) with (os_fork o).
  rewrite Hfork. change (0 <? 0) with false. cbv iota.
  rewrite !child_process_outcome, trace_child_process.
  change (os_open_pts (with_chdir 0 o)) with (os_open_pts o).
  unfold child_events.
  destruct (Z.ltb_spec (os_open_pts o) 0) as [? | _]; [lia |].
  split; [| split; reflexivity].
  unfold chdir_events, exec_events.
  destruct (Z.eqb_spec (os_chdir o) 0) as [? | _]; [lia |].
  exists (trace wf ++ session_events o (os_open_ptmx o) devname ++ stdio_events o ++
          inherited_events o ++ environment_events envp),
         (if os_execvp o then [] else [EvPerror (exec_message o cmd); Ev_exit 1]).
  rewrite <- !app_assoc. reflexivity.
Qed.

(** C6: in the child, a slave that cannot be opened ends the process at once
    with [exit(-1)], status 255, and a command that cannot be run ends it
    with [_exit(1)] after a [perror] of the failure; in neither case does
    the code return to its caller. *)
Theorem child_failures_terminate :
  (os_open_pts o < 0 ->
     fst r = ChildExit (-1) /\ exit_status (-1) = 255 /\
     exists pre, trace (snd r) =
                   pre ++ [EvOpen devname false (os_open_pts o); EvExit (-1)]) /\
  (0 <= os_open_pts o -> os_execvp o = false ->
     fst r = ChildExit 1 /\ exit_status 1 = 1 /\
     exists pre, trace (snd r) =
                   pre ++ [EvExecvp cmd (option_map until_null argv);
                           EvPerror (exec_message o cmd); Ev_exit 1]).
Proof.
  enter_child Hready Hfork.
  rewrite child_process_outcome, trace_child_process. unfold child_events.
  split.
  - intros Hpts. destruct (Z.ltb_spec (os_open_pts o) 0) as [_ | ?]; [| lia].
    repeat split.
    exists (trace wf ++ [EvUnblockSignals; EvClose (os_open_ptmx o); EvSetsid]).
    rewrite <- !app_assoc. reflexivity.
  - intros Hpts Hexec. destruct (Z.ltb_spec (os_open_pts o) 0) as [? | _]; [lia |].
    unfold exec_outcome, exec_events. rewrite Hexec. repeat split.
    exists (trace wf ++ session_events o (os_open_ptmx o) devname ++ stdio_events o ++
            inherited_events o ++ environment_events envp ++ chdir_events o dir).
    rewrite <- !app_assoc. reflexivity.
Qed.

(** Whether or not the descriptors could be listed, the child goes on: the
    calls of the listing step are followed by [clearenv], and the child ends
    by running the command. *)
Lemma child_continues_after_listing :
  0 <= os_open_pts o ->
  fst r = exec_outcome o cmd argv /\
  exists pre post,
    trace (snd r) = pre ++ inherited_events o ++ [EvClearenv] ++ post.
Proof.
  intros Hpts. enter_child Hready Hfork.
  rewrite child_process_outcome, trace_child_process. unfold child_events.
  destruct (Z.ltb_spec (os_open_pts o) 0) as [? | _]; [lia |].
  split; [reflexivity |]. unfold environment_events.
  exists (trace wf ++ session_events o (os_open_ptmx o) devname ++ stdio_events o),
         (map EvPutenv (envp_strings envp) ++ chdir_events o dir ++ exec_events o cmd argv).
  rewrite <- !app_assoc. reflexivity.
Qed.

End ChildPath.

Lemma child_environment_from_envp_witness :
  environ (snd (create_subprocess (sample_os 0 0) (Some "sh"%string) (Some "/"%string)
                  (Some [Some "sh"%string; None])
                  (Some [Some "FOO=bar"%string; None]) 24 80 10 20 sample_world))
  = ["FOO=bar"%string].
Proof.
  refine (proj1 (proj2 (proj2
    (child_environment_from_envp (sample_os 0 0) (Some "sh"%string) (Some "/"%string)
       (Some [Some "sh"%string; None]) (Some [Some "FOO=bar"%string; None])
       24 80 10 20 sample_world "/dev/pts/2" _ _ _))) eq_refl).
  - repeat split; cbn; lia.
  - reflexivity.
  - cbn. lia.
Defined.

Lemma chdir_failure_is_soft_witness :
  fst (create_subprocess (sample_os 0 (-1)) (Some "sh"%string) (Some "/nonexistent"%string)
         (Some [Some "sh"%string; None]) None 24 80 10 20 sample_world)
  = ChildExec (Some "sh"%string) (Some ["sh"%string]).
Proof.
  refine (proj1 (proj2
    (chdir_failure_is_soft (sample_os 0 (-1)) (Some "sh"%string) (Some "/nonexistent"%string)
       (Some [Some "sh"%string; None]) None 24 80 10 20 sample_world "/dev/pts/2" _ _ _ _))).
  - repeat split; cbn; lia.
  - reflexivity.
  - cbn. lia.
  - cbn. lia.
Defined.

Lemma child_failures_terminate_witness :
  let o := Os 8 2 (Tty 1024 (Winsize 0 0 0 0)) 0 0 (Some "/dev/pts/2"%string) 0 0 9
              None 0 true false true in
  fst (create_subprocess o (Some "nosuchcmd"%string) (Some "/"%string)
         (Some [Some "nosuchcmd"%string; None]) None 24 80 10 20 sample_world)
  = ChildExit 1.
Proof.
  intros o.
  refine (proj1 (proj2
    (child_failures_terminate o (Some "nosuchcmd"%string) (Some "/"%string)
       (Some [Some "nosuchcmd"%string; None]) None 24 80 10 20 sample_world
       "/dev/pts/2" _ _) _ _)).
  - repeat split; cbn; lia.
  - reflexivity.
  - cbn. lia.
  - reflexivity.
Defined.

(** ** Closing the inherited descriptors *)

Lemma closed_by_listing_spec d names fd :
  fd ∈ closed_by_listing d names <-> fd ∈ map atoi names /\ 2 < fd /\ fd <> d.
Proof.
  unfold closed_by_listing. rewrite list_elem_of_filter. tauto.
Qed.

(** C8: given the names of the open descriptors, the step closes with
    [close] exactly those whose number is greater than 2 and is not the
    descriptor of the listing itself, which [closedir] releases once the
    listing is exhausted; every other descriptor stays as it was.  When the
    listing cannot be opened nothing is closed, and either way the child
    goes on to set up its environment and run the command. *)
Theorem close_inherited_closes_listed (o : os) (w : world) :
  trace (close_inherited o w) = trace w ++ inherited_events o /\
  (forall (self_dir_fd : Z) (names : list string),
     os_opendir o = Some (self_dir_fd, names) ->
     exists l,
       inherited_events o =
         EvOpendir "/proc/self/fd" (Some self_dir_fd) :: l ++ [EvClosedir self_dir_fd] /\
       closes l = filter (fun fd => 2 < fd /\ fd <> self_dir_fd) (map atoi names) /\
       ((0 ∉ closes l) /\ (1 ∉ closes l) /\ (2 ∉ closes l) /\ (self_dir_fd ∉ closes l)) /\
       (forall fd, fdtab (close_inherited o w) !! fd =
                     if decide (fd = self_dir_fd \/ fd ∈ closes l) then None
                     else fdtab w !! fd)) /\
  (os_opendir o = None ->
     close_inherited o w = emit (EvOpendir "/proc/self/fd" None) w /\
     closes (inherited_events o) = []) /\
  (forall (cmd dir : option string) (argv envp : option (list (option string)))
          (rows columns cell_width cell_height : Z) (w0 : world) (devname : string),
     device_ready o devname -> os_fork o = 0 -> 0 <= os_open_pts o ->
     let r := create_subprocess o cmd dir argv envp
                                rows columns cell_width cell_height w0 in
     fst r = exec_outcome o cmd argv /\
     exists pre post,
       trace (snd r) = pre ++ inherited_events o ++ [EvClearenv] ++ post).
Proof.
  split; [apply trace_close_inherited |]. split; [| split].
  - intros d names Hdir.
    exists (listing_events d names).
    rewrite closes_listing_events.
    assert (forall fd, fd ∈ closed_by_listing d names -> 2 < fd /\ fd <> d) as Hsound.
    { intros fd H. apply closed_by_listing_spec in H. tauto. }
    split; [| split; [| split]].
    + unfold inherited_events. now rewrite Hdir.
    + reflexivity.
    + repeat split; intros H; apply Hsound in H; lia.
    + intros fd. unfold close_inherited. rewrite Hdir. cbv zeta.
      rewrite fdtab_set_fdtab.
      destruct (decide (fd = d)) as [-> | Hne].
      * rewrite lookup_delete_eq. rewrite decide_True by now left. reflexivity.
      * rewrite lookup_delete_ne by congruence.
        rewrite fdtab_close_listed, fdtab_set_fdtab, fdtab_emit.
        destruct (decide (fd ∈ closed_by_listing d names)) as [Hin | Hin].
        -- rewrite decide_True by now right. reflexivity.
        -- rewrite decide_False by tauto. apply lookup_insert_ne. congruence.
  - intros Hdir. split.
    + unfold close_inherited. now rewrite Hdir.
    + unfold inherited_events. now rewrite Hdir.
  - intros cmd dir argv envp rows columns cell_width cell_height w0 devname
           Hready Hfork Hpts r.
    now apply (child_continues_after_listing o cmd dir argv envp
                 rows columns cell_width cell_height w0 devname).
Qed.

Lemma close_inherited_closes_listed_witness :
  exists l,
    inherited_events (sample_os 0 0) =
      EvOpendir "/proc/self/fd" (Some 10) :: l ++ [EvClosedir 10] /\
    closes l = [5; 7; 9].
Proof.
  destruct (proj1 (proj2 (close_inherited_closes_listed (sample_os 0 0) sample_world))
              10 ["."; ".."; "0"; "1"; "2"; "5"; "7"; "9"; "10"]%string eq_refl)
    as (l & Hev & Hcloses & _).
  exists l. split; [exact Hev | exact Hcloses].
Defined.

(** ** Marshalling: what the copying loop keeps and changes *)

Lemma alloc_served b w :
  alloc_plan w = [] ->
  alloc b w = (Some (next_block w),
               set_heap (<[next_block w := b]> (heap w)) (S (next_block w)) [] w).
Proof. intros H. unfold alloc. now rewrite H. Qed.

Lemma alloc_keeps b w :
  let w' := snd (alloc b w) in
  (next_block w <= next_block w')%nat /\
  (forall p, (p < next_block w)%nat -> heap w' !! p = heap w !! p) /\
  (alloc_plan w = [] -> alloc_plan w' = []) /\
  utf_plan w' = utf_plan w /\ utf_pins w' = utf_pins w /\
  exception w' = exception w /\ trace w' = trace w.
Proof.
  unfold alloc. destruct (alloc_plan w) as [| [|] plan]; cbn [snd];
    rewrite ?next_block_set_heap, ?heap_set_heap, ?alloc_plan_set_heap;
    (split; [lia |]); (split; [| repeat split; congruence]); intros p Hp;
    try reflexivity; apply lookup_insert_ne; lia.
Qed.

(** The loop changes nothing but the allocator and the conversion plan. *)
Lemma copy_strings_keeps elems w :
  let w' := snd (copy_strings elems w) in
  (next_block w <= next_block w')%nat /\
  (forall p, (p < next_block w)%nat -> heap w' !! p = heap w !! p) /\
  (alloc_plan w = [] -> alloc_plan w' = []) /\
  exception w' = exception w /\ trace w' = trace w.
Proof.
  revert w. induction elems as [| s elems IH]; intros w; cbn [copy_strings].
  - cbn [snd]. repeat split; auto.
  - assert (forall plan pins,
              let v := set_utf plan pins w in
              let w' := snd (let '(copy, w1) := alloc (BString s) v in
                             match copy_strings elems (ReleaseStringUTFChars (Some s) w1) with
                             | (Some cells, w2) => (Some (copy :: cells), w2)
                             | (None, w2) => (None, w2)
                             end) in
              (next_block w <= next_block w')%nat /\
              (forall p, (p < next_block w)%nat -> heap w' !! p = heap w !! p) /\
              (alloc_plan w = [] -> alloc_plan w' = []) /\
              exception w' = exception w /\ trace w' = trace w) as Hstep.
    { intros plan pins v w'. subst w'.
      pose proof (alloc_keeps (BString s) v) as (Hn & Hh & Hp & _ & _ & He & Ht).
      destruct (alloc (BString s) v) as [copy w1]. cbn [snd] in *.
      specialize (IH (ReleaseStringUTFChars (Some s) w1)).
      destruct (copy_strings elems (ReleaseStringUTFChars (Some s) w1)) as [[cells |] w2];
        cbn [snd] in *; destruct IH as (Hn' & Hh' & Hp' & He' & Ht');
        subst v;
        cbn [ReleaseStringUTFChars set_utf next_block heap alloc_plan exception trace] in *;
        (split; [lia |]); (split; [intros p Hlt; rewrite Hh' by lia; now apply Hh |]);
        (split; [intros Hpl; apply Hp', Hp, Hpl |]);
        (split; [now rewrite He', He | now rewrite Ht', Ht]). }
    unfold GetStringUTFChars.
    destruct (utf_plan w) as [| [|] plan].
    + apply Hstep.
    + apply Hstep.
    + cbn [snd]. repeat split; auto.
Qed.

(** The loop succeeds when the conversions it needs succeed, and uses up
    one entry of the plan for each string. *)
Lemma copy_strings_converted elems rest w :
  utf_plan w = repeat true (length elems) ++ rest ->
  exists cells, fst (copy_strings elems w) = Some cells /\
                utf_plan (snd (copy_strings elems w)) = rest.
Proof.
  revert w. induction elems as [| s elems IH]; intros w Hplan; cbn [copy_strings].
  - exists []. split; [reflexivity | exact Hplan].
  - unfold GetStringUTFChars. rewrite Hplan. cbn [length repeat app].
    pose proof (alloc_keeps (BString s)
                  (set_utf (repeat true (length elems) ++ rest) (S (utf_pins w)) w))
      as (_ & _ & _ & Hu & _).
    destruct (alloc (BString s)
                (set_utf (repeat true (length elems) ++ rest) (S (utf_pins w)) w))
      as [copy w1].
    cbn [snd] in Hu. rewrite utf_plan_set_utf in Hu.
    destruct (IH (ReleaseStringUTFChars (Some s) w1)) as (cells & Hc & Hr).
    { cbn [ReleaseStringUTFChars]. now rewrite utf_plan_set_utf. }
    destruct (copy_strings elems (ReleaseStringUTFChars (Some s) w1)) as [res w2].
    cbn [fst snd] in *. subst res. exists (copy :: cells). split; [reflexivity | exact Hr].
Qed.

(** The loop gives up at the first conversion that fails. *)
Lemma copy_strings_gives_up elems k rest w :
  utf_plan w = repeat true k ++ false :: rest -> (k < length elems)%nat ->
  fst (copy_strings elems w) = None.
Proof.
  revert k w. induction elems as [| s elems IH]; intros k w Hplan Hk; cbn [length] in Hk.
  - lia.
  - cbn [copy_strings]. unfold GetStringUTFChars. rewrite Hplan.
    destruct k as [| k]; cbn [repeat app]; [reflexivity |].
    pose proof (alloc_keeps (BString s)
                  (set_utf (repeat true k ++ false :: rest) (S (utf_pins w)) w))
      as (_ & _ & _ & Hu & _).
    destruct (alloc (BString s)
                (set_utf (repeat true k ++ false :: rest) (S (utf_pins w)) w))
      as [copy w1].
    cbn [snd] in Hu. rewrite utf_plan_set_utf in Hu.
    specialize (IH k (ReleaseStringUTFChars (Some s) w1)).
    destruct (copy_strings elems (ReleaseStringUTFChars (Some s) w1)) as [res w2].
    cbn [fst] in *. rewrite IH; [reflexivity | | lia].
    cbn [ReleaseStringUTFChars]. now rewrite utf_plan_set_utf.
Qed.

(** Whatever the strings are: when the allocations are served and a
    conversion of an environment string fails, [JNI.createSubprocess] returns -1
    with the [argv] array still allocated. *)
Lemma env_conversion_failure_keeps_argv
    (o : os) (critical_ok : bool) (cmd dir : string)
    (a : string) (args : list string) (e : string) (envs : list string) (k : nat)
    (rows columns cell_width cell_height : Z) (w : world) :
  alloc_plan w = [] ->
  utf_plan w = repeat true (length (a :: args)) ++ repeat true k ++ [false] ->
  (k < length (e :: envs))%nat ->
  let r := JNI.createSubprocess o critical_ok cmd dir (Some (a :: args)) (Some (e :: envs))
                            rows columns cell_width cell_height w in
  fst r = Returned (-1) None /\
  exception (snd r) = Some "GetStringUTFChars() failed for env"%string /\
  heap (snd r) !! next_block w = Some (BArray (S (length (a :: args)))) /\
  trace (snd r) = trace w.
Proof.
  intros Halloc Hutf Hk r. subst r.
  unfold JNI.createSubprocess, marshal_argv. cbn [array_elements].
  rewrite (alloc_served _ _ Halloc).
  set (w1 := set_heap _ _ _ w).
  destruct (copy_strings_converted (a :: args) (repeat true k ++ [false]) w1 Hutf)
    as (cells & Hcells & Hplan).
  pose proof (copy_strings_keeps (a :: args) w1) as (Hn & Hh & Hp & He & Ht).
  destruct (copy_strings (a :: args) w1) as [res w2]. cbn [fst snd] in *. subst res.
  unfold marshal_envp. cbn [array_elements].
  rewrite (alloc_served _ _ (Hp eq_refl)).
  set (w3 := set_heap _ _ _ w2).
  pose proof (copy_strings_gives_up (e :: envs) k [] w3 Hplan Hk) as Hnone.
  pose proof (copy_strings_keeps (e :: envs) w3) as (Hn' & Hh' & _ & He' & Ht').
  destruct (copy_strings (e :: envs) w3) as [res w4]. cbn [fst snd] in *. subst res.
  cbn [throw_runtime_exception fst snd].
  rewrite exception_set_exception, heap_set_exception, trace_set_exception.
  repeat split.
  - subst w1 w3. rewrite next_block_set_heap, heap_set_heap in *.
    rewrite Hh' by lia. rewrite lookup_insert_ne by lia.
    rewrite Hh by lia. apply lookup_insert_eq.
  - subst w1 w3. rewrite trace_set_heap in *. now rewrite Ht', Ht.
Qed.

(** ** Marshalling when the requests are served *)

Lemma serves_cons n b plan : serves (S n) (b :: plan) -> b = true /\ serves n plan.
Proof. unfold serves. cbn [take]. intros H. now apply Forall_cons in H. Qed.

Lemma serves_nil n : serves n [].
Proof. unfold serves. rewrite take_nil. constructor. Qed.

Lemma serves_repeat n rest : serves n (repeat true n ++ rest).
Proof.
  unfold serves. induction n as [| n IH]; cbn [repeat app take]; constructor; auto.
Qed.

Lemma drop_repeat_app n (rest : list bool) : drop n (repeat true n ++ rest) = rest.
Proof. induction n as [| n IH]; [reflexivity | exact IH]. Qed.

Lemma alloc_of_served b w :
  serves 1 (alloc_plan w) ->
  alloc b w = (Some (next_block w),
               set_heap (<[next_block w := b]> (heap w)) (S (next_block w))
                        (drop 1 (alloc_plan w)) w).
Proof.
  unfold alloc. destruct (alloc_plan w) as [| [|] plan]; intros H; try reflexivity.
  apply serves_cons in H as [H _]. discriminate.
Qed.

Lemma GetStringUTFChars_of_served s w :
  serves 1 (utf_plan w) ->
  GetStringUTFChars s w = (Some s, set_utf (drop 1 (utf_plan w)) (S (utf_pins w)) w).
Proof.
  unfold GetStringUTFChars. destruct (utf_plan w) as [| [|] plan]; intros H; try reflexivity.
  apply serves_cons in H as [H _]. discriminate.
Qed.

Lemma serves_S n plan : serves (S n) plan -> serves 1 plan /\ serves n (drop 1 plan).
Proof.
  destruct plan as [| b plan]; intros H.
  - split; apply serves_nil.
  - apply serves_cons in H as [-> H]. split; [| exact H].
    unfold serves. cbn [take]. constructor; [reflexivity | rewrite take_0; constructor].
Qed.

(** The world after the copying loop when all its requests are served: the
    strings are stored in consecutive fresh blocks and nothing else changes. *)
Lemma copy_strings_of_served elems w :
  serves (length elems) (utf_plan w) -> serves (length elems) (alloc_plan w) ->
  copy_strings elems w =
    (Some (map Some (seq (next_block w) (length elems))),
     set_utf (drop (length elems) (utf_plan w)) (utf_pins w)
       (set_heap (store_strings (next_block w) elems (heap w))
                 (next_block w + length elems)
                 (drop (length elems) (alloc_plan w)) w)).
Proof.
  revert w. induction elems as [| s elems IH]; intros w Hu Ha.
  - cbn [copy_strings length seq map store_strings]. rewrite !drop_0, Nat.add_0_r.
    destruct w; reflexivity.
  - cbn [length] in *. apply serves_S in Hu as [Hu1 Hu]. apply serves_S in Ha as [Ha1 Ha].
    cbn [copy_strings]. rewrite (GetStringUTFChars_of_served _ _ Hu1).
    rewrite alloc_of_served by exact Ha1.
    cbn [ReleaseStringUTFChars].
    rewrite IH.
    + cbn [seq map store_strings]. autorewrite with world. f_equal.
      apply world_eq; autorewrite with world; rewrite ?drop_drop; try reflexivity.
      cbn [Nat.add]. lia.
    + now autorewrite with world.
    + now autorewrite with world.
Qed.

Lemma store_strings_below p elems h q :
  (q < p)%nat -> store_strings p elems h !! q = h !! q.
Proof.
  revert p h. induction elems as [| s elems IH]; intros p h Hq; [reflexivity |].
  cbn [store_strings]. rewrite IH by lia. apply lookup_insert_ne. lia.
Qed.

Lemma store_strings_above p elems h q :
  (p + length elems <= q)%nat -> store_strings p elems h !! q = h !! q.
Proof.
  revert p h. induction elems as [| s elems IH]; intros p h Hq; [reflexivity |].
  cbn [store_strings length] in *. rewrite IH by lia. apply lookup_insert_ne. lia.
Qed.

Lemma store_strings_at p elems h i s :
  elems !! i = Some s -> store_strings p elems h !! (p + i)%nat = Some (BString s).
Proof.
  revert p h i. induction elems as [| s' elems IH]; intros p h i Hi; [discriminate |].
  cbn [store_strings]. destruct i as [| i].
  - cbn in Hi. injection Hi as ->. rewrite Nat.add_0_r.
    rewrite store_strings_below by lia. apply lookup_insert_eq.
  - cbn in Hi. replace (p + S i)%nat with (S p + i)%nat by lia. now apply IH.
Qed.

Lemma vector_strings_stored elems p w :
  (forall i s, elems !! i = Some s -> heap w !! (p + i)%nat = Some (BString s)) ->
  vector_strings (map Some (seq p (length elems))) w = map Some elems.
Proof.
  revert p. induction elems as [| s elems IH]; intros p H; [reflexivity |].
  cbn [length seq map vector_strings]. f_equal.
  - specialize (H 0%nat s eq_refl). rewrite Nat.add_0_r in H. now rewrite H.
  - apply IH. intros i t Hi. replace (S p + i)%nat with (p + S i)%nat by lia.
    now apply H.
Qed.

Lemma until_null_terminated {A : Type} (l : list A) (rest : list (option A)) :
  until_null (map Some l ++ None :: rest) = l.
Proof. induction l as [| x l IH]; [reflexivity |]. cbn. now rewrite IH. Qed.

Lemma vector_strings_app cells cells' w :
  vector_strings (cells ++ cells') w = vector_strings cells w ++ vector_strings cells' w.
Proof. unfold vector_strings. apply map_app. Qed.

Lemma heap_free_all ps w q :
  heap (fold_left (fun w p => free p w) ps w) !! q =
    if decide (q ∈ ps) then None else heap w !! q.
Proof.
  revert w. induction ps as [| p ps IH]; intros w; cbn [fold_left].
  - rewrite decide_False; [reflexivity | apply not_elem_of_nil].
  - rewrite IH. unfold free. rewrite heap_set_heap.
    destruct (decide (q ∈ ps)) as [Hin | Hin].
    + rewrite decide_True; [reflexivity | now apply elem_of_cons; right].
    + destruct (decide (q = p)) as [-> | Hne].
      * rewrite decide_True by (apply elem_of_cons; now left). apply lookup_delete_eq.
      * rewrite decide_False by (intros [? | ?]%elem_of_cons; tauto).
        now apply lookup_delete_ne.
Qed.

Lemma next_block_free_all ps w :
  next_block (fold_left (fun w p => free p w) ps w) = next_block w.
Proof. revert w. induction ps as [| p ps IH]; intros w; [reflexivity |]. cbn. now rewrite IH. Qed.

(** Releasing a vector whose entries were all copied into the blocks after
    the array gives back the heap there was before it was built. *)
Lemma free_vector_restores p elems h w :
  (forall q, (p <= q)%nat -> h !! q = None) ->
  heap w = store_strings (S p) elems (<[p := BArray (S (length elems))]> h) ->
  heap (free_vector p (map Some (seq (S p) (length elems)) ++ [None]) w) = h.
Proof.
  intros Hfresh Hheap. apply map_eq. intros q.
  unfold free_vector. rewrite until_null_terminated.
  unfold free. rewrite heap_set_heap.
  destruct (decide (q = p)) as [-> | Hne].
  - rewrite lookup_delete_eq. symmetry. apply Hfresh. lia.
  - rewrite lookup_delete_ne by congruence. rewrite heap_free_all.
    destruct (decide (q ∈ seq (S p) (length elems))) as [Hin | Hin].
    + apply elem_of_seq in Hin. symmetry. apply Hfresh. lia.
    + rewrite Hheap.
      assert (q < S p \/ S p + length elems <= q)%nat as [Hlt | Hge].
      { destruct (decide (q < S p)%nat); [now left | right].
        destruct (decide (S p + length elems <= q)%nat); [assumption |].
        exfalso. apply Hin. apply elem_of_seq. lia. }
      * rewrite store_strings_below by lia. apply lookup_insert_ne. lia.
      * rewrite store_strings_above by lia. apply lookup_insert_ne. lia.
Qed.

Lemma alloc_refused b rest w :
  alloc_plan w = false :: rest ->
  alloc b w = (None, set_heap (heap w) (next_block w) rest w).
Proof. intros H. unfold alloc. now rewrite H. Qed.

(** What a vector of the strings [elems] looks like when it is built from
    the world [w]: the array in the next fresh block, the copies after it.
    The same holds of the two marshalling steps of [JNI.createSubprocess]. *)
Lemma marshal_argv_of_served s elems w :
  serves (S (length elems)) (utf_plan w) ->
  serves (S (S (length elems))) (alloc_plan w) ->
  exists w',
    marshal_argv (Some (s :: elems)) w =
      (Built (Some (next_block w,
                    map Some (seq (S (next_block w)) (S (length elems))) ++ [None])), w') /\
    heap w' = store_strings (S (next_block w)) (s :: elems)
                (<[next_block w := BArray (S (S (length elems)))]> (heap w)) /\
    next_block w' = (S (next_block w) + S (length elems))%nat /\
    alloc_plan w' = drop (S (S (length elems))) (alloc_plan w) /\
    utf_plan w' = drop (S (length elems)) (utf_plan w).
Proof.
  intros Hu Ha. apply serves_S in Ha as [Ha1 Ha].
  unfold marshal_argv. cbn [array_elements].
  rewrite alloc_of_served by exact Ha1.
  rewrite copy_strings_of_served; autorewrite with world; try assumption.
  eexists. split; [reflexivity |]. autorewrite with world.
  rewrite drop_drop. repeat split.
Qed.

Lemma marshal_envp_of_served argv s elems w :
  serves (S (length elems)) (utf_plan w) ->
  serves (S (S (length elems))) (alloc_plan w) ->
  exists w',
    marshal_envp argv (Some (s :: elems)) w =
      (Built (Some (next_block w,
                    map Some (seq (S (next_block w)) (S (length elems))) ++ [None])), w') /\
    heap w' = store_strings (S (next_block w)) (s :: elems)
                (<[next_block w := BArray (S (S (length elems)))]> (heap w)) /\
    next_block w' = (S (next_block w) + S (length elems))%nat /\
    alloc_plan w' = drop (S (S (length elems))) (alloc_plan w) /\
    utf_plan w' = drop (S (length elems)) (utf_plan w).
Proof.
  intros Hu Ha. apply serves_S in Ha as [Ha1 Ha].
  unfold marshal_envp. cbn [array_elements].
  rewrite alloc_of_served by exact Ha1.
  rewrite copy_strings_of_served; autorewrite with world; try assumption.
  eexists. split; [reflexivity |]. autorewrite with world.
  rewrite drop_drop. repeat split.
Qed.

(** Whatever the strings are: when the allocation of the [envp] array fails
    after [argv] was built completely, the call returns -1 with the heap it
    started from. *)
Lemma envp_allocation_failure_releases_all
    (o : os) (critical_ok : bool) (cmd dir : string)
    (a : string) (args : list string) (e : string) (envs : list string)
    (rest : list bool) (rows columns cell_width cell_height : Z) (w : world) :
  heap_fresh w ->
  utf_plan w = [] ->
  alloc_plan w = repeat true (S (S (length args))) ++ false :: rest ->
  let r := JNI.createSubprocess o critical_ok cmd dir (Some (a :: args)) (Some (e :: envs))
                            rows columns cell_width cell_height w in
  fst r = Returned (-1) None /\
  exception (snd r) = Some "malloc() for envp array failed"%string /\
  heap (snd r) = heap w.
Proof.
  intros Hfresh Hutf Halloc r. subst r. unfold JNI.createSubprocess.
  destruct (marshal_argv_of_served a args w) as (w1 & -> & Hheap & Hnext & Hplan & _).
  { rewrite Hutf. apply serves_nil. }
  { rewrite Halloc. apply serves_repeat. }
  rewrite Halloc, drop_repeat_app in Hplan.
  unfold marshal_envp. cbn [array_elements].
  rewrite (alloc_refused _ _ _ Hplan).
  cbn [free_if_built throw_runtime_exception fst snd]. autorewrite with world.
  repeat split. apply (free_vector_restores (next_block w) (a :: args)).
  - exact Hfresh.
  - autorewrite with world. exact Hheap.
Qed.

(** ** Marshalling failures *)

(** When the allocation of the [envp] array fails, the vector built for
    [argv] is released before the exception is thrown (lines 179-183). *)
Example envp_allocation_failure_releases_argv :
  let w := set_heap ∅ 0 [true; true; false] sample_world in
  let r := JNI.createSubprocess (sample_os 1234 0) true "sh" "/"
             (Some ["sh"%string]) (Some ["FOO=bar"%string]) 24 80 10 20 w in
  fst r = Returned (-1) None /\
  exception (snd r) = Some "malloc() for envp array failed"%string /\
  heap (snd r) = ∅.
Proof. vm_compute. repeat split. Qed.

(** When everything succeeds, nothing stays allocated in the caller. *)
Example successful_creation_releases_vectors :
  let r := JNI.createSubprocess (sample_os 1234 0) true "sh" "/"
             (Some ["sh"%string]) (Some ["FOO=bar"%string]) 24 80 10 20 sample_world in
  fst r = Returned 8 (Some 1234) /\ heap (snd r) = ∅ /\ utf_pins (snd r) = 0%nat.
Proof. vm_compute. repeat split. Qed.

(** The release loop of line 181 stops at the first NULL entry: when a
    [strdup] of the [argv] loop failed (its result is not looked at), the
    copies stored after it stay allocated although the array is freed. *)
Example envp_allocation_failure_stops_at_null_entry :
  let w := set_heap ∅ 0 [true; false; true; false] sample_world in
  let r := JNI.createSubprocess (sample_os 1234 0) true "sh" "/"
             (Some ["a"; "b"]%string) (Some ["FOO=bar"%string]) 24 80 10 20 w in
  fst r = Returned (-1) None /\
  exception (snd r) = Some "malloc() for envp array failed"%string /\
  map_to_list (heap (snd r)) = [(1%nat, BString "b")].
Proof. vm_compute. repeat split. Qed.

(** C2 (the code does not do this): a call with args = ["sh"] and envVars =
    ["FOO=bar"] whose conversion of the environment string fails, after the
    [argv] array and its entry were allocated, throws and returns -1 with
    the [argv] array, the copy of "sh" and the [envp] array still allocated:
    line 187 returns without the release that line 181 performs when the
    allocation of the array fails. *)
Theorem env_conversion_failure_leaks_argv :
  let w := set_utf [true; false] 0 sample_world in
  let r := JNI.createSubprocess (sample_os 1234 0) true "sh" "/"
             (Some ["sh"%string]) (Some ["FOO=bar"%string]) 24 80 10 20 w in
  heap w = ∅ /\
  fst r = Returned (-1) None /\
  exception (snd r) = Some "GetStringUTFChars() failed for env"%string /\
  heap (snd r) !! 0%nat = Some (BArray 2) /\
  heap (snd r) !! 1%nat = Some (BString "sh") /\
  heap (snd r) !! 2%nat = Some (BArray 2) /\
  trace (snd r) = [].
Proof. vm_compute. repeat split. Qed.

(** ** The environment of the child, from the Java arrays *)

Lemma marshal_argv_served args w :
  alloc_plan w = [] -> utf_plan w = [] ->
  exists v w', marshal_argv args w = (Built v, w') /\
               alloc_plan w' = [] /\ utf_plan w' = [].
Proof.
  intros Ha Hu. destruct args as [[| s elems] |].
  - exists None, w. repeat split; assumption.
  - destruct (marshal_argv_of_served s elems w) as (w' & E & _ & _ & Ha' & Hu').
    { rewrite Hu. apply serves_nil. }
    { rewrite Ha. apply serves_nil. }
    rewrite Ha, drop_nil in Ha'. rewrite Hu, drop_nil in Hu'. eauto.
  - exists None, w. repeat split; assumption.
Qed.

Lemma marshal_envp_served argv envVars w :
  alloc_plan w = [] -> utf_plan w = [] ->
  exists v w', marshal_envp argv envVars w = (Built v, w') /\
               alloc_plan w' = [] /\ utf_plan w' = [] /\
               forall w'', heap w'' = heap w' ->
                 envp_strings (vector_array v w'') = array_elements envVars.
Proof.
  intros Ha Hu. destruct envVars as [[| s elems] |].
  - exists None, w. repeat split; assumption.
  - destruct (marshal_envp_of_served argv s elems w) as (w' & E & Hh & _ & Ha' & Hu').
    { rewrite Hu. apply serves_nil. }
    { rewrite Ha. apply serves_nil. }
    rewrite Ha, drop_nil in Ha'. rewrite Hu, drop_nil in Hu'.
    eexists _, w'. split; [exact E |]. split; [exact Ha' |]. split; [exact Hu' |].
    intros w'' Hw''. cbn [vector_array option_map envp_strings array_elements].
    rewrite vector_strings_app.
    rewrite (vector_strings_stored (s :: elems)).
    + apply until_null_terminated.
    + intros i t Hi. rewrite Hw'', Hh. now apply store_strings_at.
  - exists None, w. repeat split; assumption.
Qed.

(** Seen from the Java caller: when the requests of the marshalling are
    served, the child's environment is the one the elements of [envVars]
    build from nothing, in their order. *)
Lemma createSubprocess_child_environment
    (o : os) (critical_ok : bool) (cmd dir : string) (args envVars : option (list string))
    (rows columns cell_width cell_height : Z) (w : world) (devname : string) :
  alloc_plan w = [] -> utf_plan w = [] ->
  device_ready o devname -> os_fork o = 0 -> 0 <= os_open_pts o ->
  environ (snd (JNI.createSubprocess o critical_ok cmd dir args envVars
                                 rows columns cell_width cell_height w))
  = populate (array_elements envVars) [].
Proof.
  intros Ha Hu Hready Hfork Hpts. unfold JNI.createSubprocess.
  destruct (marshal_argv_served args w Ha Hu) as (argv & w1 & -> & Ha1 & Hu1).
  destruct (marshal_envp_served argv envVars w1 Ha1 Hu1)
    as (envp & w2 & -> & Ha2 & Hu2 & Hstrings).
  unfold GetStringUTFChars at 1. rewrite Hu2.
  unfold GetStringUTFChars at 1. rewrite utf_plan_set_utf.
  set (w3 := set_utf [] _ (set_utf [] _ w2)).
  enter_child Hready Hfork.
  match goal with
  | |- context [child_process o ?p ?d ?c ?cw ?av ?ev ?v] =>
      pose proof (child_process_outcome o p d c cw av ev v) as Hout;
      pose proof (environ_child_process o p d c cw av ev v Hpts) as Henv;
      destruct (child_process o p d c cw av ev v) as [out wc]
  end.
  cbn [fst snd] in Hout, Henv.
  rewrite (Hstrings w3) in Henv by (subst w3; now autorewrite with world).
  destruct (os_open_pts o <? 0); [subst out; exact Henv |].
  unfold exec_outcome in Hout. destruct (os_execvp o); subst out; exact Henv.
Qed.

Example createSubprocess_child_sees_only_envVars :
  environ sample_world = ["PATH=/system/bin"; "HOME=/data"]%string /\
  environ (snd (JNI.createSubprocess (sample_os 0 0) true "sh" "/"
                  (Some ["sh"%string]) (Some ["FOO=bar"%string]) 24 80 10 20 sample_world))
  = ["FOO=bar"%string].
Proof.
  split; [reflexivity |].
  apply (createSubprocess_child_environment (sample_os 0 0) true "sh" "/"
           (Some ["sh"%string]) (Some ["FOO=bar"%string]) 24 80 10 20 sample_world
           "/dev/pts/2"); try reflexivity.
  - repeat split; cbn; lia.
  - cbn. lia.
Qed.

(** ** What the system calls leave alone *)

Lemma jni_state_emit e w : jni_state (emit e w) = jni_state w.
Proof. reflexivity. Qed.

Lemma jni_state_set_fdtab f w : jni_state (set_fdtab f w) = jni_state w.
Proof. reflexivity. Qed.

Lemma jni_state_set_ttys t w : jni_state (set_ttys t w) = jni_state w.
Proof. reflexivity. Qed.

Lemma jni_state_set_exception x w : jni_state (set_exception x w) = jni_state w.
Proof. reflexivity. Qed.

Lemma jni_state_sys_open path f c ret w : jni_state (sys_open path f c ret w) = jni_state w.
Proof. unfold sys_open. destruct (ret <? 0); reflexivity. Qed.

Lemma jni_state_sys_dup2 a b w : jni_state (sys_dup2 a b w) = jni_state w.
Proof.
  unfold sys_dup2. destruct (fdtab (emit (EvDup2 a b) w) !! a); [| reflexivity].
  destruct (a =? b); reflexivity.
Qed.

Lemma jni_state_tcsetattr fd iflag w : jni_state (tcsetattr fd iflag w) = jni_state w.
Proof.
  unfold tcsetattr.
  destruct (pty_of_fd fd (emit (EvTcsetattr fd iflag) w)) as [n |]; [| reflexivity].
  destruct (ttys (emit (EvTcsetattr fd iflag) w) !! n); reflexivity.
Qed.

Lemma jni_state_ioctl_TIOCSWINSZ fd sz w : jni_state (ioctl_TIOCSWINSZ fd sz w) = jni_state w.
Proof.
  unfold ioctl_TIOCSWINSZ.
  destruct (pty_of_fd fd (emit (EvSetWinsize fd sz) w)) as [n |]; [| reflexivity].
  destruct (ttys (emit (EvSetWinsize fd sz) w) !! n); reflexivity.
Qed.

Lemma exception_sys_open path f c ret w : exception (sys_open path f c ret w) = exception w.
Proof. unfold sys_open. destruct (ret <? 0); reflexivity. Qed.

Lemma exception_tcsetattr fd iflag w : exception (tcsetattr fd iflag w) = exception w.
Proof.
  unfold tcsetattr.
  destruct (pty_of_fd fd (emit (EvTcsetattr fd iflag) w)) as [n |]; [| reflexivity].
  destruct (ttys (emit (EvTcsetattr fd iflag) w) !! n); reflexivity.
Qed.

Lemma exception_ioctl_TIOCSWINSZ fd sz w : exception (ioctl_TIOCSWINSZ fd sz w) = exception w.
Proof.
  unfold ioctl_TIOCSWINSZ.
  destruct (pty_of_fd fd (emit (EvSetWinsize fd sz) w)) as [n |]; [| reflexivity].
  destruct (ttys (emit (EvSetWinsize fd sz) w) !! n); reflexivity.
Qed.

Lemma grant_unlock_ptsname_frame o ptm w :
  jni_state (snd (grant_unlock_ptsname o ptm w)) = jni_state w /\
  exception (snd (grant_unlock_ptsname o ptm w)) = exception w /\
  ttys (snd (grant_unlock_ptsname o ptm w)) = ttys w.
Proof.
  unfold grant_unlock_ptsname.
  destruct (os_grantpt o =? 0); cbn [negb snd]; [| repeat split].
  destruct (os_unlockpt o =? 0); cbn [negb snd]; repeat split.
Qed.

Lemma jni_state_close_listed d names w : jni_state (close_listed d names w) = jni_state w.
Proof.
  revert w. induction names as [| n names IH]; intros w; [reflexivity |].
  cbn [close_listed]. rewrite IH.
  destruct ((2 <? atoi n) && negb (atoi n =? d))%bool; reflexivity.
Qed.

Lemma jni_state_close_inherited o w : jni_state (close_inherited o w) = jni_state w.
Proof.
  unfold close_inherited. destruct (os_opendir o) as [[d names] |]; [| reflexivity].
  cbv zeta. change (jni_state (set_fdtab ?f (emit ?e ?v))) with (jni_state v).
  now rewrite jni_state_close_listed.
Qed.

Lemma jni_state_putenv_all vars w : jni_state (putenv_all vars w) = jni_state w.
Proof.
  revert w. induction vars as [| s vars IH]; intros w; [reflexivity |].
  cbn [putenv_all]. now rewrite IH.
Qed.

Lemma jni_state_child_process o ptm devname cmd dir argv envp w :
  jni_state (snd (child_process o ptm devname cmd dir argv envp w)) = jni_state w.
Proof.
  unfold child_process. destruct (os_open_pts o <? 0).
  - cbn [snd]. change (jni_state (emit ?e ?v)) with (jni_state v).
    now rewrite jni_state_sys_open.
  - unfold execute. destruct (os_execvp o); cbn [snd];
      repeat first
        [ progress change (jni_state (emit ?e ?v)) with (jni_state v)
        | progress change (jni_state (set_fdtab ?f ?v)) with (jni_state v) ];
      unfold change_directory;
      (destruct (negb (os_chdir o =? 0)); [| destruct dir];
       repeat first
         [ progress change (jni_state (emit ?e ?v)) with (jni_state v)
         | progress change (jni_state (set_cwd ?f ?v)) with (jni_state v) ];
       unfold setup_environment; destruct envp;
       rewrite ?jni_state_putenv_all;
       repeat first
         [ progress change (jni_state (emit ?e ?v)) with (jni_state v)
         | progress change (jni_state (set_environ ?f ?v)) with (jni_state v) ];
       rewrite jni_state_close_inherited, !jni_state_sys_dup2, jni_state_sys_open;
       reflexivity).
Qed.

(** ** The ways [create_subprocess] ends *)

Lemma create_subprocess_open_fails o cmd dir argv envp rows columns cell_width cell_height w :
  os_open_ptmx o < 0 ->
  create_subprocess o cmd dir argv envp rows columns cell_width cell_height w =
    (Returned (-1) None,
     set_exception (Some "Cannot open /dev/ptmx"%string)
       (emit (EvOpen "/dev/ptmx" true (os_open_ptmx o)) w)).
Proof.
  intros H. unfold create_subprocess, sys_open.
  assert ((os_open_ptmx o <? 0) = true) as -> by (apply Z.ltb_lt; lia).
  reflexivity.
Qed.

Lemma create_subprocess_unlock_fails o cmd dir argv envp rows columns cell_width cell_height w :
  0 <= os_open_ptmx o ->
  os_grantpt o <> 0 \/ os_unlockpt o <> 0 \/ os_ptsname_r o = None ->
  create_subprocess o cmd dir argv envp rows columns cell_width cell_height w =
    (Returned (-1) None,
     set_exception (Some "Cannot grantpt()/unlockpt()/ptsname_r() on /dev/ptmx"%string)
       (snd (grant_unlock_ptsname o (os_open_ptmx o)
               (set_ttys (<[os_pty_index o := os_pty_init o]>
                            (ttys (sys_open "/dev/ptmx" (PtyMaster (os_pty_index o)) true
                                            (os_open_ptmx o) w)))
                         (sys_open "/dev/ptmx" (PtyMaster (os_pty_index o)) true
                                   (os_open_ptmx o) w))))).
Proof.
  intros Hptm Hfail. unfold create_subprocess.
  assert ((os_open_ptmx o <? 0) = false) as -> by (apply Z.ltb_ge; lia).
  match goal with
  | |- context [grant_unlock_ptsname o ?p ?v] =>
      pose proof (grant_unlock_ptsname_fails o p v Hfail) as Hnone;
      destruct (grant_unlock_ptsname o p v) as [res w1]
  end.
  cbn [fst snd] in *. subst res. reflexivity.
Qed.

(** Either the device set-up succeeds or one of its calls fails. *)
Lemma device_ready_dec o :
  (exists devname, device_ready o devname) \/
  os_open_ptmx o < 0 \/
  (0 <= os_open_ptmx o /\
   (os_grantpt o <> 0 \/ os_unlockpt o <> 0 \/ os_ptsname_r o = None)).
Proof.
  unfold device_ready.
  destruct (Z.ltb_spec (os_open_ptmx o) 0) as [? | Hptm]; [right; left; assumption |].
  destruct (Z.eq_dec (os_grantpt o) 0) as [Hg | Hg]; [| right; right; tauto].
  destruct (Z.eq_dec (os_unlockpt o) 0) as [Hu | Hu]; [| right; right; tauto].
  destruct (os_ptsname_r o) as [devname |] eqn:Hn; [| right; right; tauto].
  left. exists devname. tauto.
Qed.

Lemma jni_state_world_at_fork o rows columns cell_width cell_height w :
  jni_state (world_at_fork o rows columns cell_width cell_height w) = jni_state w.
Proof.
  unfold world_at_fork. cbv zeta.
  rewrite jni_state_emit, jni_state_ioctl_TIOCSWINSZ, jni_state_tcsetattr, jni_state_emit.
  rewrite (proj1 (grant_unlock_ptsname_frame _ _ _)).
  rewrite jni_state_set_ttys. apply jni_state_sys_open.
Qed.

Lemma exception_world_at_fork o rows columns cell_width cell_height w :
  exception (world_at_fork o rows columns cell_width cell_height w) = exception w.
Proof.
  unfold world_at_fork. cbv zeta.
  rewrite exception_emit, exception_ioctl_TIOCSWINSZ, exception_tcsetattr, exception_emit.
  rewrite (proj1 (proj2 (grant_unlock_ptsname_frame _ _ _))).
  rewrite exception_set_ttys. apply exception_sys_open.
Qed.

(** X1: when /dev/ptmx cannot be opened, [create_subprocess] throws
    "Cannot open /dev/ptmx" and returns -1 having made no other call: the
    descriptors, terminals, environment and allocations are as before. *)
Theorem ptmx_open_failure_changes_nothing
    (o : os) (cmd dir : option string) (argv envp : option (list (option string)))
    (rows columns cell_width cell_height : Z) (w : world) :
  os_open_ptmx o < 0 ->
  let r := create_subprocess o cmd dir argv envp rows columns cell_width cell_height w in
  fst r = Returned (-1) None /\
  exception (snd r) = Some "Cannot open /dev/ptmx"%string /\
  trace (snd r) = trace w ++ [EvOpen "/dev/ptmx" true (os_open_ptmx o)] /\
  kernel_state (snd r) = kernel_state w /\
  jni_state (snd r) = jni_state w.
Proof.
  intros H r. subst r. rewrite create_subprocess_open_fails by exact H.
  repeat split.
Qed.

Lemma ptmx_open_failure_changes_nothing_witness :
  let o := Os (-1) 0 (Tty 0 (Winsize 0 0 0 0)) 0 0 None 0 0 0 None 0 true true true in
  trace (snd (create_subprocess o (Some "sh"%string) (Some "/"%string) None None
                                24 80 10 20 sample_world))
  = [EvOpen "/dev/ptmx" true (-1)].
Proof.
  intros o.
  refine (proj1 (proj2 (proj2
    (ptmx_open_failure_changes_nothing o (Some "sh"%string) (Some "/"%string) None None
       24 80 10 20 sample_world _)))).
  cbn. lia.
Defined.

(** X2: when [fork] fails, [create_subprocess] throws "Fork failed" and
    returns -1 after the terminal was opened and configured; it makes no
    [close], so the master stays open in the calling process. *)
Theorem fork_failure_leaves_master_open
    (o : os) (cmd dir : option string) (argv envp : option (list (option string)))
    (rows columns cell_width cell_height : Z) (w : world) (devname : string) :
  device_ready o devname -> os_fork o < 0 ->
  let r := create_subprocess o cmd dir argv envp rows columns cell_width cell_height w in
  fst r = Returned (-1) None /\
  exception (snd r) = Some "Fork failed"%string /\
  fdtab (snd r) = <[os_open_ptmx o := Fdesc (PtyMaster (os_pty_index o)) true]> (fdtab w) /\
  trace (snd r) = trace w ++ setup_events o rows columns cell_width cell_height /\
  (forall fd, EvClose fd ∉ setup_events o rows columns cell_width cell_height).
Proof.
  intros Hready Hfork r. subst r.
  rewrite (create_subprocess_ready _ _ _ _ _ _ _ _ _ _ _ Hready). cbv zeta.
  assert ((os_fork o <? 0) = true) as -> by (apply Z.ltb_lt; lia).
  cbn [fst snd]. rewrite exception_set_exception, fdtab_set_exception, trace_set_exception.
  rewrite (fdtab_world_at_fork _ _ _ _ _ _ _ Hready),
    (trace_world_at_fork _ _ _ _ _ _ _ Hready).
  repeat split. intros fd Hin. unfold setup_events in Hin.
  repeat (apply elem_of_cons in Hin as [Hin | Hin]; [discriminate |]).
  now apply elem_of_nil in Hin.
Qed.

Lemma fork_failure_leaves_master_open_witness :
  fdtab (snd (create_subprocess (sample_os (-1) 0) (Some "sh"%string) (Some "/"%string)
                None None 24 80 10 20 sample_world)) !! 8
  = Some (Fdesc (PtyMaster 2) true).
Proof.
  assert (device_ready (sample_os (-1) 0) "/dev/pts/2") as Hready
    by (repeat split; cbn; lia).
  assert (os_fork (sample_os (-1) 0) < 0) as Hfork by (cbn; lia).
  rewrite (proj1 (proj2 (proj2
    (fork_failure_leaves_master_open (sample_os (-1) 0) (Some "sh"%string)
       (Some "/"%string) None None 24 80 10 20 sample_world "/dev/pts/2" Hready Hfork)))).
  apply lookup_insert_eq.
Defined.

(** ** The terminal the parent gets *)

Lemma flag_bits (i n : Z) :
  0 <= n ->
  Z.testbit (Z.land (Z.lor i IUTF8) (Z.lnot (Z.lor IXON IXOFF))) n =
    if n =? 14 then true
    else if (n =? 10) || (n =? 12) then false
    else Z.testbit i n.
Proof.
  intros Hn. rewrite Z.land_spec, Z.lnot_spec, !Z.lor_spec by lia.
  change IUTF8 with (2 ^ 14). change IXON with (2 ^ 10). change IXOFF with (2 ^ 12).
  rewrite !Z.pow2_bits_eqb by lia.
  rewrite (Z.eqb_sym 14 n), (Z.eqb_sym 10 n), (Z.eqb_sym 12 n).
  destruct (Z.eqb_spec n 14) as [-> | ?]; [now rewrite orb_true_r |].
  destruct (Z.eqb_spec n 10) as [-> | ?]; [now rewrite andb_false_r |].
  destruct (Z.eqb_spec n 12) as [-> | ?]; [now rewrite andb_false_r |].
  cbn. now rewrite orb_false_r, andb_true_r.
Qed.

Lemma initial_iflag_flags o :
  Z.land (initial_iflag o) IUTF8 = IUTF8 /\
  Z.land (initial_iflag o) IXON = 0 /\
  Z.land (initial_iflag o) IXOFF = 0.
Proof.
  unfold initial_iflag. repeat split; apply Z.bits_inj'; intros n Hn;
    rewrite Z.land_spec, flag_bits by lia.
  - change IUTF8 with (2 ^ 14). rewrite Z.pow2_bits_eqb by lia.
    rewrite (Z.eqb_sym 14 n). destruct (n =? 14); [reflexivity | apply andb_false_r].
  - change IXON with (2 ^ 10). rewrite Z.pow2_bits_eqb, Z.bits_0 by lia.
    rewrite (Z.eqb_sym 10 n).
    destruct (Z.eqb_spec n 14) as [-> | ?]; [reflexivity |].
    destruct (n =? 10); [reflexivity | apply andb_false_r].
  - change IXOFF with (2 ^ 12). rewrite Z.pow2_bits_eqb, Z.bits_0 by lia.
    rewrite (Z.eqb_sym 12 n).
    destruct (Z.eqb_spec n 14) as [-> | ?]; [reflexivity |].
    destruct (n =? 12); [now rewrite orb_true_r | apply andb_false_r].
Qed.

(** X3: in the parent, [create_subprocess] returns the master descriptor and
    the child's process id without throwing; the master is open with
    close-on-exec, and the terminal has the UTF-8 input flag set, software
    flow control (IXON, IXOFF) off and every other input flag as the system
    created it. *)
Theorem parent_gets_configured_terminal
    (o : os) (cmd dir : option string) (argv envp : option (list (option string)))
    (rows columns cell_width cell_height : Z) (w : world) (devname : string) :
  device_ready o devname -> 0 < os_fork o ->
  let r := create_subprocess o cmd dir argv envp rows columns cell_width cell_height w in
  fst r = Returned (os_open_ptmx o) (Some (os_fork o)) /\
  exception (snd r) = exception w /\
  fdtab (snd r) = <[os_open_ptmx o := Fdesc (PtyMaster (os_pty_index o)) true]> (fdtab w) /\
  exists t,
    tty_of_fd (os_open_ptmx o) (snd r) = Some t /\
    Z.land (c_iflag t) IUTF8 = IUTF8 /\
    Z.land (c_iflag t) IXON = 0 /\
    Z.land (c_iflag t) IXOFF = 0 /\
    (forall n, 0 <= n -> n <> 10 -> n <> 12 -> n <> 14 ->
       Z.testbit (c_iflag t) n = Z.testbit (c_iflag (os_pty_init o)) n).
Proof.
  intros Hready Hfork r. subst r.
  rewrite (create_subprocess_ready _ _ _ _ _ _ _ _ _ _ _ Hready). cbv zeta.
  assert ((os_fork o <? 0) = false) as -> by (apply Z.ltb_ge; lia).
  assert ((0 <? os_fork o) = true) as -> by (apply Z.ltb_lt; lia).
  cbn [fst snd].
  rewrite exception_world_at_fork, (fdtab_world_at_fork _ _ _ _ _ _ _ Hready),
    (tty_world_at_fork _ _ _ _ _ _ _ Hready).
  split; [reflexivity |]. split; [reflexivity |]. split; [reflexivity |].
  eexists. split; [reflexivity |]. cbn [c_iflag].
  destruct (initial_iflag_flags o) as (H1 & H2 & H3).
  split; [exact H1 |]. split; [exact H2 |]. split; [exact H3 |].
  intros n Hn H10 H12 H14. rewrite flag_bits by exact Hn.
  destruct (Z.eqb_spec n 14); [lia |].
  destruct (Z.eqb_spec n 10); [lia |].
  destruct (Z.eqb_spec n 12); [lia |]. reflexivity.
Qed.

Lemma parent_gets_configured_terminal_witness :
  fst (create_subprocess (sample_os 1234 0) (Some "sh"%string) (Some "/"%string)
         None None 24 80 10 20 sample_world)
  = Returned 8 (Some 1234).
Proof.
  assert (device_ready (sample_os 1234 0) "/dev/pts/2") as Hready
    by (repeat split; cbn; lia).
  assert (0 < os_fork (sample_os 1234 0)) as Hfork by (cbn; lia).
  exact (proj1 (parent_gets_configured_terminal (sample_os 1234 0) (Some "sh"%string)
                  (Some "/"%string) None None 24 80 10 20 sample_world "/dev/pts/2"
                  Hready Hfork)).
Defined.

(** X4: [create_subprocess] returns a negative value exactly when it has
    thrown, and then the value is -1 and no process id is written; a value
    that is not negative is the master descriptor, given together with the
    id of the child.  It fails to return only in the child, that is when the
    device set-up succeeded and [fork] returned 0. *)
Theorem create_subprocess_result
    (o : os) (cmd dir : option string) (argv envp : option (list (option string)))
    (rows columns cell_width cell_height : Z) (w : world) :
  exception w = None ->
  let r := create_subprocess o cmd dir argv envp rows columns cell_width cell_height w in
  match fst r with
  | Returned ret pid =>
      (ret < 0 <-> is_Some (exception (snd r))) /\
      (ret < 0 -> ret = -1 /\ pid = None) /\
      (0 <= ret -> ret = os_open_ptmx o /\ pid = Some (os_fork o) /\ 0 < os_fork o)
  | ChildExit _ | ChildExec _ _ =>
      os_fork o = 0 /\ exists devname, device_ready o devname
  end.
Proof.
  intros Hex r. subst r.
  destruct (device_ready_dec o) as [[devname Hready] | [Hopen | [Hptm Hfail]]].
  - rewrite (create_subprocess_ready _ _ _ _ _ _ _ _ _ _ _ Hready). cbv zeta.
    destruct (Z.ltb_spec (os_fork o) 0) as [Hneg | Hnn].
    + cbn [fst snd]. rewrite exception_set_exception.
      split; [split; [eauto | lia] |]. split; [tauto | lia].
    + destruct (Z.ltb_spec 0 (os_fork o)) as [Hpos | Hzero].
      * cbn [fst snd]. rewrite exception_world_at_fork, Hex.
        pose proof Hready as (Hptm & _).
        split; [split; [lia | intros [? ?]; discriminate] |]. split; [lia | tauto].
      * assert (os_fork o = 0) as Hfork by lia.
        rewrite child_process_outcome.
        destruct (os_open_pts o <? 0); [eauto |].
        unfold exec_outcome. destruct (os_execvp o); eauto.
  - rewrite create_subprocess_open_fails by exact Hopen.
    cbn [fst snd]. rewrite exception_set_exception.
    split; [split; [eauto | lia] |]. split; [tauto | lia].
  - rewrite create_subprocess_unlock_fails by assumption.
    cbn [fst snd]. rewrite exception_set_exception.
    split; [split; [eauto | lia] |]. split; [tauto | lia].
Qed.

Lemma create_subprocess_result_witness :
  match fst (create_subprocess (sample_os 0 0) (Some "sh"%string) (Some "/"%string)
               None None 24 80 10 20 sample_world) with
  | Returned _ _ => False
  | _ => os_fork (sample_os 0 0) = 0
  end.
Proof.
  pose proof (create_subprocess_result (sample_os 0 0) (Some "sh"%string) (Some "/"%string)
                None None 24 80 10 20 sample_world eq_refl) as H.
  cbv zeta in H.
  destruct (fst (create_subprocess (sample_os 0 0) (Some "sh"%string) (Some "/"%string)
                   None None 24 80 10 20 sample_world)) as [ret pid | code | file args] eqn:E.
  - vm_compute in E. discriminate.
  - apply H.
  - apply H.
Defined.

(** ** The descriptors of the child *)

Lemma fdtab_sys_dup2 a b f w :
  fdtab w !! a = Some (Fdesc f false) ->
  fdtab (sys_dup2 a b w) = <[b := Fdesc f false]> (fdtab w).
Proof.
  intros H. unfold sys_dup2. cbv zeta. rewrite fdtab_emit, H.
  destruct (Z.eqb_spec a b) as [-> | Hne]; cbv iota.
  - rewrite fdtab_emit. symmetry. now apply insert_id.
  - rewrite fdtab_set_fdtab. cbn [fd_file]. reflexivity.
Qed.

Lemma fdtab_after_stdio o ptm devname w :
  0 <= os_open_pts o ->
  fdtab (sys_dup2 (os_open_pts o) 2
          (sys_dup2 (os_open_pts o) 1
            (sys_dup2 (os_open_pts o) 0
              (sys_open devname (Node devname) false (os_open_pts o)
                 (emit EvSetsid (sys_close ptm (emit EvUnblockSignals w)))))))
  = stdio_table o ptm devname (fdtab w).
Proof.
  intros Hpts. unfold stdio_table. cbv zeta.
  assert (fdtab (sys_open devname (Node devname) false (os_open_pts o)
                   (emit EvSetsid (sys_close ptm (emit EvUnblockSignals w))))
          = <[os_open_pts o := Fdesc (Node devname) false]> (delete ptm (fdtab w))) as H0.
  { unfold sys_open.
    assert ((os_open_pts o <? 0) = false) as -> by (apply Z.ltb_ge; lia).
    rewrite fdtab_set_fdtab, !fdtab_emit. unfold sys_close.
    now rewrite fdtab_set_fdtab, fdtab_emit. }
  assert (forall k (m : gmap Z fdesc),
            m !! os_open_pts o = Some (Fdesc (Node devname) false) ->
            <[k := Fdesc (Node devname) false]> m !! os_open_pts o
            = Some (Fdesc (Node devname) false)) as Hkeep.
  { intros k m Hm. destruct (decide (k = os_open_pts o)) as [-> | Hne].
    - apply lookup_insert_eq.
    - now rewrite lookup_insert_ne. }
  rewrite (fdtab_sys_dup2 _ _ (Node devname)).
  - rewrite (fdtab_sys_dup2 _ _ (Node devname)).
    + rewrite (fdtab_sys_dup2 _ _ (Node devname)).
      * now rewrite H0.
      * rewrite H0. apply lookup_insert_eq.
    + rewrite (fdtab_sys_dup2 _ _ (Node devname)).
      * apply Hkeep. rewrite H0. apply lookup_insert_eq.
      * rewrite H0. apply lookup_insert_eq.
  - rewrite (fdtab_sys_dup2 _ _ (Node devname)).
    + apply Hkeep. rewrite (fdtab_sys_dup2 _ _ (Node devname)).
      * apply Hkeep. rewrite H0. apply lookup_insert_eq.
      * rewrite H0. apply lookup_insert_eq.
    + rewrite (fdtab_sys_dup2 _ _ (Node devname)).
      * apply Hkeep. rewrite H0. apply lookup_insert_eq.
      * rewrite H0. apply lookup_insert_eq.
Qed.

Lemma fdtab_close_inherited_lookup o w fd :
  fdtab (close_inherited o w) !! fd =
    match os_opendir o with
    | Some (d, names) =>
        if decide (fd = d \/ fd ∈ closed_by_listing d names) then None else fdtab w !! fd
    | None => fdtab w !! fd
    end.
Proof.
  unfold close_inherited. destruct (os_opendir o) as [[d names] |]; [| reflexivity].
  cbv zeta. rewrite fdtab_set_fdtab.
  destruct (decide (fd = d)) as [-> | Hne].
  - rewrite lookup_delete_eq. now rewrite decide_True by now left.
  - rewrite lookup_delete_ne by congruence.
    rewrite fdtab_close_listed, fdtab_set_fdtab, fdtab_emit.
    destruct (decide (fd ∈ closed_by_listing d names)) as [Hin | Hin].
    + now rewrite decide_True by now right.
    + rewrite decide_False by tauto. apply lookup_insert_ne. congruence.
Qed.

Lemma lookup_filter_cloexec (m : gmap Z fdesc) fd :
  filter (fun kv => fd_cloexec (snd kv) = false) m !! fd =
    match m !! fd with
    | Some d => if fd_cloexec d then None else Some d
    | None => None
    end.
Proof.
  destruct (m !! fd) as [d |] eqn:Hm.
  - destruct (fd_cloexec d) eqn:Hc.
    + apply map_lookup_filter_None. right. intros x Hx. rewrite Hm in Hx.
      injection Hx as <-. cbn. congruence.
    + apply map_lookup_filter_Some. split; [exact Hm | exact Hc].
  - apply map_lookup_filter_None. now left.
Qed.

(** The descriptor table the child ends with, entry by entry. *)
Lemma fdtab_child_process o ptm devname cmd dir argv envp w fd :
  0 <= os_open_pts o ->
  fdtab (snd (child_process o ptm devname cmd dir argv envp w)) !! fd =
    let before :=
      match os_opendir o with
      | Some (d, names) =>
          if decide (fd = d \/ fd ∈ closed_by_listing d names) then None
          else stdio_table o ptm devname (fdtab w) !! fd
      | None => stdio_table o ptm devname (fdtab w) !! fd
      end in
    if os_execvp o
    then match before with
         | Some d => if fd_cloexec d then None else Some d
         | None => None
         end
    else before.
Proof.
  intros Hpts. unfold child_process. cbv zeta.
  assert ((os_open_pts o <? 0) = false) as -> by (apply Z.ltb_ge; lia).
  unfold execute. cbv zeta.
  destruct (os_execvp o); cbn [snd].
  - rewrite fdtab_set_fdtab, lookup_filter_cloexec, fdtab_emit,
      fdtab_change_directory, fdtab_setup_environment, fdtab_close_inherited_lookup,
      (fdtab_after_stdio _ _ _ _ Hpts).
    reflexivity.
  - rewrite !fdtab_emit, fdtab_change_directory, fdtab_setup_environment,
      fdtab_close_inherited_lookup, (fdtab_after_stdio _ _ _ _ Hpts).
    reflexivity.
Qed.

Lemma stdio_table_stdio o ptm devname m fd :
  0 <= fd <= 2 -> stdio_table o ptm devname m !! fd = Some (Fdesc (Node devname) false).
Proof.
  intros Hfd. unfold stdio_table. cbv zeta.
  destruct (decide (fd = 2)) as [-> | ?]; [apply lookup_insert_eq |].
  rewrite lookup_insert_ne by congruence.
  destruct (decide (fd = 1)) as [-> | ?]; [apply lookup_insert_eq |].
  rewrite lookup_insert_ne by congruence.
  assert (fd = 0) as -> by lia. apply lookup_insert_eq.
Qed.

Lemma stdio_table_other o ptm devname m fd :
  fd < 0 \/ 2 < fd -> 0 <= os_open_pts o ->
  stdio_table o ptm devname m !! fd =
    if decide (fd = os_open_pts o) then Some (Fdesc (Node devname) false)
    else if decide (fd = ptm) then None else m !! fd.
Proof.
  intros Hfd Hpts. unfold stdio_table. cbv zeta.
  rewrite !lookup_insert_ne by lia.
  destruct (decide (fd = os_open_pts o)) as [-> | Hne].
  - apply lookup_insert_eq.
  - rewrite lookup_insert_ne by congruence.
    destruct (decide (fd = ptm)) as [-> | Hne'].
    + apply lookup_delete_eq.
    + now apply lookup_delete_ne.
Qed.

Lemma elem_before_split {A : Type} (front : list A) (x : A) (back pre : list A)
    (y : A) (post : list A) :
  front ++ x :: back = pre ++ y :: post -> y ∉ front -> y <> x -> x ∈ pre.
Proof.
  revert pre. induction front as [| a front IH]; intros pre Heq Hnot Hne.
  - destruct pre as [| p pre]; cbn in Heq; injection Heq as Hx _.
    + congruence.
    + subst p. apply elem_of_cons. now left.
  - apply not_elem_of_cons in Hnot as [Hya Hnot].
    destruct pre as [| p pre]; cbn in Heq; injection Heq as Ha Heq.
    + congruence.
    + apply elem_of_cons. right. now apply IH.
Qed.

Section ChildDescriptors.

Variables (o : os) (cmd dir : option string) (argv envp : option (list (option string))).
Variables (rows columns cell_width cell_height : Z) (w : world) (devname : string).
Hypothesis Hready : device_ready o devname.
Hypothesis Hfork : os_fork o = 0.
Hypothesis Hpts : 0 <= os_open_pts o.

Local Abbreviation r :=
  (create_subprocess o cmd dir argv envp rows columns cell_width cell_height w).

(** X5: when the slave opens, and the listing of descriptors, if there is
    one, is not itself on descriptor 0, 1 or 2, the child ends (at the
    [execvp], successful or not) with descriptors 0, 1 and 2 all open on the
    slave, not close-on-exec. *)
Theorem child_stdio_is_the_slave :
  (forall d names, os_opendir o = Some (d, names) -> 2 < d) ->
  forall fd, 0 <= fd <= 2 ->
    fdtab (snd (create_subprocess o cmd dir argv envp rows columns cell_width cell_height w)) !! fd
    = Some (Fdesc (Node devname) false).
Proof.
  intros Hdir fd Hfd. enter_child Hready Hfork.
  rewrite fdtab_child_process by exact Hpts. cbv zeta.
  assert (match os_opendir o with
          | Some (d, names) =>
              if decide (fd = d \/ fd ∈ closed_by_listing d names) then None
              else stdio_table o (os_open_ptmx o) devname
                     (fdtab (world_at_fork o rows columns cell_width cell_height w)) !! fd
          | None => stdio_table o (os_open_ptmx o) devname
                      (fdtab (world_at_fork o rows columns cell_width cell_height w)) !! fd
          end = Some (Fdesc (Node devname) false)) as ->.
  { destruct (os_opendir o) as [[d names] |] eqn:Hd.
    - specialize (Hdir d names eq_refl).
      rewrite decide_False; [now apply stdio_table_stdio |].
      intros [-> | Hin]; [lia |]. apply closed_by_listing_spec in Hin. lia.
    - now apply stdio_table_stdio. }
  now destruct (os_execvp o).
Qed.

(** X6: every descriptor the child ends with is the slave or one that was
    open, under another number than the master's, before the call: the
    master that the call opened is not passed on to the command. *)
Theorem child_drops_the_master :
  forall fd d,
    fdtab (snd (create_subprocess o cmd dir argv envp rows columns cell_width cell_height w)) !! fd
    = Some d ->
    d = Fdesc (Node devname) false \/ (fd <> os_open_ptmx o /\ fdtab w !! fd = Some d).
Proof.
  intros fd d. enter_child Hready Hfork.
  rewrite fdtab_child_process by exact Hpts. cbv zeta.
  assert (forall x,
            stdio_table o (os_open_ptmx o) devname
              (fdtab (world_at_fork o rows columns cell_width cell_height w)) !! fd = Some x ->
            x = Fdesc (Node devname) false \/
            (fd <> os_open_ptmx o /\ fdtab w !! fd = Some x)) as Htable.
  { intros x. destruct (decide (0 <= fd <= 2)) as [Hs | Hs].
    - rewrite stdio_table_stdio by exact Hs. intros [= <-]. now left.
    - rewrite stdio_table_other by lia.
      destruct (decide (fd = os_open_pts o)); [intros [= <-]; now left |].
      destruct (decide (fd = os_open_ptmx o)); [discriminate |].
      rewrite (fdtab_world_at_fork _ _ _ _ _ _ _ Hready), lookup_insert_ne by congruence.
      intros H. right. split; assumption. }
  assert (forall x,
            match os_opendir o with
            | Some (dd, names) =>
                if decide (fd = dd \/ fd ∈ closed_by_listing dd names) then None
                else stdio_table o (os_open_ptmx o) devname
                       (fdtab (world_at_fork o rows columns cell_width cell_height w)) !! fd
            | None => stdio_table o (os_open_ptmx o) devname
                        (fdtab (world_at_fork o rows columns cell_width cell_height w)) !! fd
            end = Some x ->
            x = Fdesc (Node devname) false \/
            (fd <> os_open_ptmx o /\ fdtab w !! fd = Some x)) as Hbefore.
  { intros x. destruct (os_opendir o) as [[dd names] |]; [| apply Htable].
    destruct (decide (fd = dd \/ fd ∈ closed_by_listing dd names)); [discriminate |].
    apply Htable. }
  destruct (os_execvp o); [| apply Hbefore].
  match goal with
  | |- match ?b with _ => _ end = _ -> _ => destruct b as [x |] eqn:Hb; [| discriminate]
  end.
  destruct (fd_cloexec x); [discriminate |]. intros [= <-]. now apply Hbefore.
Qed.

(** X7: when the listing names every descriptor that is open, no descriptor
    above 2 is left at the end of the child: the command starts with
    standard input, output and error only. *)
Theorem child_keeps_only_stdio (self_dir_fd : Z) (names : list string) :
  os_opendir o = Some (self_dir_fd, names) -> 2 < self_dir_fd ->
  (forall fd, 2 < fd -> is_Some (fdtab w !! fd) -> fd ∈ map atoi names) ->
  (2 < os_open_pts o -> os_open_pts o ∈ map atoi names) ->
  forall fd, 2 < fd ->
    fdtab (snd (create_subprocess o cmd dir argv envp rows columns cell_width cell_height w)) !! fd
    = None.
Proof.
  intros Hdir Hd Hlisted Hslave fd Hfd. enter_child Hready Hfork.
  rewrite fdtab_child_process by exact Hpts. cbv zeta. rewrite Hdir.
  assert ((if decide (fd = self_dir_fd \/ fd ∈ closed_by_listing self_dir_fd names)
           then None
           else stdio_table o (os_open_ptmx o) devname
                  (fdtab (world_at_fork o rows columns cell_width cell_height w)) !! fd)
          = None) as ->.
  { destruct (decide (fd = self_dir_fd \/ fd ∈ closed_by_listing self_dir_fd names))
      as [? | Hnot]; [reflexivity |].
    assert (fd <> self_dir_fd) as Hne by tauto.
    assert (fd ∉ map atoi names) as Hnl.
    { intros Hin. apply Hnot. right. apply closed_by_listing_spec. tauto. }
    rewrite stdio_table_other by lia.
    destruct (decide (fd = os_open_pts o)) as [-> | ?]; [exfalso; auto |].
    destruct (decide (fd = os_open_ptmx o)); [reflexivity |].
    rewrite (fdtab_world_at_fork _ _ _ _ _ _ _ Hready), lookup_insert_ne by congruence.
    destruct (fdtab w !! fd) as [x |] eqn:Hx; [| reflexivity].
    exfalso. apply Hnl, Hlisted; [exact Hfd | rewrite Hx; eauto]. }
  now destruct (os_execvp o).
Qed.

End ChildDescriptors.

Lemma child_stdio_is_the_slave_witness :
  fdtab (snd (create_subprocess (sample_os 0 0) (Some "sh"%string) (Some "/"%string)
                None None 24 80 10 20 sample_world)) !! 2
  = Some (Fdesc (Node "/dev/pts/2") false).
Proof.
  assert (device_ready (sample_os 0 0) "/dev/pts/2") as Hready
    by (repeat split; cbn; lia).
  assert (0 <= os_open_pts (sample_os 0 0)) as Hpts by (cbn; lia).
  apply (child_stdio_is_the_slave (sample_os 0 0) (Some "sh"%string) (Some "/"%string)
           None None 24 80 10 20 sample_world "/dev/pts/2" Hready eq_refl Hpts).
  - intros d names [= <- _]. lia.
  - lia.
Defined.

Lemma child_drops_the_master_witness :
  fdtab (snd (create_subprocess (sample_os 0 0) (Some "sh"%string) (Some "/"%string)
                None None 24 80 10 20 sample_world)) !! 0
    = Some (Fdesc (Node "/dev/pts/2") false) /\
  (Fdesc (Node "/dev/pts/2") false = Fdesc (Node "/dev/pts/2") false \/
   (0 <> os_open_ptmx (sample_os 0 0) /\
    fdtab sample_world !! 0 = Some (Fdesc (Node "/dev/pts/2") false))).
Proof.
  assert (device_ready (sample_os 0 0) "/dev/pts/2") as Hready
    by (repeat split; cbn; lia).
  assert (0 <= os_open_pts (sample_os 0 0)) as Hpts by (cbn; lia).
  assert (fdtab (snd (create_subprocess (sample_os 0 0) (Some "sh"%string)
                        (Some "/"%string) None None 24 80 10 20 sample_world)) !! 0
          = Some (Fdesc (Node "/dev/pts/2") false)) as H by (vm_compute; reflexivity).
  split; [exact H |].
  exact (child_drops_the_master (sample_os 0 0) (Some "sh"%string) (Some "/"%string)
           None None 24 80 10 20 sample_world "/dev/pts/2" Hready eq_refl Hpts 0 _ H).
Defined.

Lemma child_keeps_only_stdio_witness :
  fdtab (snd (create_subprocess (sample_os 0 0) (Some "sh"%string) (Some "/"%string)
                None None 24 80 10 20 sample_world)) !! 5 = None.
Proof.
  assert (device_ready (sample_os 0 0) "/dev/pts/2") as Hready
    by (repeat split; cbn; lia).
  assert (0 <= os_open_pts (sample_os 0 0)) as Hpts by (cbn; lia).
  apply (child_keeps_only_stdio (sample_os 0 0) (Some "sh"%string) (Some "/"%string)
           None None 24 80 10 20 sample_world "/dev/pts/2" Hready eq_refl Hpts
           10 ["."; ".."; "0"; "1"; "2"; "5"; "7"; "9"; "10"]%string eq_refl).
  - lia.
  - intros fd Hfd [x Hx].
    destruct (decide (fd = 5)) as [-> | ?]; [vm_compute; set_solver |].
    destruct (decide (fd = 7)) as [-> | ?]; [vm_compute; set_solver |].
    exfalso. unfold sample_world in Hx. cbn [fdtab] in Hx.
    rewrite !lookup_insert_ne in Hx by lia. rewrite lookup_singleton_ne in Hx by lia.
    discriminate.
  - intros _. vm_compute. set_solver.
  - lia.
Defined.

(** X8: whatever the child reports with [perror] it reports after standard
    error has been redirected: a [perror] in the child comes after the
    [dup2] of the slave onto descriptor 2, and there is none when the slave
    could not be opened. *)
Theorem child_diagnostics_follow_redirection
    (o : os) (cmd dir : option string) (argv envp : option (list (option string)))
    (rows columns cell_width cell_height : Z) (w : world) (devname : string)
    (pre : list event) (msg : string) (post : list event) :
  device_ready o devname -> os_fork o = 0 ->
  trace (snd (create_subprocess o cmd dir argv envp rows columns cell_width cell_height w))
    = trace w ++ pre ++ EvPerror msg :: post ->
  0 <= os_open_pts o /\ EvDup2 (os_open_pts o) 2 ∈ pre.
Proof.
  intros Hready Hfork. enter_child Hready Hfork.
  rewrite trace_child_process, (trace_world_at_fork _ _ _ _ _ _ _ Hready), <- app_assoc.
  intros Heq. apply app_inv_head in Heq. unfold child_events in Heq.
  assert (forall l : list event,
            EvPerror msg ∉ l ->
            EvPerror msg ∉ setup_events o rows columns cell_width cell_height ++
                           session_events o (os_open_ptmx o) devname ++ l) as Hfront.
  { intros l Hl Hin. unfold setup_events, session_events in Hin. cbn [app] in Hin.
    repeat (apply elem_of_cons in Hin as [Hin | Hin]; [discriminate |]).
    contradiction. }
  destruct (Z.ltb_spec (os_open_pts o) 0) as [Hneg | Hnn].
  - exfalso. apply (Hfront [EvExit (-1)]).
    + intros Hin. apply elem_of_cons in Hin as [Hin | Hin]; [discriminate |].
      now apply elem_of_nil in Hin.
    + rewrite Heq. apply elem_of_app. right. apply elem_of_cons. now left.
  - split; [exact Hnn |].
    apply (elem_before_split
             (setup_events o rows columns cell_width cell_height ++
              session_events o (os_open_ptmx o) devname ++
              [EvDup2 (os_open_pts o) 0; EvDup2 (os_open_pts o) 1])
             (EvDup2 (os_open_pts o) 2)
             (inherited_events o ++ environment_events envp ++
              chdir_events o dir ++ exec_events o cmd argv)
             pre (EvPerror msg) post).
    + rewrite <- Heq. unfold stdio_events. rewrite <- !app_assoc. reflexivity.
    + apply Hfront. intros Hin.
      repeat (apply elem_of_cons in Hin as [Hin | Hin]; [discriminate |]).
      now apply elem_of_nil in Hin.
    + discriminate.
Qed.

Lemma child_diagnostics_follow_redirection_witness :
  let o := Os 8 2 (Tty 1024 (Winsize 0 0 0 0)) 0 0 (Some "/dev/pts/2"%string) 0 0 9
              None 0 true false true in
  EvDup2 9 2 ∈
    [EvOpen "/dev/ptmx" true 8; EvGrantpt 8 0; EvUnlockpt 8 0;
     EvPtsname 8 (Some "/dev/pts/2"%string); EvTcgetattr 8; EvTcsetattr 8 16384;
     EvSetWinsize 8 (Winsize 24 80 800 480); EvFork 0;
     EvUnblockSignals; EvClose 8; EvSetsid; EvOpen "/dev/pts/2" false 9;
     EvDup2 9 0; EvDup2 9 1; EvDup2 9 2;
     EvOpendir "/proc/self/fd" None; EvClearenv; EvChdir (Some "/"%string) 0;
     EvExecvp (Some "nosuchcmd"%string) None].
Proof.
  intros o.
  refine (proj2 (child_diagnostics_follow_redirection o (Some "nosuchcmd"%string)
                   (Some "/"%string) None None 24 80 10 20 sample_world "/dev/pts/2"
                   _ (exec_message o (Some "nosuchcmd"%string)) [Ev_exit 1] _ _ _)).
  - repeat split; cbn; lia.
  - reflexivity.
  - vm_compute. reflexivity.
Defined.

(** ** What [waitFor] makes of the kernel's statuses *)

Lemma WIFSIGNALED_encode ev :
  wait_event_ok ev ->
  WIFSIGNALED (encode_status ev) = match ev with WKilled _ _ => true | _ => false end.
Proof.
  intros Hok. pose proof (WTERMSIG_encode ev Hok) as Hsig.
  pose proof (WIFSIGNALED_spec (encode_status ev)) as Hs. rewrite Hsig in Hs.
  destruct (WIFSIGNALED (encode_status ev)); destruct ev; cbn [wait_event_ok] in *;
    try reflexivity.
  - assert (1 <= 0 <= 126) by now apply Hs. lia.
  - assert (1 <= 127 <= 126) by now apply Hs. lia.
  - assert (1 <= 127 <= 126) by now apply Hs. lia.
  - apply Hs in Hok. discriminate.
Qed.

(** A child that called [exit(code)]: [waitFor] returns the low eight bits. *)
Lemma waitFor_exited (waitpid : Z -> option Z) (uninit pid code : Z) :
  waitpid pid = Some (encode_status (WExited code)) ->
  JNI.waitFor waitpid uninit pid = Z.land code 255.
Proof.
  intros Hw. unfold JNI.waitFor, status_after_waitpid. rewrite Hw.
  unfold WIFEXITED. rewrite (WTERMSIG_encode (WExited code) I).
  change (0 =? 0) with true. cbv iota. apply WEXITSTATUS_encode_exit.
Qed.

(** X9: [waitFor] reads the kernel's status back.  For a child that called
    [exit(code)] it returns the low eight bits of [code]; for a child killed
    by signal [sig] it returns [-sig], with or without a core dump; for a
    stopped or continued child it returns 0. *)
Theorem waitFor_reads_kernel_status
    (waitpid : Z -> option Z) (uninit pid : Z) (ev : wait_event) :
  wait_event_ok ev ->
  waitpid pid = Some (encode_status ev) ->
  JNI.waitFor waitpid uninit pid =
    match ev with
    | WExited code => Z.land code 255
    | WKilled sig _ => - sig
    | WStopped _ | WContinued => 0
    end.
Proof.
  intros Hok Hw. unfold JNI.waitFor, status_after_waitpid. rewrite Hw.
  rewrite (WIFSIGNALED_encode _ Hok).
  unfold WIFEXITED. rewrite (WTERMSIG_encode _ Hok).
  destruct ev as [code | sig core | sig |]; cbn [wait_event_ok] in *.
  - change (0 =? 0) with true. cbv iota. apply WEXITSTATUS_encode_exit.
  - destruct (Z.eqb_spec sig 0); [lia | reflexivity].
  - reflexivity.
  - reflexivity.
Qed.

Lemma waitFor_reads_kernel_status_witness :
  JNI.waitFor (fun _ => Some (encode_status (WKilled 11 true))) 0 42 = -11 /\
  JNI.waitFor (fun _ => Some (encode_status (WExited 300))) 0 42 = 44.
Proof.
  split.
  - refine (waitFor_reads_kernel_status _ 0 42 (WKilled 11 true) _ eq_refl). cbn. lia.
  - exact (waitFor_reads_kernel_status _ 0 42 (WExited 300) I eq_refl).
Defined.

(** X10: a parent that waits for a child which failed before running the
    command gets a positive exit code, never a signal: 255 when the slave
    could not be opened, 1 when the command could not be run. *)
Theorem child_failure_seen_by_waitFor
    (o : os) (cmd dir : option string) (argv envp : option (list (option string)))
    (rows columns cell_width cell_height : Z) (w : world) (devname : string)
    (code : Z) (waitpid : Z -> option Z) (uninit pid : Z) :
  device_ready o devname -> os_fork o = 0 ->
  fst (create_subprocess o cmd dir argv envp rows columns cell_width cell_height w)
    = ChildExit code ->
  waitpid pid = Some (encode_status (WExited code)) ->
  (os_open_pts o < 0 /\ JNI.waitFor waitpid uninit pid = 255) \/
  (0 <= os_open_pts o /\ os_execvp o = false /\ JNI.waitFor waitpid uninit pid = 1).
Proof.
  intros Hready Hfork. enter_child Hready Hfork.
  rewrite child_process_outcome. intros Hout Hw.
  rewrite (waitFor_exited waitpid uninit pid code Hw).
  destruct (Z.ltb_spec (os_open_pts o) 0) as [Hneg | Hnn].
  - injection Hout as <-. left. split; [exact Hneg | reflexivity].
  - unfold exec_outcome in Hout. destruct (os_execvp o); [discriminate |].
    injection Hout as <-. right. repeat split. exact Hnn.
Qed.

Lemma child_failure_seen_by_waitFor_witness :
  let o := Os 8 2 (Tty 1024 (Winsize 0 0 0 0)) 0 0 (Some "/dev/pts/2"%string) 0 0 (-1)
              None 0 true true true in
  (os_open_pts o < 0 /\
   JNI.waitFor (fun _ => Some (encode_status (WExited (-1)))) 0 42 = 255) \/
  (0 <= os_open_pts o /\ os_execvp o = false /\
   JNI.waitFor (fun _ => Some (encode_status (WExited (-1)))) 0 42 = 1).
Proof.
  intros o.
  refine (child_failure_seen_by_waitFor o (Some "sh"%string) (Some "/"%string) None None
            24 80 10 20 sample_world "/dev/pts/2" (-1) _ 0 42 _ _ _ eq_refl).
  - repeat split; cbn; lia.
  - reflexivity.
  - vm_compute. reflexivity.
Defined.

(** ** Resizing and UTF-8 mode on any descriptor *)

Lemma ttys_ioctl_TIOCSWINSZ fd sz w n t :
  pty_of_fd fd w = Some n -> ttys w !! n = Some t ->
  ttys (ioctl_TIOCSWINSZ fd sz w) = <[n := Tty (c_iflag t) sz]> (ttys w).
Proof.
  intros Hn Ht. unfold ioctl_TIOCSWINSZ. cbv zeta.
  change (pty_of_fd fd (emit (EvSetWinsize fd sz) w)) with (pty_of_fd fd w).
  rewrite Hn, ttys_emit, Ht. apply ttys_set_ttys.
Qed.

Lemma ttys_tcsetattr fd iflag w n t :
  pty_of_fd fd w = Some n -> ttys w !! n = Some t ->
  ttys (tcsetattr fd iflag w) = <[n := Tty iflag (tty_winsize t)]> (ttys w).
Proof.
  intros Hn Ht. unfold tcsetattr. cbv zeta.
  change (pty_of_fd fd (emit (EvTcsetattr fd iflag) w)) with (pty_of_fd fd w).
  rewrite Hn, ttys_emit, Ht. apply ttys_set_ttys.
Qed.

Lemma tty_of_fd_None fd w :
  tty_of_fd fd w = None ->
  pty_of_fd fd w = None \/ exists n, pty_of_fd fd w = Some n /\ ttys w !! n = None.
Proof.
  unfold tty_of_fd. destruct (pty_of_fd fd w) as [n |]; cbn; [| now left].
  intros H. right. eauto.
Qed.

Lemma kernel_state_ioctl_not_tty fd sz w :
  tty_of_fd fd w = None -> kernel_state (ioctl_TIOCSWINSZ fd sz w) = kernel_state w.
Proof.
  intros H. unfold ioctl_TIOCSWINSZ. cbv zeta.
  change (pty_of_fd fd (emit (EvSetWinsize fd sz) w)) with (pty_of_fd fd w).
  destruct (tty_of_fd_None _ _ H) as [-> | (n & -> & Hn)]; [reflexivity |].
  rewrite ttys_emit, Hn. reflexivity.
Qed.

Lemma kernel_state_tcsetattr_not_tty fd iflag w :
  tty_of_fd fd w = None -> kernel_state (tcsetattr fd iflag w) = kernel_state w.
Proof.
  intros H. unfold tcsetattr. cbv zeta.
  change (pty_of_fd fd (emit (EvTcsetattr fd iflag) w)) with (pty_of_fd fd w).
  destruct (tty_of_fd_None _ _ H) as [-> | (n & -> & Hn)]; [reflexivity |].
  rewrite ttys_emit, Hn. reflexivity.
Qed.

Lemma environ_cwd_ioctl_TIOCSWINSZ fd sz w :
  environ (ioctl_TIOCSWINSZ fd sz w) = environ w /\ cwd (ioctl_TIOCSWINSZ fd sz w) = cwd w.
Proof.
  unfold ioctl_TIOCSWINSZ.
  destruct (pty_of_fd fd (emit (EvSetWinsize fd sz) w)) as [n |]; [| split; reflexivity].
  destruct (ttys (emit (EvSetWinsize fd sz) w) !! n); split; reflexivity.
Qed.

Lemma environ_cwd_tcsetattr fd iflag w :
  environ (tcsetattr fd iflag w) = environ w /\ cwd (tcsetattr fd iflag w) = cwd w.
Proof.
  unfold tcsetattr.
  destruct (pty_of_fd fd (emit (EvTcsetattr fd iflag) w)) as [n |]; [| split; reflexivity].
  destruct (ttys (emit (EvTcsetattr fd iflag) w) !! n); split; reflexivity.
Qed.

Lemma environ_cwd_setPtyUTF8Mode uninit fd w :
  environ (JNI.setPtyUTF8Mode uninit fd w) = environ w /\
  cwd (JNI.setPtyUTF8Mode uninit fd w) = cwd w.
Proof.
  unfold JNI.setPtyUTF8Mode, tcgetattr.
  match goal with |- context [if ?c then _ else _] => destruct c end.
  - destruct (environ_cwd_tcsetattr fd
                (Z.lor (match tty_of_fd fd w with Some t => c_iflag t | None => uninit end)
                       IUTF8) (emit (EvTcgetattr fd) w)) as [-> ->].
    split; reflexivity.
  - split; reflexivity.
Qed.

(** X11: whatever integers it is given (zero, negative, larger than 16
    bits), [setPtyWindowSize] hands the terminal a record whose four fields
    are the values reduced modulo 2^16, each between 0 and 65535; it
    changes no descriptor and nothing on the JNI side. *)
Theorem setPtyWindowSize_truncates (fd rows cols cell_width cell_height : Z) (w : world) :
  let sz := Winsize (rows mod 2 ^ 16) (cols mod 2 ^ 16)
                    ((cols * cell_width) mod 2 ^ 16) ((rows * cell_height) mod 2 ^ 16) in
  let w' := JNI.setPtyWindowSize fd rows cols cell_width cell_height w in
  trace w' = trace w ++ [EvSetWinsize fd sz] /\
  (0 <= ws_row sz <= 65535 /\ 0 <= ws_col sz <= 65535 /\
   0 <= ws_xpixel sz <= 65535 /\ 0 <= ws_ypixel sz <= 65535) /\
  fdtab w' = fdtab w /\ jni_state w' = jni_state w /\ exception w' = exception w.
Proof.
  intros sz w'. subst sz w'. unfold JNI.setPtyWindowSize. cbv zeta.
  rewrite !to_ushort_int_mul. unfold to_ushort.
  rewrite trace_ioctl_TIOCSWINSZ, fdtab_ioctl_TIOCSWINSZ, jni_state_ioctl_TIOCSWINSZ,
    exception_ioctl_TIOCSWINSZ.
  cbn [ws_row ws_col ws_xpixel ws_ypixel].
  pose proof (Z.mod_pos_bound rows (2 ^ 16)).
  pose proof (Z.mod_pos_bound cols (2 ^ 16)).
  pose proof (Z.mod_pos_bound (cols * cell_width) (2 ^ 16)).
  pose proof (Z.mod_pos_bound (rows * cell_height) (2 ^ 16)).
  repeat split; lia.
Qed.

(** X12: on a descriptor that is not a terminal neither [setPtyWindowSize]
    nor [setPtyUTF8Mode] has any effect on the process: descriptors,
    terminals, environment and working directory are as before, whatever
    the uninitialised [termios] holds. *)
Theorem not_a_terminal_no_effect
    (fd rows cols cell_width cell_height uninit : Z) (w : world) :
  tty_of_fd fd w = None ->
  kernel_state (JNI.setPtyWindowSize fd rows cols cell_width cell_height w) = kernel_state w /\
  kernel_state (JNI.setPtyUTF8Mode uninit fd w) = kernel_state w.
Proof.
  intros H. split.
  - unfold JNI.setPtyWindowSize. now apply kernel_state_ioctl_not_tty.
  - unfold JNI.setPtyUTF8Mode, tcgetattr. rewrite H.
    destruct (Z.land uninit IUTF8 =? 0); [| reflexivity].
    rewrite kernel_state_tcsetattr_not_tty by exact H. reflexivity.
Qed.

Lemma not_a_terminal_no_effect_witness :
  kernel_state (JNI.setPtyWindowSize 5 24 80 10 20 sample_world) = kernel_state sample_world /\
  kernel_state (JNI.setPtyUTF8Mode 0 5 sample_world) = kernel_state sample_world.
Proof.
  refine (not_a_terminal_no_effect 5 24 80 10 20 0 sample_world _).
  vm_compute. reflexivity.
Defined.

Lemma lor_IUTF8_set x : (Z.land x IUTF8 =? 0) = false -> Z.lor x IUTF8 = x.
Proof.
  intros H. apply Z.eqb_neq in H.
  assert (Z.testbit x 14 = true) as Hbit.
  { destruct (Z.testbit x 14) eqn:Hb; [reflexivity |]. exfalso. apply H.
    apply Z.bits_inj'. intros n Hn. rewrite Z.land_spec, Z.bits_0.
    change IUTF8 with (2 ^ 14). rewrite Z.pow2_bits_eqb by lia.
    destruct (Z.eqb_spec 14 n) as [<- | ?]; [now rewrite Hb | apply andb_false_r]. }
  apply Z.bits_inj'. intros n Hn. rewrite Z.lor_spec.
  change IUTF8 with (2 ^ 14). rewrite Z.pow2_bits_eqb by lia.
  destruct (Z.eqb_spec 14 n) as [<- | ?]; [now rewrite Hbit | apply orb_false_r].
Qed.

(** On a terminal, [setPtyUTF8Mode] rewrites the entry of that terminal
    only, and no descriptor. *)
Lemma setPtyUTF8Mode_on_terminal (uninit fd : Z) (w : world) (n : nat) (t : tty) :
  pty_of_fd fd w = Some n -> ttys w !! n = Some t ->
  ttys (JNI.setPtyUTF8Mode uninit fd w)
    = <[n := Tty (Z.lor (c_iflag t) IUTF8) (tty_winsize t)]> (ttys w) /\
  fdtab (JNI.setPtyUTF8Mode uninit fd w) = fdtab w.
Proof.
  intros Hn Ht.
  assert (tty_of_fd fd w = Some t) as Htty by (unfold tty_of_fd; now rewrite Hn).
  split.
  - unfold JNI.setPtyUTF8Mode, tcgetattr. rewrite Htty.
    destruct (Z.land (c_iflag t) IUTF8 =? 0) eqn:Hflag.
    + rewrite (ttys_tcsetattr fd _ (emit (EvTcgetattr fd) w) n t Hn Ht).
      now rewrite ttys_emit.
    + rewrite ttys_emit, (lor_IUTF8_set _ Hflag). symmetry. apply insert_id.
      rewrite Ht. now destruct t.
  - unfold JNI.setPtyUTF8Mode, tcgetattr. rewrite Htty.
    destruct (Z.land (c_iflag t) IUTF8 =? 0); [| reflexivity].
    rewrite fdtab_tcsetattr. reflexivity.
Qed.

(** X13: on a terminal, [setPtyUTF8Mode] leaves it with its old input flags
    plus the UTF-8 flag: no other flag bit changes, the window size stays,
    and no other terminal is touched. *)
Theorem setPtyUTF8Mode_sets_only_the_flag (uninit fd : Z) (w : world) (n : nat) (t : tty) :
  pty_of_fd fd w = Some n -> ttys w !! n = Some t ->
  let w' := JNI.setPtyUTF8Mode uninit fd w in
  ttys w' = <[n := Tty (Z.lor (c_iflag t) IUTF8) (tty_winsize t)]> (ttys w) /\
  fdtab w' = fdtab w /\
  (forall k, 0 <= k -> k <> 14 ->
     Z.testbit (Z.lor (c_iflag t) IUTF8) k = Z.testbit (c_iflag t) k).
Proof.
  intros Hn Ht w'. subst w'.
  destruct (setPtyUTF8Mode_on_terminal uninit fd w n t Hn Ht) as (Ht' & Hf').
  split; [exact Ht' |]. split; [exact Hf' |].
  intros k Hk Hne. rewrite Z.lor_spec. change IUTF8 with (2 ^ 14).
    rewrite Z.pow2_bits_eqb by lia.
    destruct (Z.eqb_spec 14 k); [lia | apply orb_false_r].
Qed.

Lemma setPtyUTF8Mode_sets_only_the_flag_witness :
  ttys (JNI.setPtyUTF8Mode 0 7 sample_world)
  = <[1%nat := Tty (Z.lor 1024 IUTF8) (Winsize 24 80 800 480)]> (ttys sample_world).
Proof.
  refine (proj1 (setPtyUTF8Mode_sets_only_the_flag 0 7 sample_world 1
                   (Tty 1024 (Winsize 24 80 800 480)) _ _)).
  - vm_compute. reflexivity.
  - vm_compute. reflexivity.
Defined.

(** X14: resizing and switching on UTF-8 mode do not interfere: in either
    order they leave the same descriptors and the same terminals, the
    terminal of [fd] with the new window size and the UTF-8 flag. *)
Theorem resize_and_utf8_commute
    (uninit uninit' fd rows cols cell_width cell_height : Z) (w : world) (n : nat) (t : tty) :
  pty_of_fd fd w = Some n -> ttys w !! n = Some t ->
  let a := JNI.setPtyUTF8Mode uninit fd
             (JNI.setPtyWindowSize fd rows cols cell_width cell_height w) in
  let b := JNI.setPtyWindowSize fd rows cols cell_width cell_height
             (JNI.setPtyUTF8Mode uninit' fd w) in
  kernel_state a = kernel_state b /\
  ttys a !! n = Some (Tty (Z.lor (c_iflag t) IUTF8)
                          (Winsize (to_ushort rows) (to_ushort cols)
                                   (to_ushort (int_mul cols cell_width))
                                   (to_ushort (int_mul rows cell_height)))).
Proof.
  intros Hn Ht a b. subst a b.
  set (sz := Winsize (to_ushort rows) (to_ushort cols)
                     (to_ushort (int_mul cols cell_width))
                     (to_ushort (int_mul rows cell_height))).
  set (w1 := JNI.setPtyWindowSize fd rows cols cell_width cell_height w).
  set (w2 := JNI.setPtyUTF8Mode uninit' fd w).
  assert (fdtab w1 = fdtab w) as Hf1 by apply fdtab_ioctl_TIOCSWINSZ.
  assert (ttys w1 = <[n := Tty (c_iflag t) sz]> (ttys w)) as Ht1
    by now apply ttys_ioctl_TIOCSWINSZ.
  destruct (setPtyUTF8Mode_on_terminal uninit' fd w n t Hn Ht) as (Ht2 & Hf2).
  fold w2 in Ht2, Hf2.
  assert (pty_of_fd fd w1 = Some n) as Hn1 by (unfold pty_of_fd; now rewrite Hf1).
  assert (pty_of_fd fd w2 = Some n) as Hn2 by (unfold pty_of_fd; now rewrite Hf2).
  assert (ttys w1 !! n = Some (Tty (c_iflag t) sz)) as Hl1
    by (rewrite Ht1; apply lookup_insert_eq).
  assert (ttys w2 !! n = Some (Tty (Z.lor (c_iflag t) IUTF8) (tty_winsize t))) as Hl2
    by (rewrite Ht2; apply lookup_insert_eq).
  destruct (setPtyUTF8Mode_on_terminal uninit fd w1 n _ Hn1 Hl1) as (Hta & Hfa).
  assert (ttys (JNI.setPtyWindowSize fd rows cols cell_width cell_height w2)
          = <[n := Tty (Z.lor (c_iflag t) IUTF8) sz]> (ttys w2)) as Htb
    by (unfold JNI.setPtyWindowSize; now apply (ttys_ioctl_TIOCSWINSZ _ _ _ _ _ Hn2 Hl2)).
  assert (fdtab (JNI.setPtyWindowSize fd rows cols cell_width cell_height w2) = fdtab w2)
    as Hfb by apply fdtab_ioctl_TIOCSWINSZ.
  cbn [c_iflag tty_winsize] in Hta.
  assert (forall v v' : world, fdtab v = fdtab v' -> ttys v = ttys v' ->
            environ v = environ v' -> cwd v = cwd v' -> kernel_state v = kernel_state v')
    as Hks by (intros v v' E1 E2 E3 E4; unfold kernel_state; congruence).
  split.
  - apply Hks.
    + rewrite Hfa, Hfb, Hf1, Hf2. reflexivity.
    + rewrite Hta, Htb, Ht1, Ht2, !insert_insert_eq. reflexivity.
    + subst w1 w2. unfold JNI.setPtyWindowSize.
      rewrite (proj1 (environ_cwd_setPtyUTF8Mode _ _ _)),
        !(proj1 (environ_cwd_ioctl_TIOCSWINSZ _ _ _)),
        (proj1 (environ_cwd_setPtyUTF8Mode _ _ _)).
      reflexivity.
    + subst w1 w2. unfold JNI.setPtyWindowSize.
      rewrite (proj2 (environ_cwd_setPtyUTF8Mode _ _ _)),
        !(proj2 (environ_cwd_ioctl_TIOCSWINSZ _ _ _)),
        (proj2 (environ_cwd_setPtyUTF8Mode _ _ _)).
      reflexivity.
  - rewrite Hta. apply lookup_insert_eq.
Qed.

Lemma resize_and_utf8_commute_witness :
  kernel_state (JNI.setPtyUTF8Mode 0 7 (JNI.setPtyWindowSize 7 30 100 8 16 sample_world))
  = kernel_state (JNI.setPtyWindowSize 7 30 100 8 16 (JNI.setPtyUTF8Mode 0 7 sample_world)).
Proof.
  refine (proj1 (resize_and_utf8_commute 0 0 7 30 100 8 16 sample_world 1
                   (Tty 1024 (Winsize 24 80 800 480)) _ _)).
  - vm_compute. reflexivity.
  - vm_compute. reflexivity.
Defined.

(** ** What the marshalling leaves alone *)

Lemma kernel_state_set_exception x w : kernel_state (set_exception x w) = kernel_state w.
Proof. reflexivity. Qed.

Lemma kernel_state_set_utf p n w : kernel_state (set_utf p n w) = kernel_state w.
Proof. reflexivity. Qed.

Lemma kernel_state_set_heap h n p w : kernel_state (set_heap h n p w) = kernel_state w.
Proof. reflexivity. Qed.

Lemma alloc_frame b w :
  kernel_state (snd (alloc b w)) = kernel_state w /\
  trace (snd (alloc b w)) = trace w /\
  exception (snd (alloc b w)) = exception w /\
  utf_pins (snd (alloc b w)) = utf_pins w.
Proof. unfold alloc. destruct (alloc_plan w) as [| [|] plan]; repeat split. Qed.

Lemma copy_strings_frame elems w :
  kernel_state (snd (copy_strings elems w)) = kernel_state w /\
  utf_pins (snd (copy_strings elems w)) = utf_pins w.
Proof.
  revert w. induction elems as [| s elems IH]; intros w; cbn [copy_strings].
  - split; reflexivity.
  - assert (forall plan,
              let v := set_utf plan (S (utf_pins w)) w in
              let w' := snd (let '(copy, w1) := alloc (BString s) v in
                             match copy_strings elems (ReleaseStringUTFChars (Some s) w1) with
                             | (Some cells, w2) => (Some (copy :: cells), w2)
                             | (None, w2) => (None, w2)
                             end) in
              kernel_state w' = kernel_state w /\ utf_pins w' = utf_pins w) as Hstep.
    { intros plan v w'. subst w'.
      pose proof (alloc_frame (BString s) v) as (Hk & _ & _ & Hp).
      destruct (alloc (BString s) v) as [copy w1]. cbn [snd] in *.
      specialize (IH (ReleaseStringUTFChars (Some s) w1)).
      destruct (copy_strings elems (ReleaseStringUTFChars (Some s) w1)) as [[cells |] w2];
        cbn [snd] in *; destruct IH as (Hk' & Hp'); subst v;
        cbn [ReleaseStringUTFChars] in *;
        (split; [rewrite Hk'; exact Hk |]);
        rewrite Hp', utf_pins_set_utf, Hp, utf_pins_set_utf; reflexivity. }
    unfold GetStringUTFChars.
    destruct (utf_plan w) as [| [|] plan].
    + apply Hstep.
    + apply Hstep.
    + split; reflexivity.
Qed.

Lemma free_all_frame ps w :
  kernel_state (fold_left (fun w p => free p w) ps w) = kernel_state w /\
  trace (fold_left (fun w p => free p w) ps w) = trace w /\
  exception (fold_left (fun w p => free p w) ps w) = exception w /\
  utf_pins (fold_left (fun w p => free p w) ps w) = utf_pins w.
Proof.
  revert w. induction ps as [| p ps IH]; intros w; cbn [fold_left]; [repeat split |].
  destruct (IH (free p w)) as (-> & -> & -> & ->). repeat split.
Qed.

Lemma free_if_built_frame v w :
  kernel_state (free_if_built v w) = kernel_state w /\
  trace (free_if_built v w) = trace w /\
  exception (free_if_built v w) = exception w /\
  utf_pins (free_if_built v w) = utf_pins w.
Proof.
  destruct v as [[p cells] |]; cbn [free_if_built]; [| repeat split].
  unfold free_vector.
  destruct (free_all_frame (until_null cells) w) as (Hk & Ht & He & Hp).
  unfold free. repeat split.
  - rewrite <- Hk. reflexivity.
  - rewrite trace_set_heap. exact Ht.
  - rewrite exception_set_heap. exact He.
  - rewrite utf_pins_set_heap. exact Hp.
Qed.

Lemma heap_free_if_built v w q :
  heap (free_if_built v w) !! q =
    if decide (q ∈ vector_blocks v) then None else heap w !! q.
Proof.
  destruct v as [[p cells] |]; cbn [free_if_built vector_blocks].
  - unfold free_vector, free. rewrite heap_set_heap.
    destruct (decide (q = p)) as [-> | Hne].
    + rewrite lookup_delete_eq. rewrite decide_True; [reflexivity |].
      apply elem_of_cons. now left.
    + rewrite lookup_delete_ne by congruence. rewrite heap_free_all.
      destruct (decide (q ∈ until_null cells)) as [Hin | Hin].
      * rewrite decide_True; [reflexivity | apply elem_of_cons; now right].
      * rewrite decide_False; [reflexivity |].
        intros [? | ?]%elem_of_cons; tauto.
  - rewrite decide_False; [reflexivity | apply not_elem_of_nil].
Qed.

(** The marshalling of [argv]: it never touches the process or the trace;
    it throws exactly when it fails, and then it returns -1. *)
Lemma marshal_argv_frame args w :
  kernel_state (snd (marshal_argv args w)) = kernel_state w /\
  trace (snd (marshal_argv args w)) = trace w /\
  utf_pins (snd (marshal_argv args w)) = utf_pins w /\
  match fst (marshal_argv args w) with
  | Failed ret => ret = -1 /\ is_Some (exception (snd (marshal_argv args w)))
  | Built _ => exception (snd (marshal_argv args w)) = exception w
  end.
Proof.
  unfold marshal_argv. destruct (array_elements args) as [| s elems]; [repeat split |].
  pose proof (alloc_frame (BArray (S (length (s :: elems)))) w) as (Hk & Ht & He & Hp).
  destruct (alloc (BArray (S (length (s :: elems)))) w) as [[argv |] w1]; cbn [snd] in *.
  - pose proof (copy_strings_frame (s :: elems) w1) as (Hk' & Hp').
    pose proof (copy_strings_keeps (s :: elems) w1) as (_ & _ & _ & He' & Ht').
    destruct (copy_strings (s :: elems) w1) as [[cells |] w2]; cbn [fst snd] in *.
    + split; [congruence |]. split; [congruence |]. split; congruence.
    + cbn [throw_runtime_exception fst snd].
      rewrite kernel_state_set_exception, trace_set_exception, utf_pins_set_exception,
        exception_set_exception.
      split; [congruence |]. split; [congruence |]. split; [congruence |]. split; eauto.
  - cbn [throw_runtime_exception fst snd].
    rewrite kernel_state_set_exception, trace_set_exception, utf_pins_set_exception,
      exception_set_exception.
    split; [congruence |]. split; [congruence |]. split; [congruence |]. split; eauto.
Qed.

Lemma marshal_envp_frame argv envVars w :
  kernel_state (snd (marshal_envp argv envVars w)) = kernel_state w /\
  trace (snd (marshal_envp argv envVars w)) = trace w /\
  utf_pins (snd (marshal_envp argv envVars w)) = utf_pins w /\
  match fst (marshal_envp argv envVars w) with
  | Failed ret => ret = -1 /\ is_Some (exception (snd (marshal_envp argv envVars w)))
  | Built _ => exception (snd (marshal_envp argv envVars w)) = exception w
  end.
Proof.
  unfold marshal_envp. destruct (array_elements envVars) as [| s elems]; [repeat split |].
  pose proof (alloc_frame (BArray (S (length (s :: elems)))) w) as (Hk & Ht & He & Hp).
  destruct (alloc (BArray (S (length (s :: elems)))) w) as [[envp |] w1]; cbn [snd] in *.
  - pose proof (copy_strings_frame (s :: elems) w1) as (Hk' & Hp').
    pose proof (copy_strings_keeps (s :: elems) w1) as (_ & _ & _ & He' & Ht').
    destruct (copy_strings (s :: elems) w1) as [[cells |] w2]; cbn [fst snd] in *.
    + split; [congruence |]. split; [congruence |]. split; congruence.
    + cbn [throw_runtime_exception fst snd].
      rewrite kernel_state_set_exception, trace_set_exception, utf_pins_set_exception,
        exception_set_exception.
      split; [congruence |]. split; [congruence |]. split; [congruence |]. split; eauto.
  - destruct (free_if_built_frame argv w1) as (Hk' & Ht' & He' & Hp').
    cbn [throw_runtime_exception fst snd].
    rewrite kernel_state_set_exception, trace_set_exception, utf_pins_set_exception,
      exception_set_exception.
    split; [congruence |]. split; [congruence |]. split; [congruence |]. split; eauto.
Qed.

(** ** The vectors built when every request is served *)

Lemma built_vector_facts s elems (w w' : world) :
  heap w' = store_strings (S (next_block w)) (s :: elems)
              (<[next_block w := BArray (S (S (length elems)))]> (heap w)) ->
  next_block w' = (S (next_block w) + S (length elems))%nat ->
  let v : vector :=
    Some (next_block w, map Some (seq (S (next_block w)) (S (length elems))) ++ [None]) in
  (forall q, q ∈ vector_blocks v -> (next_block w <= q < next_block w')%nat) /\
  (forall q, q ∉ vector_blocks v -> heap w' !! q = heap w !! q) /\
  (forall w'', (forall q, q ∈ vector_blocks v -> heap w'' !! q = heap w' !! q) ->
     option_map until_null (vector_array v w'') = Some (s :: elems)).
Proof.
  intros Hheap Hnext v.
  assert (vector_blocks v = next_block w :: seq (S (next_block w)) (S (length elems)))
    as Hblocks.
  { subst v. cbn [vector_blocks]. now rewrite until_null_terminated. }
  rewrite Hblocks. split; [| split].
  - intros q [-> | Hin]%elem_of_cons; [lia |]. apply elem_of_seq in Hin. lia.
  - intros q Hq. apply not_elem_of_cons in Hq as [Hne Hq].
    assert (q < S (next_block w) \/ S (next_block w) + length (s :: elems) <= q)%nat
      as [Hlt | Hge].
    { destruct (decide (q < S (next_block w))%nat); [now left | right].
      destruct (decide (S (next_block w) + length (s :: elems) <= q)%nat); [assumption |].
      exfalso. apply Hq. apply elem_of_seq. cbn [length] in *. lia. }
    + rewrite Hheap, store_strings_below by lia. apply lookup_insert_ne. lia.
    + rewrite Hheap, store_strings_above by lia. apply lookup_insert_ne. lia.
  - intros w'' Hsame. subst v. cbn [vector_array option_map].
    rewrite vector_strings_app, (vector_strings_stored (s :: elems)).
    + f_equal. apply until_null_terminated.
    + intros i t Hi. rewrite Hsame.
      * rewrite Hheap. now apply store_strings_at.
      * apply elem_of_cons. right. apply elem_of_seq.
        apply lookup_lt_Some in Hi. cbn [length] in Hi. lia.
Qed.

Lemma marshal_argv_built args w :
  alloc_plan w = [] -> utf_plan w = [] ->
  exists v w',
    marshal_argv args w = (Built v, w') /\
    alloc_plan w' = [] /\ utf_plan w' = [] /\
    (next_block w <= next_block w')%nat /\
    (forall q, q ∈ vector_blocks v -> (next_block w <= q < next_block w')%nat) /\
    (forall q, q ∉ vector_blocks v -> heap w' !! q = heap w !! q) /\
    (forall w'', (forall q, q ∈ vector_blocks v -> heap w'' !! q = heap w' !! q) ->
       option_map until_null (vector_array v w'') = argument_vector args).
Proof.
  intros Ha Hu.
  assert (forall none : option (list string), array_elements none = [] ->
            exists v w',
              marshal_argv none w = (Built v, w') /\
              alloc_plan w' = [] /\ utf_plan w' = [] /\
              (next_block w <= next_block w')%nat /\
              (forall q, q ∈ vector_blocks v -> (next_block w <= q < next_block w')%nat) /\
              (forall q, q ∉ vector_blocks v -> heap w' !! q = heap w !! q) /\
              (forall w'', (forall q, q ∈ vector_blocks v -> heap w'' !! q = heap w' !! q) ->
                 option_map until_null (vector_array v w'') = argument_vector none))
    as Hempty.
  { intros none Hnone. exists None, w. unfold marshal_argv, argument_vector. rewrite Hnone.
    split; [reflexivity |]. split; [exact Ha |]. split; [exact Hu |]. split; [lia |].
    split; [intros q Hq; cbn in Hq; now apply elem_of_nil in Hq |].
    split; intros; reflexivity. }
  destruct args as [[| s elems] |]; [now apply Hempty | | now apply Hempty].
  destruct (marshal_argv_of_served s elems w) as (w' & E & Hh & Hn & Ha' & Hu').
  { rewrite Hu. apply serves_nil. }
  { rewrite Ha. apply serves_nil. }
  rewrite Ha, drop_nil in Ha'. rewrite Hu, drop_nil in Hu'.
  destruct (built_vector_facts s elems w w' Hh Hn) as (F1 & F2 & F3).
  eexists _, w'. split; [exact E |]. split; [exact Ha' |]. split; [exact Hu' |].
  split; [lia |]. split; [exact F1 |]. split; [exact F2 | exact F3].
Qed.

Lemma marshal_envp_built argv envVars w :
  alloc_plan w = [] -> utf_plan w = [] ->
  exists v w',
    marshal_envp argv envVars w = (Built v, w') /\
    alloc_plan w' = [] /\ utf_plan w' = [] /\
    (next_block w <= next_block w')%nat /\
    (forall q, q ∈ vector_blocks v -> (next_block w <= q < next_block w')%nat) /\
    (forall q, q ∉ vector_blocks v -> heap w' !! q = heap w !! q) /\
    (forall w'', (forall q, q ∈ vector_blocks v -> heap w'' !! q = heap w' !! q) ->
       option_map until_null (vector_array v w'') = argument_vector envVars).
Proof.
  intros Ha Hu.
  assert (forall none : option (list string), array_elements none = [] ->
            exists v w',
              marshal_envp argv none w = (Built v, w') /\
              alloc_plan w' = [] /\ utf_plan w' = [] /\
              (next_block w <= next_block w')%nat /\
              (forall q, q ∈ vector_blocks v -> (next_block w <= q < next_block w')%nat) /\
              (forall q, q ∉ vector_blocks v -> heap w' !! q = heap w !! q) /\
              (forall w'', (forall q, q ∈ vector_blocks v -> heap w'' !! q = heap w' !! q) ->
                 option_map until_null (vector_array v w'') = argument_vector none))
    as Hempty.
  { intros none Hnone. exists None, w. unfold marshal_envp, argument_vector. rewrite Hnone.
    split; [reflexivity |]. split; [exact Ha |]. split; [exact Hu |]. split; [lia |].
    split; [intros q Hq; cbn in Hq; now apply elem_of_nil in Hq |].
    split; intros; reflexivity. }
  destruct envVars as [[| s elems] |]; [now apply Hempty | | now apply Hempty].
  destruct (marshal_envp_of_served argv s elems w) as (w' & E & Hh & Hn & Ha' & Hu').
  { rewrite Hu. apply serves_nil. }
  { rewrite Ha. apply serves_nil. }
  rewrite Ha, drop_nil in Ha'. rewrite Hu, drop_nil in Hu'.
  destruct (built_vector_facts s elems w w' Hh Hn) as (F1 & F2 & F3).
  eexists _, w'. split; [exact E |]. split; [exact Ha' |]. split; [exact Hu' |].
  split; [lia |]. split; [exact F1 |]. split; [exact F2 | exact F3].
Qed.

(** ** [createSubprocess] when every request of the marshalling is served *)

Lemma jni_state_create_subprocess o cmd dir argv envp rows columns cell_width cell_height w :
  jni_state (snd (create_subprocess o cmd dir argv envp rows columns cell_width cell_height w))
  = jni_state w.
Proof.
  destruct (device_ready_dec o) as [[devname Hready] | [Hopen | [Hptm Hfail]]].
  - rewrite (create_subprocess_ready _ _ _ _ _ _ _ _ _ _ _ Hready). cbv zeta.
    destruct (os_fork o <? 0); [| destruct (0 <? os_fork o)]; cbn [snd].
    + rewrite jni_state_set_exception. apply jni_state_world_at_fork.
    + apply jni_state_world_at_fork.
    + rewrite jni_state_child_process. apply jni_state_world_at_fork.
  - rewrite create_subprocess_open_fails by exact Hopen. reflexivity.
  - rewrite create_subprocess_unlock_fails by assumption. cbn [snd].
    rewrite jni_state_set_exception, (proj1 (grant_unlock_ptsname_frame _ _ _)),
      jni_state_set_ttys.
    apply jni_state_sys_open.
Qed.

Lemma trace_create_subprocess_starts
    o cmd dir argv envp rows columns cell_width cell_height w :
  exists l,
    trace (snd (create_subprocess o cmd dir argv envp rows columns cell_width cell_height w))
    = trace w ++ EvOpen "/dev/ptmx" true (os_open_ptmx o) :: l.
Proof.
  destruct (device_ready_dec o) as [[devname Hready] | [Hopen | [Hptm Hfail]]].
  - rewrite (create_subprocess_ready _ _ _ _ _ _ _ _ _ _ _ Hready). cbv zeta.
    pose proof (trace_world_at_fork o rows columns cell_width cell_height w devname Hready)
      as Ht.
    unfold setup_events in Ht. cbn [app] in Ht.
    destruct (os_fork o <? 0); [| destruct (0 <? os_fork o)]; cbn [snd].
    + rewrite trace_set_exception, Ht. eauto.
    + rewrite Ht. eauto.
    + rewrite trace_child_process, Ht.
      eexists. rewrite <- app_assoc. cbn [app]. reflexivity.
  - rewrite create_subprocess_open_fails by exact Hopen. cbn [snd].
    rewrite trace_set_exception, trace_emit. eauto.
  - rewrite create_subprocess_unlock_fails by assumption. cbn [snd].
    rewrite trace_set_exception, (proj2 (grant_unlock_ptsname_world _ _ _)),
      trace_set_ttys, trace_sys_open.
    eexists. rewrite <- app_assoc. cbn [app]. reflexivity.
Qed.

Lemma createSubprocess_served
    (o : os) (critical_ok : bool) (cmd dir : string) (args envVars : option (list string))
    (rows columns cell_width cell_height : Z) (w : world) :
  alloc_plan w = [] -> utf_plan w = [] ->
  exists (argv envp : vector) (w3 : world),
    kernel_state w3 = kernel_state w /\ trace w3 = trace w /\ exception w3 = exception w /\
    utf_pins w3 = S (S (utf_pins w)) /\
    (forall q, q ∈ vector_blocks argv \/ q ∈ vector_blocks envp -> (next_block w <= q)%nat) /\
    (forall q, q ∉ vector_blocks argv -> q ∉ vector_blocks envp ->
       heap w3 !! q = heap w !! q) /\
    (forall w'', heap w'' = heap w3 ->
       option_map until_null (vector_array argv w'') = argument_vector args /\
       option_map until_null (vector_array envp w'') = argument_vector envVars) /\
    JNI.createSubprocess o critical_ok cmd dir args envVars
                         rows columns cell_width cell_height w =
      match create_subprocess o (Some cmd) (Some dir)
                              (vector_array argv w3) (vector_array envp w3)
                              rows columns cell_width cell_height w3 with
      | (Returned ptm written, w5) =>
          let w6 := free_if_built envp
                      (free_if_built argv
                         (ReleaseStringUTFChars (Some dir)
                            (ReleaseStringUTFChars (Some cmd) w5))) in
          if critical_ok
          then (Returned ptm (Some (match written with Some pid => pid | None => 0 end)), w6)
          else (Returned (-1) None,
                set_exception
                  (Some "JNI call GetPrimitiveArrayCritical(processIdArray, &isCopy) failed"%string)
                  w6)
      | stopped => stopped
      end.
Proof.
  intros Ha Hu.
  destruct (marshal_argv_built args w Ha Hu)
    as (argv & w1 & E1 & Ha1 & Hu1 & Hn1 & B1 & K1 & S1).
  pose proof (marshal_argv_frame args w) as (Fk1 & Ft1 & Fp1 & Fe1).
  rewrite E1 in Fk1, Ft1, Fp1, Fe1. cbn [fst snd] in Fk1, Ft1, Fp1, Fe1.
  destruct (marshal_envp_built argv envVars w1 Ha1 Hu1)
    as (envp & w2 & E2 & Ha2 & Hu2 & Hn2 & B2 & K2 & S2).
  pose proof (marshal_envp_frame argv envVars w1) as (Fk2 & Ft2 & Fp2 & Fe2).
  rewrite E2 in Fk2, Ft2, Fp2, Fe2. cbn [fst snd] in Fk2, Ft2, Fp2, Fe2.
  exists argv, envp,
    (set_utf [] (S (S (utf_pins w2))) (set_utf [] (S (utf_pins w2)) w2)).
  rewrite kernel_state_set_utf, kernel_state_set_utf, !trace_set_utf, !exception_set_utf,
    utf_pins_set_utf, !heap_set_utf.
  split; [congruence |]. split; [congruence |]. split; [congruence |].
  split; [congruence |].
  split; [| split; [| split]].
  - intros q [Hq | Hq]; [apply B1 in Hq | apply B2 in Hq]; lia.
  - intros q Hq1 Hq2. rewrite K2 by exact Hq2. now apply K1.
  - intros w'' Hw''. split.
    + apply S1. intros q Hq. rewrite Hw''. apply K2. intros Hq'.
      apply B1 in Hq. apply B2 in Hq'. lia.
    + apply S2. intros q Hq. now rewrite Hw''.
  - unfold JNI.createSubprocess. rewrite E1, E2.
    unfold GetStringUTFChars at 1. rewrite Hu2.
    unfold GetStringUTFChars at 1. rewrite utf_plan_set_utf, utf_pins_set_utf.
    reflexivity.
Qed.

(** ** The ways [createSubprocess] ends, whatever the allocator does *)

Lemma create_subprocess_returned
    o cmd dir argv envp rows columns cell_width cell_height w ptm written :
  fst (create_subprocess o cmd dir argv envp rows columns cell_width cell_height w)
    = Returned ptm written ->
  (ptm = -1 /\ written = None /\
   is_Some (exception
              (snd (create_subprocess o cmd dir argv envp
                                      rows columns cell_width cell_height w)))) \/
  (exists devname,
     device_ready o devname /\ 0 < os_fork o /\
     ptm = os_open_ptmx o /\ written = Some (os_fork o) /\
     snd (create_subprocess o cmd dir argv envp rows columns cell_width cell_height w)
       = world_at_fork o rows columns cell_width cell_height w).
Proof.
  destruct (device_ready_dec o) as [[devname Hready] | [Hopen | [Hptm Hfail]]].
  - rewrite (create_subprocess_ready _ _ _ _ _ _ _ _ _ _ _ Hready). cbv zeta.
    destruct (Z.ltb_spec (os_fork o) 0) as [Hneg | Hnn].
    + cbn [fst snd]. intros [= <- <-]. left. rewrite exception_set_exception. eauto.
    + destruct (Z.ltb_spec 0 (os_fork o)) as [Hpos | Hzero].
      * cbn [fst snd]. intros [= <- <-]. right. exists devname. tauto.
      * rewrite child_process_outcome.
        destruct (os_open_pts o <? 0); [discriminate |].
        unfold exec_outcome. destruct (os_execvp o); discriminate.
  - rewrite create_subprocess_open_fails by exact Hopen. cbn [fst snd].
    intros [= <- <-]. left. rewrite exception_set_exception. eauto.
  - rewrite create_subprocess_unlock_fails by assumption. cbn [fst snd].
    intros [= <- <-]. left. rewrite exception_set_exception. eauto.
Qed.

Lemma GetStringUTFChars_frame s w :
  kernel_state (snd (GetStringUTFChars s w)) = kernel_state w /\
  trace (snd (GetStringUTFChars s w)) = trace w /\
  exception (snd (GetStringUTFChars s w)) = exception w.
Proof.
  unfold GetStringUTFChars. destruct (utf_plan w) as [| [] plan]; repeat split.
Qed.

Lemma ReleaseStringUTFChars_frame c w :
  kernel_state (ReleaseStringUTFChars c w) = kernel_state w /\
  trace (ReleaseStringUTFChars c w) = trace w /\
  exception (ReleaseStringUTFChars c w) = exception w /\
  heap (ReleaseStringUTFChars c w) = heap w.
Proof. destruct c; repeat split. Qed.

(** The state in which [createSubprocess] leaves the caller once
    [create_subprocess] has returned, lines 201-213. *)
Lemma cleanup_frame cmd_utf8 cmd_cwd argv envp w :
  let w' := free_if_built envp
              (free_if_built argv
                 (ReleaseStringUTFChars cmd_cwd (ReleaseStringUTFChars cmd_utf8 w))) in
  kernel_state w' = kernel_state w /\ trace w' = trace w /\ exception w' = exception w.
Proof.
  cbv zeta.
  destruct (free_if_built_frame envp
              (free_if_built argv
                 (ReleaseStringUTFChars cmd_cwd (ReleaseStringUTFChars cmd_utf8 w))))
    as (-> & -> & -> & _).
  destruct (free_if_built_frame argv
              (ReleaseStringUTFChars cmd_cwd (ReleaseStringUTFChars cmd_utf8 w)))
    as (-> & -> & -> & _).
  destruct (ReleaseStringUTFChars_frame cmd_cwd (ReleaseStringUTFChars cmd_utf8 w))
    as (-> & -> & -> & _).
  destruct (ReleaseStringUTFChars_frame cmd_utf8 w) as (-> & -> & -> & _).
  repeat split.
Qed.

(** Either the marshalling fails, and nothing but the exception and the
    allocator has changed, or [create_subprocess] runs from a state with the
    kernel's side untouched and the wrapper passes its result on. *)
Lemma createSubprocess_cases
    (o : os) (critical_ok : bool) (cmd dir : string) (args envVars : option (list string))
    (rows columns cell_width cell_height : Z) (w : world) :
  let r := JNI.createSubprocess o critical_ok cmd dir args envVars
                                rows columns cell_width cell_height w in
  (fst r = Returned (-1) None /\ kernel_state (snd r) = kernel_state w /\
   trace (snd r) = trace w /\ is_Some (exception (snd r))) \/
  (exists cmd_utf8 cmd_cwd argv envp w3,
     kernel_state w3 = kernel_state w /\ trace w3 = trace w /\
     exception w3 = exception w /\
     let c := create_subprocess o cmd_utf8 cmd_cwd argv envp
                                rows columns cell_width cell_height w3 in
     match fst c with
     | Returned ptm written =>
         kernel_state (snd r) = kernel_state (snd c) /\ trace (snd r) = trace (snd c) /\
         if critical_ok
         then fst r = Returned ptm (Some (match written with Some pid => pid | None => 0 end))
              /\ exception (snd r) = exception (snd c)
         else fst r = Returned (-1) None /\ is_Some (exception (snd r))
     | _ => r = c
     end).
Proof.
  intros r. subst r. unfold JNI.createSubprocess.
  pose proof (marshal_argv_frame args w) as (Ka & Ta & _ & Ea).
  destruct (marshal_argv args w) as [[ret | argv] w1]; cbn [fst snd] in Ka, Ta, Ea.
  { left. destruct Ea as [-> Hex]. cbn [fst snd]. tauto. }
  pose proof (marshal_envp_frame argv envVars w1) as (Kb & Tb & _ & Eb).
  destruct (marshal_envp argv envVars w1) as [[ret | envp] w2]; cbn [fst snd] in Kb, Tb, Eb.
  { left. destruct Eb as [-> Hex]. cbn [fst snd]. rewrite Kb, Tb. tauto. }
  right.
  pose proof (GetStringUTFChars_frame dir w2) as (Kc & Tc & Ec).
  destruct (GetStringUTFChars dir w2) as [cmd_cwd w3]. cbn [fst snd] in Kc, Tc, Ec.
  pose proof (GetStringUTFChars_frame cmd w3) as (Kd & Td & Ed).
  destruct (GetStringUTFChars cmd w3) as [cmd_utf8 w4]. cbn [fst snd] in Kd, Td, Ed.
  exists cmd_utf8, cmd_cwd, (vector_array argv w4), (vector_array envp w4), w4.
  split; [congruence |]. split; [congruence |]. split; [congruence |].
  cbv zeta.
  destruct (create_subprocess o cmd_utf8 cmd_cwd (vector_array argv w4)
              (vector_array envp w4) rows columns cell_width cell_height w4)
    as [[ptm written | code | file argl] w5]; cbn [fst snd]; [| reflexivity | reflexivity].
  destruct (cleanup_frame cmd_utf8 cmd_cwd argv envp w5) as (Kf & Tf & Ef).
  cbv zeta in Kf, Tf, Ef.
  destruct critical_ok; cbn [fst snd throw_runtime_exception].
  - tauto.
  - unfold throw_runtime_exception. cbn [fst snd].
    rewrite kernel_state_set_exception, trace_set_exception, exception_set_exception.
    split; [exact Kf |]. split; [exact Tf |]. split; [reflexivity | eauto].
Qed.

(** ** The working directory *)

Lemma cwd_sys_open path f c ret w : cwd (sys_open path f c ret w) = cwd w.
Proof. unfold sys_open. destruct (ret <? 0); reflexivity. Qed.









Lemma environ_cwd_world_at_fork o rows columns cell_width cell_height w :
  environ (world_at_fork o rows columns cell_width cell_height w) = environ w /\
  cwd (world_at_fork o rows columns cell_width cell_height w) = cwd w.
Proof.
  unfold world_at_fork. cbv zeta. rewrite environ_emit, cwd_emit.
  rewrite (proj1 (environ_cwd_ioctl_TIOCSWINSZ _ _ _)),
    (proj2 (environ_cwd_ioctl_TIOCSWINSZ _ _ _)),
    (proj1 (environ_cwd_tcsetattr _ _ _)), (proj2 (environ_cwd_tcsetattr _ _ _)),
    environ_emit, cwd_emit.
  unfold grant_unlock_ptsname.
  destruct (os_grantpt o =? 0); cbn [negb snd];
    [destruct (os_unlockpt o =? 0); cbn [negb snd] |];
    rewrite ?environ_emit, ?cwd_emit, environ_set_ttys, cwd_set_ttys, cwd_sys_open;
    unfold sys_open; destruct (os_open_ptmx o <? 0); split; reflexivity.
Qed.

(** ** [createSubprocess] seen from the Java caller *)

Lemma create_subprocess_stopped
    o cmd dir argv envp rows columns cell_width cell_height w :
  match fst (create_subprocess o cmd dir argv envp rows columns cell_width cell_height w) with
  | Returned _ _ => True
  | _ => os_fork o = 0 /\ exists devname, device_ready o devname
  end.
Proof.
  destruct (device_ready_dec o) as [[devname Hready] | [Hopen | [Hptm Hfail]]].
  - rewrite (create_subprocess_ready _ _ _ _ _ _ _ _ _ _ _ Hready). cbv zeta.
    destruct (Z.ltb_spec (os_fork o) 0) as [Hneg | Hnn]; [exact I |].
    destruct (Z.ltb_spec 0 (os_fork o)) as [Hpos | Hzero]; [exact I |].
    assert (os_fork o = 0) as Hfork by lia.
    rewrite child_process_outcome.
    destruct (os_open_pts o <? 0); [eauto |].
    unfold exec_outcome. destruct (os_execvp o); eauto.
  - rewrite create_subprocess_open_fails by exact Hopen. exact I.
  - rewrite create_subprocess_unlock_fails by assumption. exact I.
Qed.

Lemma kernel_state_inv v v' :
  kernel_state v = kernel_state v' ->
  fdtab v = fdtab v' /\ ttys v = ttys v' /\ environ v = environ v' /\ cwd v = cwd v'.
Proof. unfold kernel_state. intros [= -> -> -> ->]. repeat split. Qed.

(** A return value that is not negative: the parent's side of a [fork] that
    succeeded, with the process-id array written. *)
Lemma createSubprocess_success
    (o : os) (critical_ok : bool) (cmd dir : string) (args envVars : option (list string))
    (rows columns cell_width cell_height : Z) (w : world) (ret : Z) (pid : option Z) :
  let r := JNI.createSubprocess o critical_ok cmd dir args envVars
                                rows columns cell_width cell_height w in
  fst r = Returned ret pid -> 0 <= ret ->
  (exists devname, device_ready o devname) /\ 0 < os_fork o /\
  ret = os_open_ptmx o /\ pid = Some (os_fork o) /\ critical_ok = true /\
  exception (snd r) = exception w /\
  fdtab (snd r) = <[ret := Fdesc (PtyMaster (os_pty_index o)) true]> (fdtab w) /\
  environ (snd r) = environ w /\ cwd (snd r) = cwd w /\
  trace (snd r) = trace w ++ setup_events o rows columns cell_width cell_height.
Proof.
  intros r Hret Hnn.
  destruct (createSubprocess_cases o critical_ok cmd dir args envVars
              rows columns cell_width cell_height w)
    as [(Hfail & _) | (cmd_utf8 & cmd_cwd & argv & envp & w3 & K3 & T3 & E3 & Hc)].
  { fold r in Hfail. rewrite Hfail in Hret. injection Hret as <- _. lia. }
  fold r in Hc. cbv zeta in Hc.
  pose proof (create_subprocess_returned o cmd_utf8 cmd_cwd argv envp
                rows columns cell_width cell_height w3) as Hr.
  destruct (fst (create_subprocess o cmd_utf8 cmd_cwd argv envp
                   rows columns cell_width cell_height w3))
    as [ptm written | code | file argl] eqn:Ec.
  - destruct Hc as (Kr & Tr & Hc).
    destruct critical_ok;
      [| destruct Hc as [Hc _]; rewrite Hc in Hret; injection Hret as <- _; lia].
    destruct Hc as [Hc Er]. rewrite Hc in Hret. injection Hret as <- <-.
    destruct (Hr ptm written eq_refl)
      as [(-> & _) | (devname & Hready & Hfork & -> & -> & Hw)]; [lia |].
    rewrite Hw in Kr, Tr, Er.
    apply kernel_state_inv in Kr as (Fr & _ & Vr & Cr).
    apply kernel_state_inv in K3 as (F3 & _ & V3 & C3).
    destruct (environ_cwd_world_at_fork o rows columns cell_width cell_height w3)
      as (Vf & Cf).
    split; [eauto |]. split; [exact Hfork |]. split; [reflexivity |].
    split; [reflexivity |]. split; [reflexivity |].
    split; [rewrite Er, exception_world_at_fork; exact E3 |].
    split; [rewrite Fr, (fdtab_world_at_fork _ _ _ _ _ _ _ Hready), F3; reflexivity |].
    split; [congruence |]. split; [congruence |].
    rewrite Tr, (trace_world_at_fork _ _ _ _ _ _ _ Hready), T3. reflexivity.
  - rewrite Hc in Hret. rewrite Ec in Hret. discriminate.
  - rewrite Hc in Hret. rewrite Ec in Hret. discriminate.
Qed.

(** X15: the first system call of [createSubprocess] is the [open] of
    [/dev/ptmx].  When the call makes none, the conversion of the arguments
    has failed: it returns -1 with an exception pending, and descriptors,
    terminals, environment and working directory are as before. *)
Theorem createSubprocess_opens_ptmx_first
    (o : os) (critical_ok : bool) (cmd dir : string) (args envVars : option (list string))
    (rows columns cell_width cell_height : Z) (w : world) :
  let r := JNI.createSubprocess o critical_ok cmd dir args envVars
                                rows columns cell_width cell_height w in
  (trace (snd r) = trace w /\ kernel_state (snd r) = kernel_state w /\
   fst r = Returned (-1) None /\ is_Some (exception (snd r))) \/
  (exists l, trace (snd r) = trace w ++ EvOpen "/dev/ptmx" true (os_open_ptmx o) :: l).
Proof.
  intros r.
  destruct (createSubprocess_cases o critical_ok cmd dir args envVars
              rows columns cell_width cell_height w)
    as [(Hfail & K & T & E) | (cmd_utf8 & cmd_cwd & argv & envp & w3 & K3 & T3 & E3 & Hc)].
  { left. fold r in Hfail, K, T, E. tauto. }
  right. fold r in Hc. cbv zeta in Hc.
  destruct (trace_create_subprocess_starts o cmd_utf8 cmd_cwd argv envp
              rows columns cell_width cell_height w3) as [l Hl].
  exists l. rewrite <- T3, <- Hl.
  destruct (fst (create_subprocess o cmd_utf8 cmd_cwd argv envp
                   rows columns cell_width cell_height w3)).
  - now destruct Hc as (_ & -> & _).
  - now rewrite Hc.
  - now rewrite Hc.
Qed.

(** X16: what the value [createSubprocess] returns to Java means.  A
    negative value is -1 and comes with a pending exception.  A value that is
    not negative is the master descriptor, now open on the new terminal with
    close-on-exec set: the process id written is what [fork] returned, and no
    exception was thrown.  The call does not return in the child only, that
    is when the device set-up succeeded and [fork] returned 0. *)
Theorem createSubprocess_return_value
    (o : os) (critical_ok : bool) (cmd dir : string) (args envVars : option (list string))
    (rows columns cell_width cell_height : Z) (w : world) :
  let r := JNI.createSubprocess o critical_ok cmd dir args envVars
                                rows columns cell_width cell_height w in
  match fst r with
  | Returned ret pid =>
      (ret < 0 -> ret = -1 /\ is_Some (exception (snd r))) /\
      (0 <= ret ->
         ret = os_open_ptmx o /\ pid = Some (os_fork o) /\ 0 < os_fork o /\
         exception (snd r) = exception w /\
         fdtab (snd r) !! ret = Some (Fdesc (PtyMaster (os_pty_index o)) true))
  | ChildExit _ | ChildExec _ _ =>
      os_fork o = 0 /\ exists devname, device_ready o devname
  end.
Proof.
  intros r.
  pose proof (createSubprocess_success o critical_ok cmd dir args envVars
                rows columns cell_width cell_height w) as Hsucc.
  fold r in Hsucc. cbv zeta in Hsucc.
  destruct (createSubprocess_cases o critical_ok cmd dir args envVars
              rows columns cell_width cell_height w)
    as [(Hfail & K & T & E) | (cmd_utf8 & cmd_cwd & argv & envp & w3 & K3 & T3 & E3 & Hc)].
  { fold r in Hfail, E. rewrite Hfail. split; [tauto | lia]. }
  fold r in Hc. cbv zeta in Hc.
  pose proof (create_subprocess_stopped o cmd_utf8 cmd_cwd argv envp
                rows columns cell_width cell_height w3) as Hstop.
  pose proof (create_subprocess_returned o cmd_utf8 cmd_cwd argv envp
                rows columns cell_width cell_height w3) as Hr.
  destruct (fst (create_subprocess o cmd_utf8 cmd_cwd argv envp
                   rows columns cell_width cell_height w3))
    as [ptm written | code | file argl] eqn:Ec.
  - destruct Hc as (Kr & Tr & Hc). destruct critical_ok.
    + destruct Hc as [Hc Er]. rewrite Hc. split.
      * intros Hneg.
        destruct (Hr ptm written eq_refl)
          as [(-> & _ & Hex) | (devname & (Hptm & _) & _ & -> & _)]; [| lia].
        rewrite Er. tauto.
      * intros Hnn.
        destruct (Hsucc _ _ Hc Hnn) as (_ & Hfork & -> & Hpid & _ & Hex & Hfd & _).
        split; [reflexivity |]. split; [exact Hpid |]. split; [exact Hfork |].
        split; [exact Hex |]. rewrite Hfd. apply lookup_insert_eq.
    + destruct Hc as [Hc Hex]. rewrite Hc. split; [tauto | lia].
  - rewrite Hc, Ec. exact Hstop.
  - rewrite Hc, Ec. exact Hstop.
Qed.

(** X17: a call that succeeded leaves one descriptor more than there was,
    the master.  When the number it got was free before, closing it with
    [close] gives back the descriptor table of before the call; environment
    and working directory of the calling process were never touched. *)
Theorem create_then_close_restores_descriptors
    (o : os) (critical_ok : bool) (cmd dir : string) (args envVars : option (list string))
    (rows columns cell_width cell_height : Z) (w : world) (ptm : Z) (pid : option Z) :
  let r := JNI.createSubprocess o critical_ok cmd dir args envVars
                                rows columns cell_width cell_height w in
  fst r = Returned ptm pid -> 0 <= ptm -> fdtab w !! ptm = None ->
  fdtab (JNI.close ptm (snd r)) = fdtab w /\
  environ (JNI.close ptm (snd r)) = environ w /\
  cwd (JNI.close ptm (snd r)) = cwd w.
Proof.
  intros r Hret Hnn Hfree.
  destruct (createSubprocess_success o critical_ok cmd dir args envVars
              rows columns cell_width cell_height w ptm pid Hret Hnn)
    as (_ & _ & _ & _ & _ & _ & Hfd & Henv & Hcwd & _).
  fold r in Hfd, Henv, Hcwd.
  unfold JNI.close, sys_close.
  rewrite fdtab_set_fdtab, environ_set_fdtab, cwd_set_fdtab, environ_emit, cwd_emit, Hfd.
  split; [| tauto]. rewrite delete_insert_eq. now apply delete_id.
Qed.

Lemma create_then_close_restores_descriptors_witness :
  fdtab (JNI.close 8
           (snd (JNI.createSubprocess (sample_os 1234 0) true "sh" "/"
                   (Some ["sh"; "-l"]%string) (Some ["HOME=/"]%string)
                   24 80 10 20 sample_world)))
  = fdtab sample_world.
Proof.
  refine (proj1 (create_then_close_restores_descriptors (sample_os 1234 0) true "sh" "/"
                   (Some ["sh"; "-l"]%string) (Some ["HOME=/"]%string)
                   24 80 10 20 sample_world 8 (Some 1234) _ _ _)).
  - vm_compute. reflexivity.
  - lia.
  - vm_compute. reflexivity.
Defined.

(** ** [createSubprocess] when the allocator and the JVM serve every request *)


(** X18: a call that returns to Java has given back what it took: every
    block it allocated for the two vectors is freed and every string buffer
    it obtained is released, whether the process-id array could be written
    or not. *)
Theorem createSubprocess_releases_what_it_took
    (o : os) (critical_ok : bool) (cmd dir : string) (args envVars : option (list string))
    (rows columns cell_width cell_height : Z) (w : world) (ret : Z) (pid : option Z) :
  alloc_plan w = [] -> utf_plan w = [] -> heap_fresh w ->
  let r := JNI.createSubprocess o critical_ok cmd dir args envVars
                                rows columns cell_width cell_height w in
  fst r = Returned ret pid ->
  heap (snd r) = heap w /\ utf_pins (snd r) = utf_pins w.
Proof.
  intros Ha Hu Hfresh r Hret. subst r.
  destruct (createSubprocess_served o critical_ok cmd dir args envVars
              rows columns cell_width cell_height w Ha Hu)
    as (argv & envp & w3 & _ & _ & _ & Hpins & Hblocks & Hheap & _ & Heq).
  rewrite Heq in Hret |- *. clear Heq.
  pose proof (jni_state_create_subprocess o (Some cmd) (Some dir)
                (vector_array argv w3) (vector_array envp w3)
                rows columns cell_width cell_height w3) as Hj.
  destruct (create_subprocess o (Some cmd) (Some dir) (vector_array argv w3)
              (vector_array envp w3) rows columns cell_width cell_height w3)
    as [[ptm written | code | file argl] w5]; cbn [fst snd] in Hret, Hj;
    [| discriminate | discriminate].
  unfold jni_state in Hj. injection Hj as Hh5 _ _ _ Hp5.
  cbv zeta.
  set (w6 := free_if_built envp
               (free_if_built argv
                  (ReleaseStringUTFChars (Some dir) (ReleaseStringUTFChars (Some cmd) w5)))).
  assert (heap w6 = heap w /\ utf_pins w6 = utf_pins w) as [Hh6 Hp6].
  { subst w6. split.
    - apply map_eq. intros q. rewrite !heap_free_if_built.
      destruct (decide (q ∈ vector_blocks envp)) as [Hin | Hout].
      { symmetry. apply Hfresh, Hblocks. now right. }
      destruct (decide (q ∈ vector_blocks argv)) as [Hin | Hout'].
      { symmetry. apply Hfresh, Hblocks. now left. }
      cbn [ReleaseStringUTFChars]. rewrite !heap_set_utf, Hh5. now apply Hheap.
    - rewrite (proj2 (proj2 (proj2 (free_if_built_frame envp _)))),
        (proj2 (proj2 (proj2 (free_if_built_frame argv _)))).
      cbn [ReleaseStringUTFChars]. rewrite !utf_pins_set_utf, Hp5, Hpins. reflexivity. }
  destruct critical_ok; cbn [snd].
  - tauto.
  - rewrite heap_set_exception, utf_pins_set_exception. tauto.
Qed.

Lemma createSubprocess_releases_what_it_took_witness :
  heap (snd (JNI.createSubprocess (sample_os 1234 0) true "sh" "/"
               (Some ["sh"; "-l"]%string) (Some ["HOME=/"]%string)
               24 80 10 20 sample_world))
  = heap sample_world.
Proof.
  refine (proj1 (createSubprocess_releases_what_it_took (sample_os 1234 0) true "sh" "/"
                   (Some ["sh"; "-l"]%string) (Some ["HOME=/"]%string)
                   24 80 10 20 sample_world 8 (Some 1234) eq_refl eq_refl _ _)).
  - intros p _. reflexivity.
  - vm_compute. reflexivity.
Defined.



(** X20: when the process-id array cannot be obtained after the child was
    created, the caller gets -1 and an exception but neither the process id
    nor the descriptor: the child has been forked, and the master is still
    open in the calling process. *)
Theorem process_id_array_failure_loses_the_child
    (o : os) (cmd dir : string) (args envVars : option (list string))
    (rows columns cell_width cell_height : Z) (w : world) (devname : string) :
  alloc_plan w = [] -> utf_plan w = [] ->
  device_ready o devname -> 0 < os_fork o ->
  let r := JNI.createSubprocess o false cmd dir args envVars
                                rows columns cell_width cell_height w in
  fst r = Returned (-1) None /\
  exception (snd r)
    = Some "JNI call GetPrimitiveArrayCritical(processIdArray, &isCopy) failed"%string /\
  fdtab (snd r) !! os_open_ptmx o = Some (Fdesc (PtyMaster (os_pty_index o)) true) /\
  trace (snd r) = trace w ++ setup_events o rows columns cell_width cell_height /\
  last (trace (snd r)) = Some (EvFork (os_fork o)).
Proof.
  intros Ha Hu Hready Hfork r. subst r.
  destruct (createSubprocess_served o false cmd dir args envVars
              rows columns cell_width cell_height w Ha Hu)
    as (argv & envp & w3 & K3 & T3 & _ & _ & _ & _ & _ & Heq).
  rewrite Heq. clear Heq.
  rewrite (create_subprocess_ready _ _ _ _ _ _ _ _ _ _ _ Hready). cbv zeta.
  assert ((os_fork o <? 0) = false) as -> by (apply Z.ltb_ge; lia).
  assert ((0 <? os_fork o) = true) as -> by (apply Z.ltb_lt; lia).
  cbv iota. cbn [fst snd].
  set (wf := world_at_fork o rows columns cell_width cell_height w3).
  destruct (cleanup_frame (Some cmd) (Some dir) argv envp wf) as (Kf & Tf & _).
  cbv zeta in Kf, Tf.
  apply kernel_state_inv in Kf as (Ff & _).
  apply kernel_state_inv in K3 as (F3 & _).
  rewrite exception_set_exception, fdtab_set_exception, trace_set_exception, Ff, Tf.
  subst wf.
  rewrite (fdtab_world_at_fork _ _ _ _ _ _ _ Hready),
    (trace_world_at_fork _ _ _ _ _ _ _ Hready), T3.
  split; [reflexivity |]. split; [reflexivity |].
  split; [apply lookup_insert_eq |]. split; [reflexivity |].
  unfold setup_events.
  match goal with
  | |- last (?t ++ ?l) = _ =>
      change l with (removelast l ++ [EvFork (os_fork o)])
  end.
  rewrite app_assoc. apply last_snoc.
Qed.

Lemma process_id_array_failure_loses_the_child_witness :
  fst (JNI.createSubprocess (sample_os 1234 0) false "sh" "/"
         (Some ["sh"]%string) None 24 80 10 20 sample_world)
  = Returned (-1) None.
Proof.
  assert (device_ready (sample_os 1234 0) "/dev/pts/2") as Hready
    by (repeat split; cbn; lia).
  assert (0 < os_fork (sample_os 1234 0)) as Hfork by (cbn; lia).
  exact (proj1 (process_id_array_failure_loses_the_child (sample_os 1234 0) "sh" "/"
                  (Some ["sh"]%string) None 24 80 10 20 sample_world "/dev/pts/2"
                  eq_refl eq_refl Hready Hfork)).
Defined.

(** ** Failures of the allocator and of the JVM *)

(** X21: when [malloc] refuses the [envp] array, everything allocated for
    [argv] before is released: the call returns -1 with the exception
    thrown, the heap and the string buffers are those of before the call,
    and no system call was made. *)
Theorem envp_malloc_failure_frees_argv
    (o : os) (critical_ok : bool) (cmd dir : string)
    (args : option (list string)) (e : string) (envs : list string)
    (rest : list bool) (rows columns cell_width cell_height : Z) (w : world) :
  heap_fresh w ->
  utf_plan w = [] ->
  alloc_plan w = repeat true (vector_requests args) ++ false :: rest ->
  let r := JNI.createSubprocess o critical_ok cmd dir args (Some (e :: envs))
                                rows columns cell_width cell_height w in
  fst r = Returned (-1) None /\
  exception (snd r) = Some "malloc() for envp array failed"%string /\
  heap (snd r) = heap w /\ utf_pins (snd r) = utf_pins w /\
  trace (snd r) = trace w /\ kernel_state (snd r) = kernel_state w.
Proof.
  intros Hfresh Hutf Halloc r. subst r. unfold JNI.createSubprocess.
  pose proof (marshal_argv_frame args w) as (Ka & Ta & Pa & _).
  unfold vector_requests in Halloc.
  destruct (array_elements args) as [| a l] eqn:Eargs.
  - assert (marshal_argv args w = (Built None, w)) as Em
      by (unfold marshal_argv; now rewrite Eargs).
    rewrite Em. cbn [repeat app] in Halloc.
    unfold marshal_envp. cbn [array_elements].
    rewrite (alloc_refused _ _ _ Halloc).
    cbn [free_if_built throw_runtime_exception fst snd].
    rewrite exception_set_exception, heap_set_exception, utf_pins_set_exception,
      trace_set_exception, kernel_state_set_exception, heap_set_heap, utf_pins_set_heap,
      trace_set_heap, kernel_state_set_heap.
    repeat split.
  - assert (args = Some (a :: l)) as -> by (destruct args; cbn in Eargs; congruence).
    destruct (marshal_argv_of_served a l w) as (w1 & Em & Hheap & Hnext & Hplan & _).
    { rewrite Hutf. apply serves_nil. }
    { rewrite Halloc. apply serves_repeat. }
    rewrite Em in Ka, Ta, Pa |- *. cbn [fst snd] in Ka, Ta, Pa.
    cbn [length] in Halloc. rewrite Halloc, drop_repeat_app in Hplan.
    unfold marshal_envp. cbn [array_elements].
    rewrite (alloc_refused _ _ _ Hplan).
    cbn [throw_runtime_exception fst snd].
    rewrite exception_set_exception, heap_set_exception, utf_pins_set_exception,
      trace_set_exception, kernel_state_set_exception.
    match goal with
    | |- context [free_if_built ?v ?x] =>
        destruct (free_if_built_frame v x) as (-> & -> & _ & ->)
    end.
    rewrite utf_pins_set_heap, trace_set_heap, kernel_state_set_heap.
    split; [reflexivity |]. split; [reflexivity |].
    split; [| split; [exact Pa | split; [exact Ta | exact Ka]]].
    cbn [free_if_built]. apply (free_vector_restores (next_block w) (a :: l)).
    + exact Hfresh.
    + rewrite heap_set_heap. exact Hheap.
Qed.

Lemma envp_malloc_failure_frees_argv_witness :
  heap (snd (JNI.createSubprocess (sample_os 1234 0) true "sh" "/"
               (Some ["sh"; "-l"]%string) (Some ["HOME=/"]%string) 24 80 10 20
               (set_heap ∅ 0 [true; true; true; false] sample_world)))
  = ∅.
Proof.
  refine (proj1 (proj2 (proj2
            (envp_malloc_failure_frees_argv (sample_os 1234 0) true "sh" "/"
               (Some ["sh"; "-l"]%string) "HOME=/" [] [] 24 80 10 20
               (set_heap ∅ 0 [true; true; true; false] sample_world) _ eq_refl eq_refl)))).
  intros p _. reflexivity.
Defined.





(** ** A copy that [strdup] could not make *)






